(** * SmartAcc Analyst (Finacc): the upload -> request -> parse -> render pipeline

    A shallow embedding of
      - [src/services/geminiService.ts]  ([analyzeFinancialData], the types),
      - [src/App.tsx]                    ([handleFileUpload], [handleReset]),
      - [src/components/FileUpload.tsx]  ([handleFileChange], the Dashboard's
                                          filters and [handleExportExcel]),
    together with the ECMAScript built-ins these functions call
    ([String.prototype.trim], [endsWith], [includes], [replace] with the three
    regular expressions of the client, [JSON.parse]). *)

From Stdlib Require Import List Bool Arith NArith ZArith Lia String Ascii.
Import ListNotations.

Local Open Scope N_scope.

(* ================================================================== *)
(** * JavaScript strings *)
(* ================================================================== *)

(** A JavaScript string is a sequence of UTF-16 code units. *)
Definition code_unit := N.
Definition jsstring := list code_unit.

Module Utf8.
(** Literals are written as Rocq strings (UTF-8 bytes) and decoded to code
    units, so that the Thai messages of the source can be quoted as they
    stand. *)
Definition byte (a : ascii) : N := N_of_ascii a.
Definition cont (a : ascii) : N := N.land (byte a) 63.

Definition surrogates (cp : N) : jsstring :=
  let v := cp - 65536 in
  [55296 + N.shiftr v 10; 56320 + N.land v 1023].

Fixpoint decode (s : string) : jsstring :=
  match s with
  | EmptyString => []
  | String a s1 =>
    let b := byte a in
    if b <? 128 then b :: decode s1
    else if b <? 224 then
      match s1 with
      | String a1 s2 => (N.shiftl (N.land b 31) 6 + cont a1) :: decode s2
      | _ => []
      end
    else if b <? 240 then
      match s1 with
      | String a1 (String a2 s3) =>
        (N.shiftl (N.land b 15) 12 + N.shiftl (cont a1) 6 + cont a2) :: decode s3
      | _ => []
      end
    else
      match s1 with
      | String a1 (String a2 (String a3 s4)) =>
        surrogates (N.shiftl (N.land b 7) 18 + N.shiftl (cont a1) 12
                    + N.shiftl (cont a2) 6 + cont a3) ++ decode s4
      | _ => []
      end
  end.
End Utf8.

Definition js (s : string) : jsstring := Utf8.decode s.

Fixpoint jsstring_eqb (a b : jsstring) : bool :=
  match a, b with
  | [], [] => true
  | x :: a', y :: b' => (x =? y) && jsstring_eqb a' b'
  | _, _ => false
  end.

(** [!s] is false exactly for the empty string. *)
Definition truthy_string (s : jsstring) : bool :=
  match s with [] => false | _ => true end.

Module JsString.

(** WhiteSpace and LineTerminator code units: what [trim] removes and what
    [\s] matches in a regular expression without the [u] flag. *)
Definition is_space (c : code_unit) : bool :=
  ((9 <=? c) && (c <=? 13) || (c =? 32) || (c =? 160) || (c =? 5760)
   || (8192 <=? c) && (c <=? 8202) || (c =? 8232) || (c =? 8233)
   || (c =? 8239) || (c =? 8287) || (c =? 12288) || (c =? 65279)).

Fixpoint trimStart (s : jsstring) : jsstring :=
  match s with
  | c :: s' => if is_space c then trimStart s' else s
  | [] => []
  end.

Definition trimEnd (s : jsstring) : jsstring := rev (trimStart (rev s)).

(** [s.trim()] *)
Definition trim (s : jsstring) : jsstring := trimEnd (trimStart s).

(** [s.startsWith(p)] *)
Fixpoint startsWith (s p : jsstring) : bool :=
  match p, s with
  | [], _ => true
  | y :: p', x :: s' => (x =? y) && startsWith s' p'
  | _ :: _, [] => false
  end.

(** [s.endsWith(p)] *)
Definition endsWith (s p : jsstring) : bool := startsWith (rev s) (rev p).

(** [s.includes(p)] *)
Fixpoint includes (s p : jsstring) : bool :=
  startsWith s p ||
  match s with
  | [] => false
  | _ :: s' => includes s' p
  end.

End JsString.


(* ================================================================== *)
(** * Regular expressions of the client *)
(* ================================================================== *)

Module Regex.
Import JsString.

(** The fragment the three patterns of [analyzeFinancialData] are written
    in: literal code units, a greedy [\s*], and the anchor [$]. The anchor
    [^] is the [anchored] flag of [replace] below. No pattern carries a
    flag, so [$] is the end of the input and [replace] rewrites the first
    match only. *)
Inductive atom :=
| Lit (c : code_unit)
| SpaceStar
| Eol.

Definition regex := list atom.

Definition lits (s : jsstring) : regex := map Lit s.

(** Backtracking matcher: [match_here re s] is what is left of [s] after the
    first way [re] matches a prefix of [s], the greedy star trying the
    longest run of spaces first. *)
Fixpoint match_here (re : regex) (s : jsstring) {struct re} : option jsstring :=
  match re with
  | [] => Some s
  | Lit c :: re' =>
    match s with
    | x :: s' => if x =? c then match_here re' s' else None
    | [] => None
    end
  | Eol :: re' =>
    match s with
    | [] => match_here re' []
    | _ :: _ => None
    end
  | SpaceStar :: re' =>
    (fix star (s : jsstring) : option jsstring :=
       match s with
       | x :: s' =>
         if is_space x then
           match star s' with
           | Some r => Some r
           | None => match_here re' s
           end
         else match_here re' s
       | [] => match_here re' []
       end) s
  end.

(** The first match of an unanchored pattern, scanning start positions from
    the left; the match is replaced by the empty string. *)
Fixpoint replace_scan (re : regex) (s : jsstring) : jsstring :=
  match match_here re s with
  | Some rest => rest
  | None =>
    match s with
    | [] => []
    | c :: s' => c :: replace_scan re s'
    end
  end.

(** [s.replace(/re/, '')], [anchored] when the pattern starts with [^]. *)
Definition replace_empty (anchored : bool) (re : regex) (s : jsstring) : jsstring :=
  if anchored then
    match match_here re s with
    | Some rest => rest
    | None => s
    end
  else replace_scan re s.

End Regex.

(** [/^```json\s*/], [/^```\s*/] and [/\s*```$/] *)
Definition fence : jsstring := js "```".
Definition re_open_json : Regex.regex := Regex.lits (js "```json") ++ [Regex.SpaceStar].
Definition re_open : Regex.regex := Regex.lits fence ++ [Regex.SpaceStar].
Definition re_close : Regex.regex := Regex.SpaceStar :: Regex.lits fence ++ [Regex.Eol].

(** Lines 128-130 of geminiService.ts. *)
Definition cleanText (text : jsstring) : jsstring :=
  let cleanText := JsString.trim text in
  Regex.replace_empty false re_close
    (Regex.replace_empty true re_open
       (Regex.replace_empty true re_open_json cleanText)).


(* ================================================================== *)
(** * JSON values and [JSON.parse] *)
(* ================================================================== *)

(** What [JSON.parse] can return. A number is kept as the decimal literal it
    was written with (its rounding to a binary64 is not modelled); the
    members of an object are kept in the order they were first defined. *)
#[warnings="-register-all"]
Inductive JSValue :=
| JNull
| JBool (b : bool)
| JNumber (literal : jsstring)
| JString (s : jsstring)
| JArray (elements : list JSValue)
| JObject (members : list (jsstring * JSValue)).

Module Json.

Inductive token :=
| TLBrace | TRBrace | TLBracket | TRBracket | TColon | TComma
| TString (s : jsstring)
| TNumber (literal : jsstring)
| TTrue | TFalse | TNull.

(** ** Lexical grammar (ECMA-404), read one code unit at a time *)

(** JSON white space: tab, line feed, carriage return, space. *)
Definition is_ws (c : code_unit) : bool :=
  (c =? 9) || (c =? 10) || (c =? 13) || (c =? 32).

Definition is_digit (c : code_unit) : bool := (48 <=? c) && (c <=? 57).
Definition is_digit19 (c : code_unit) : bool := (49 <=? c) && (c <=? 57).
Definition is_e (c : code_unit) : bool := (c =? 101) || (c =? 69).      (* e E *)
Definition is_sign (c : code_unit) : bool := (c =? 43) || (c =? 45).    (* + - *)

Definition hex_value (c : code_unit) : option N :=
  if is_digit c then Some (c - 48)
  else if (97 <=? c) && (c <=? 102) then Some (c - 87)
  else if (65 <=? c) && (c <=? 70) then Some (c - 55)
  else None.

(** number = [ minus ] int [ frac ] [ exp ]; 46 is the decimal point. *)
Inductive num_state :=
| NMinus | NZero | NInt | NDot | NFrac | NExp | NExpSign | NExpDigits.

Definition num_step (st : num_state) (c : code_unit) : option num_state :=
  match st with
  | NMinus => if c =? 48 then Some NZero else if is_digit19 c then Some NInt else None
  | NZero => if c =? 46 then Some NDot else if is_e c then Some NExp else None
  | NInt => if is_digit c then Some NInt
            else if c =? 46 then Some NDot else if is_e c then Some NExp else None
  | NDot => if is_digit c then Some NFrac else None
  | NFrac => if is_digit c then Some NFrac else if is_e c then Some NExp else None
  | NExp => if is_sign c then Some NExpSign
            else if is_digit c then Some NExpDigits else None
  | NExpSign => if is_digit c then Some NExpDigits else None
  | NExpDigits => if is_digit c then Some NExpDigits else None
  end.

Definition num_accepting (st : num_state) : bool :=
  match st with
  | NZero | NInt | NFrac | NExpDigits => true
  | _ => false
  end.

Inductive esc_state :=
| Plain                          (* inside the string *)
| Backslash                      (* after a reverse solidus *)
| Hex (n : nat) (v : N).         (* after \u and n hexadecimal digits *)

Inductive word := WTrue | WFalse | WNull.

(** The letters of a literal name after its first one. *)
Definition word_rest (w : word) : jsstring :=
  match w with
  | WTrue => js "rue"
  | WFalse => js "alse"
  | WNull => js "ull"
  end.

Definition word_token (w : word) : token :=
  match w with
  | WTrue => TTrue
  | WFalse => TFalse
  | WNull => TNull
  end.

Inductive lstate :=
| LIdle
| LString (acc : jsstring) (e : esc_state)       (* acc: reversed *)
| LNumber (st : num_state) (acc : jsstring)      (* acc: reversed *)
| LWord (w : word) (seen : nat).                 (* in true, false, null *)

(** The lexer's configuration: its state and the tokens read, reversed. *)
Definition lconf := (lstate * list token)%type.

Definition idle_step (out : list token) (c : code_unit) : option lconf :=
  if is_ws c then Some (LIdle, out)
  else if c =? 123 then Some (LIdle, TLBrace :: out)        (* left brace *)
  else if c =? 125 then Some (LIdle, TRBrace :: out)        (* right brace *)
  else if c =? 91 then Some (LIdle, TLBracket :: out)       (* left bracket *)
  else if c =? 93 then Some (LIdle, TRBracket :: out)       (* right bracket *)
  else if c =? 58 then Some (LIdle, TColon :: out)          (* colon *)
  else if c =? 44 then Some (LIdle, TComma :: out)          (* comma *)
  else if c =? 34 then Some (LString [] Plain, out)         (* quotation mark *)
  else if c =? 45 then Some (LNumber NMinus [c], out)       (* minus *)
  else if c =? 48 then Some (LNumber NZero [c], out)        (* 0 *)
  else if is_digit19 c then Some (LNumber NInt [c], out)    (* 1-9 *)
  else if c =? 116 then Some (LWord WTrue 0, out)           (* t *)
  else if c =? 102 then Some (LWord WFalse 0, out)          (* f *)
  else if c =? 110 then Some (LWord WNull 0, out)           (* n *)
  else None.

(** The escapes of one letter: quotation mark, reverse solidus, solidus,
    b, f, n, r, t. *)
Definition escape_char (c : code_unit) : option code_unit :=
  if c =? 34 then Some 34
  else if c =? 92 then Some 92
  else if c =? 47 then Some 47
  else if c =? 98 then Some 8
  else if c =? 102 then Some 12
  else if c =? 110 then Some 10
  else if c =? 114 then Some 13
  else if c =? 116 then Some 9
  else None.

Definition string_step (acc : jsstring) (e : esc_state) (out : list token)
           (c : code_unit) : option lconf :=
  match e with
  | Plain =>
    if c =? 34 then Some (LIdle, TString (rev acc) :: out)
    else if c =? 92 then Some (LString acc Backslash, out)
    else if c <? 32 then None
    else Some (LString (c :: acc) Plain, out)
  | Backslash =>
    if c =? 117 then Some (LString acc (Hex 0 0), out)
    else match escape_char c with
         | Some x => Some (LString (x :: acc) Plain, out)
         | None => None
         end
  | Hex n v =>
    match hex_value c with
    | Some h =>
      if Nat.eqb n 3 then Some (LString ((16 * v + h) :: acc) Plain, out)
      else Some (LString acc (Hex (S n) (16 * v + h)), out)
    | None => None
    end
  end.

Definition lex_step (conf : lconf) (c : code_unit) : option lconf :=
  let '(st, out) := conf in
  match st with
  | LIdle => idle_step out c
  | LString acc e => string_step acc e out c
  | LNumber n acc =>
    match num_step n c with
    | Some n' => Some (LNumber n' (c :: acc), out)
    | None =>
      if num_accepting n then idle_step (TNumber (rev acc) :: out) c else None
    end
  | LWord w seen =>
    match nth_error (word_rest w) seen with
    | Some x =>
      if c =? x then
        if Nat.eqb (S seen) (List.length (word_rest w))
        then Some (LIdle, word_token w :: out)
        else Some (LWord w (S seen), out)
      else None
    | None => None
    end
  end.

Fixpoint lex_run (conf : lconf) (s : jsstring) : option lconf :=
  match s with
  | [] => Some conf
  | c :: s' =>
    match lex_step conf c with
    | Some conf' => lex_run conf' s'
    | None => None
    end
  end.

Definition lex_finish (conf : lconf) : option (list token) :=
  let '(st, out) := conf in
  match st with
  | LIdle => Some (rev out)
  | LNumber n acc =>
    if num_accepting n then Some (rev (TNumber (rev acc) :: out)) else None
  | LString _ _ | LWord _ _ => None
  end.

Definition lex (s : jsstring) : option (list token) :=
  match lex_run (LIdle, []) s with
  | Some conf => lex_finish conf
  | None => None
  end.

(** ** Syntactic grammar, as a pushdown automaton over the tokens *)

(** An enclosing array or object still open. *)
Inductive frame :=
| InArray (done : list JSValue)                            (* reversed *)
| InObject (done : list (jsstring * JSValue)) (key : jsstring).

Inductive pstate :=
| ExpectValue (stk : list frame)
| ExpectValueOrClose (stk : list frame)                    (* after [ *)
| ExpectKeyOrClose (stk : list frame)                      (* after { *)
| ExpectKey (done : list (jsstring * JSValue)) (stk : list frame)
| ExpectColon (done : list (jsstring * JSValue)) (key : jsstring) (stk : list frame)
| HaveValue (v : JSValue) (stk : list frame).

(** CreateDataProperty: a repeated key keeps its place and takes the later
    value. *)
Fixpoint define_member (ms : list (jsstring * JSValue)) (k : jsstring) (v : JSValue)
  : list (jsstring * JSValue) :=
  match ms with
  | [] => [(k, v)]
  | (k', v') :: ms' =>
    if jsstring_eqb k' k then (k', v) :: ms' else (k', v') :: define_member ms' k v
  end.

Definition value_step (stk : list frame) (t : token) : option pstate :=
  match t with
  | TString s => Some (HaveValue (JString s) stk)
  | TNumber n => Some (HaveValue (JNumber n) stk)
  | TTrue => Some (HaveValue (JBool true) stk)
  | TFalse => Some (HaveValue (JBool false) stk)
  | TNull => Some (HaveValue JNull stk)
  | TLBracket => Some (ExpectValueOrClose stk)
  | TLBrace => Some (ExpectKeyOrClose stk)
  | TRBrace | TRBracket | TColon | TComma => None
  end.

Definition parse_step (st : pstate) (t : token) : option pstate :=
  match st with
  | ExpectValue stk => value_step stk t
  | ExpectValueOrClose stk =>
    match t with
    | TRBracket => Some (HaveValue (JArray []) stk)
    | _ => value_step (InArray [] :: stk) t
    end
  | ExpectKeyOrClose stk =>
    match t with
    | TRBrace => Some (HaveValue (JObject []) stk)
    | TString k => Some (ExpectColon [] k stk)
    | _ => None
    end
  | ExpectKey done stk =>
    match t with
    | TString k => Some (ExpectColon done k stk)
    | _ => None
    end
  | ExpectColon done k stk =>
    match t with
    | TColon => Some (ExpectValue (InObject done k :: stk))
    | _ => None
    end
  | HaveValue v stk =>
    match stk, t with
    | InArray done :: stk', TComma => Some (ExpectValue (InArray (v :: done) :: stk'))
    | InArray done :: stk', TRBracket => Some (HaveValue (JArray (rev (v :: done))) stk')
    | InObject done k :: stk', TComma => Some (ExpectKey (define_member done k v) stk')
    | InObject done k :: stk', TRBrace =>
      Some (HaveValue (JObject (define_member done k v)) stk')
    | _, _ => None
    end
  end.

Fixpoint parse_run (st : pstate) (ts : list token) : option pstate :=
  match ts with
  | [] => Some st
  | t :: ts' =>
    match parse_step st t with
    | Some st' => parse_run st' ts'
    | None => None
    end
  end.

Definition parse_tokens (ts : list token) : option JSValue :=
  match parse_run (ExpectValue []) ts with
  | Some (HaveValue v []) => Some v
  | _ => None
  end.

(** [JSON.parse(text)]: [None] stands for the SyntaxError it throws. *)
Definition parse (text : jsstring) : option JSValue :=
  match lex text with
  | Some ts => parse_tokens ts
  | None => None
  end.

End Json.

(** Examples write a JSON text with ['] for the quotation mark. *)
Definition jsq (s : string) : jsstring :=
  map (fun c => if c =? 39 then 34 else c) (js s).

(** [v.k], reading an own member: [None] is [undefined]. *)
Fixpoint lookup (ms : list (jsstring * JSValue)) (k : jsstring) : option JSValue :=
  match ms with
  | [] => None
  | (k', v) :: ms' => if jsstring_eqb k' k then Some v else lookup ms' k
  end.

Definition member (v : JSValue) (k : string) : option JSValue :=
  match v with
  | JObject ms => lookup ms (js k)
  | _ => None
  end.


(* ================================================================== *)
(** * The analysis client (src/services/geminiService.ts) *)
(* ================================================================== *)

(** [interface FileData] *)
Record FileData := { data : jsstring; mimeType : jsstring }.

(** A thrown value: an [Error] (a [SyntaxError] is one) with its message, or
    any other value with the text [String(error)] gives it. *)
Inductive thrown :=
| ErrorObject (message : jsstring)
| OtherValue (text : jsstring).

(** [error instanceof Error ? error.message : String(error)] *)
Definition error_text (e : thrown) : jsstring :=
  match e with
  | ErrorObject m => m
  | OtherValue s => s
  end.

(** The [responseSchema] of the request. *)
#[warnings="-register-all"]
Inductive Schema :=
| TypeString (description : option jsstring) (enum : option (list jsstring))
| TypeNumber
| TypeArray (items : Schema)
| TypeObject (properties : list (string * Schema)).

Inductive Part :=
| TextPart (text : jsstring)
| InlineData (mimeType : jsstring) (data : jsstring).

Record Request := {
  model : jsstring;
  parts : list Part;
  responseMimeType : jsstring;
  responseSchema : Schema
}.

(** What [await ai.models.generateContent(...)] gives: a response, whose
    [text] may be [undefined], or a rejection. *)
Inductive ApiOutcome :=
| Resolved (text : option jsstring)
| Rejected (e : thrown).

(** What the module is loaded with and talks to: the build's environment
    variable, the hosted model, and the host's wording of the [SyntaxError]
    that [JSON.parse] throws on a text. *)
Record Env := {
  VITE_API_KEY : option jsstring;
  generateContent : Request -> ApiOutcome;
  syntaxErrorMessage : jsstring -> jsstring
}.

(** ** Effects: the requests sent and the console, with exceptions *)

Inductive effect :=
| NetworkRequest (r : Request)
| ConsoleError (label : jsstring) (e : thrown).

Inductive completion (A : Type) :=
| Returned (a : A)
| Threw (e : thrown).
Arguments Returned {A} a.
Arguments Threw {A} e.

Module Eff.
(** A computation's completion and the effects it performed, in order. *)
Definition t (A : Type) : Type := (completion A * list effect)%type.

Definition ret {A} (a : A) : t A := (Returned a, []).
Definition throw {A} (e : thrown) : t A := (Threw e, []).
Definition perform (f : effect) : t unit := (Returned tt, [f]).

Definition bind {A B} (m : t A) (k : A -> t B) : t B :=
  match m with
  | (Returned a, l) => let '(c, l') := k a in (c, l ++ l')
  | (Threw e, l) => (Threw e, l)
  end.

(** [try { m } catch (error) { handler error }] *)
Definition try_catch {A} (m : t A) (handler : thrown -> t A) : t A :=
  match m with
  | (Returned a, l) => (Returned a, l)
  | (Threw e, l) => let '(c, l') := handler e in (c, l ++ l')
  end.
End Eff.

Notation "x <- m ;; k" := (Eff.bind m (fun x => k))
  (at level 61, m at next level, right associativity).
Notation "m ;;; k" := (Eff.bind m (fun _ => k))
  (at level 61, right associativity).

Definition missing_key_message : jsstring :=
  js "ไม่พบ API Key กรุณาตั้งค่า Environment Variable (VITE_API_KEY)".
Definition no_response_message : jsstring :=
  js "ไม่ได้รับข้อมูลตอบกลับจาก AI".
Definition failure_prefix : jsstring :=
  js "เกิดข้อผิดพลาดในการวิเคราะห์ข้อมูล: ".

(** The template literal of lines 20-49, its quotation marks written [']. *)
Definition prompt : jsstring := jsq "
    คุณคือ CFO และผู้เชี่ยวชาญด้านการวิเคราะห์งบการเงิน (Financial Analyst) ระดับสูง
    หน้าที่ของคุณคือการวิเคราะห์ไฟล์ข้อมูลการเงินที่ได้รับ (Excel/CSV/PDF) เพื่อสร้างรายงานเชิงลึกที่อ่านง่ายและสวยงาม

    **คำสั่งการวิเคราะห์:**

    1.  **Financial Ratios Analysis (เจาะลึกอัตราส่วน):** 
        *   คำนวณและวิเคราะห์อัตราส่วนสำคัญ 4 ด้าน: 
            1. สภาพคล่อง (Liquidity: Current Ratio)
            2. ความสามารถในการทำกำไร (Profitability: Net Profit Margin, ROE)
            3. ประสิทธิภาพ (Efficiency: Asset Turnover)
            4. ภาระหนี้สิน (Leverage: D/E Ratio)
        *   ระบุสถานะ (Good/Warning/Critical) ของแต่ละตัวพร้อมคำอธิบายสั้นๆ ที่เข้าใจง่าย

    2.  **Significant Variance (รายการผิดปกติ):**
        *   ค้นหารายการที่เพิ่ม/ลดอย่างมีนัยสำคัญ
        *   **ต้องระบุหน่วยงาน (Department)** ให้ชัดเจนที่สุดเท่าที่จะหาได้จากไฟล์ (เช่น 'การไฟฟ้า', 'BusA') หากไม่พบให้ระบุ 'General'

    3.  **Formal Executive Report (บทรายงานผู้บริหาร):**
        *   เขียนในรูปแบบ **Markdown** ที่สวยงาม (ใช้ Header #, Bullet points, Bold text)
        *   ใช้ภาษาไทยที่เป็นทางการแต่ **'อ่านง่าย เข้าใจง่าย'** (Professional yet Accessible)
        *   **โครงสร้างรายงาน:**
            *   ## 1. บทสรุปผู้บริหาร (Executive Summary): สรุปประเด็นสำคัญที่สุด 3-4 ข้อ
            *   ## 2. ผลการดำเนินงาน (Performance): วิเคราะห์รายได้และกำไร แยกตามหน่วยงาน (ถ้ามี)
            *   ## 3. สุขภาพทางการเงิน (Financial Health): วิเคราะห์สภาพคล่องและหนี้สิน
            *   ## 4. แนวโน้มในอนาคต (Future Outlook): คาดการณ์ทิศทางจากข้อมูลที่มี
            *   ## 5. ข้อเสนอแนะเชิงกลยุทธ์ (Strategic Recommendations): สิ่งที่ควรทำต่อไป

    **รูปแบบข้อมูล JSON Output:**
  ".

Definition plain : Schema := TypeString None None.
Definition described (d : string) : Schema := TypeString (Some (js d)) None.
Definition enum_of (vs : list string) : Schema := TypeString None (Some (map js vs)).

Definition responseSchema_value : Schema :=
  TypeObject [
    ("overallAnalysis", described "บทสรุปสั้นๆ 2-3 บรรทัด สำหรับแสดงบน Dashboard Card");
    ("formalReport", described "รายงานฉบับเต็ม format Markdown ที่สวยงาม อ่านง่าย");
    ("significantChanges", TypeArray (TypeObject [
       ("item", plain);
       ("relatedDepartment", plain);
       ("amount", TypeNumber);
       ("percentage", plain);
       ("trend", enum_of ["increase"; "decrease"]);
       ("reason", plain)]));
    ("ratios", TypeArray (TypeObject [
       ("name", described "ชื่ออัตราส่วน (เช่น Current Ratio)");
       ("value", TypeNumber);
       ("unit", described "หน่วย (เช่น เท่า, %)");
       ("status", enum_of ["good"; "warning"; "critical"]);
       ("description", described "คำอธิบายความหมายสั้นๆ ภาษาชาวบ้าน")]));
    ("departments", TypeArray (TypeObject [
       ("name", plain);
       ("revenue", TypeNumber);
       ("expense", TypeNumber);
       ("profit", TypeNumber);
       ("liquidityComment", plain)]));
    ("topHighItems", TypeArray plain);
    ("topLowItems", TypeArray plain)
  ]%string.

Definition request_for (file : FileData) : Request :=
  {| model := js "gemini-2.5-flash";
     parts := [TextPart prompt; InlineData (mimeType file) (data file)];
     responseMimeType := js "application/json";
     responseSchema := responseSchema_value |}.

Section Client.
Variable env : Env.

(** [const apiKey = import.meta.env.VITE_API_KEY || ''] *)
Definition apiKey : jsstring :=
  match VITE_API_KEY env with
  | Some k => if truthy_string k then k else []
  | None => []
  end.

(** [await ai.models.generateContent(request)] *)
Definition call_generateContent (r : Request) : Eff.t (option jsstring) :=
  Eff.perform (NetworkRequest r) ;;;
  match generateContent env r with
  | Resolved text => Eff.ret text
  | Rejected e => Eff.throw e
  end.

(** [JSON.parse(text)] *)
Definition JSON_parse (text : jsstring) : Eff.t JSValue :=
  match Json.parse text with
  | Some v => Eff.ret v
  | None => Eff.throw (ErrorObject (syntaxErrorMessage env text))
  end.

Definition analyzeFinancialData (file : FileData) : Eff.t JSValue :=
  if negb (truthy_string apiKey) then
    Eff.throw (ErrorObject missing_key_message)
  else
    Eff.try_catch
      (response_text <- call_generateContent (request_for file) ;;
       match response_text with
       | Some ((_ :: _) as text) =>
         (* the cast [as AnalysisResult] is erased: nothing is checked *)
         JSON_parse (cleanText text)
       | Some [] | None =>
         Eff.throw (ErrorObject no_response_message)
       end)
      (fun error =>
         Eff.perform (ConsoleError (js "Gemini Error:") error) ;;;
         Eff.throw (ErrorObject (failure_prefix ++ error_text error))).

End Client.


(* ================================================================== *)
(** * The application state machine (src/App.tsx) *)
(* ================================================================== *)

(** [enum AppState] *)
Inductive AppState := UPLOAD | ANALYZING | RESULT | ERROR.

(** The four [useState] cells of [App], and what the host holds for it
    between two callbacks: the interval of line 22 with its period, the
    promise [handleFileUpload] awaits, and the timeout of line 35 with its
    delay and the [result] its closure captured. *)
Record App := {
  state : AppState;
  analysisData : option JSValue;
  errorMessage : jsstring;
  analysisProgress : Z;
  progressInterval : option Z;
  request : option (completion JSValue);
  resultTimer : option (Z * JSValue)
}.

Definition initial : App :=
  {| state := UPLOAD; analysisData := None; errorMessage := [];
     analysisProgress := 0%Z; progressInterval := None; request := None;
     resultTimer := None |}.

Definition unknown_error_message : jsstring :=
  js "เกิดข้อผิดพลาดที่ไม่ทราบสาเหตุ".

(** The updater of line 23. *)
Definition tick (prev : Z) : Z :=
  if (prev >=? 90)%Z then prev else (prev + 2)%Z.

(** What the user and the host can do to the component. *)
Inductive event :=
| FileUploaded (file : FileData)     (* FileUpload calls onFileUpload *)
| ProgressTick                       (* the interval fires *)
| RequestSettled                     (* the awaited promise settles *)
| DisplayDelayElapsed                (* the timeout fires *)
| ResetClicked.                      (* a button bound to handleReset *)

Section AppMachine.
Variable env : Env.

(** [handleFileUpload], lines 18-30, up to the [await]. *)
Definition handleFileUpload_start (file : FileData) (a : App) : App :=
  {| state := ANALYZING;
     analysisData := analysisData a;
     errorMessage := errorMessage a;
     analysisProgress := 0%Z;
     progressInterval := Some 150%Z;
     request := Some (fst (analyzeFinancialData env file));
     resultTimer := resultTimer a |}.

(** [handleFileUpload], lines 30-45, from the [await] on. *)
Definition handleFileUpload_resume (c : completion JSValue) (a : App) : App :=
  match c with
  | Returned result =>
    {| state := state a;
       analysisData := analysisData a;
       errorMessage := errorMessage a;
       analysisProgress := 100%Z;
       progressInterval := None;
       request := None;
       resultTimer := Some (500%Z, result) |}
  | Threw error =>
    {| state := ERROR;
       analysisData := analysisData a;
       errorMessage := match error with
                       | ErrorObject m => m
                       | OtherValue _ => unknown_error_message
                       end;
       analysisProgress := analysisProgress a;
       progressInterval := None;
       request := None;
       resultTimer := resultTimer a |}
  end.

(** The callback of the interval, lines 22-27. *)
Definition progress_callback (a : App) : App :=
  {| state := state a;
     analysisData := analysisData a;
     errorMessage := errorMessage a;
     analysisProgress := tick (analysisProgress a);
     progressInterval := progressInterval a;
     request := request a;
     resultTimer := resultTimer a |}.

(** The callback of the timeout, lines 35-38. *)
Definition result_callback (result : JSValue) (a : App) : App :=
  {| state := RESULT;
     analysisData := Some result;
     errorMessage := errorMessage a;
     analysisProgress := analysisProgress a;
     progressInterval := progressInterval a;
     request := request a;
     resultTimer := None |}.

(** [handleReset], lines 48-53. *)
Definition handleReset (a : App) : App :=
  {| state := UPLOAD;
     analysisData := None;
     errorMessage := [];
     analysisProgress := 0%Z;
     progressInterval := progressInterval a;
     request := request a;
     resultTimer := resultTimer a |}.

(** One callback. FileUpload is rendered in UPLOAD only (line 93) and calls
    [onFileUpload] once; the reset buttons are rendered in ERROR (line 142)
    and, inside the Dashboard, in RESULT (line 151; the Dashboard needs a
    truthy result, the machine allows the reset in RESULT in any case); a
    timer fires only while it is pending. [None]: the event cannot happen
    in this state. *)
Definition step (a : App) (e : event) : option App :=
  match e with
  | FileUploaded file =>
    match state a with
    | UPLOAD => Some (handleFileUpload_start file a)
    | _ => None
    end
  | ProgressTick =>
    match progressInterval a with
    | Some _ => Some (progress_callback a)
    | None => None
    end
  | RequestSettled =>
    match request a with
    | Some c => Some (handleFileUpload_resume c a)
    | None => None
    end
  | DisplayDelayElapsed =>
    match resultTimer a with
    | Some (_, result) => Some (result_callback result a)
    | None => None
    end
  | ResetClicked =>
    match state a with
    | RESULT | ERROR => Some (handleReset a)
    | _ => None
    end
  end.

Fixpoint run (a : App) (es : list event) : option App :=
  match es with
  | [] => Some a
  | e :: es' =>
    match step a e with
    | Some a' => run a' es'
    | None => None
    end
  end.

End AppMachine.

(* ================================================================== *)
(** * File classification (src/components/FileUpload.tsx, lines 35-40) *)
(* ================================================================== *)

(** The two attributes of the browser's [File] the handler reads. *)
Module File.
Record t := { name : jsstring; type : jsstring }.
End File.

Definition isSpreadsheet (file : File.t) : bool :=
  JsString.endsWith (File.name file) (js ".xlsx") ||
  JsString.endsWith (File.name file) (js ".xls") ||
  JsString.endsWith (File.name file) (js ".csv") ||
  JsString.includes (File.type file) (js "spreadsheet") ||
  JsString.includes (File.type file) (js "excel") ||
  jsstring_eqb (File.type file) (js "text/csv").

(** The branch of line 43 the file is read by. *)
Inductive classification := Tabular | Opaque.

Definition classify (file : File.t) : classification :=
  if isSpreadsheet file then Tabular else Opaque.


(* ================================================================== *)
(** * The typed reading of a result (the interfaces of the types module) *)
(* ================================================================== *)

(** A [number] field, as the literal it was parsed from. *)
Definition number := jsstring.

Module FinancialRatio.
(** [status] is declared ['good' | 'warning' | 'critical'], but no code
    checks it: at run time it is whatever string the response carried. *)
Record t := {
  name : jsstring;
  value : number;
  unit : jsstring;
  status : jsstring;
  description : jsstring
}.
End FinancialRatio.

Module DepartmentAnalysis.
Record t := {
  name : jsstring;
  revenue : number;
  expense : number;
  profit : number;
  liquidityComment : jsstring
}.
End DepartmentAnalysis.

Module SignificantChange.
Record t := {
  item : jsstring;
  amount : number;
  percentage : jsstring;
  trend : jsstring;
  reason : jsstring;
  relatedDepartment : option jsstring        (* relatedDepartment?: string *)
}.
End SignificantChange.

(** The collections are read by the Dashboard behind [if (data.x)],
    [!data.x] and [data.x?.length]; [None] is a collection that is
    [undefined] or [null]. *)
Record AnalysisResult := {
  overallAnalysis : jsstring;
  formalReport : jsstring;
  ratios : option (list FinancialRatio.t);
  departments : option (list DepartmentAnalysis.t);
  significantChanges : option (list SignificantChange.t);
  topHighItems : option (list jsstring);
  topLowItems : option (list jsstring)
}.

Module Read.
(** How a parsed value is seen through the interfaces: the value itself is
    not changed (the cast is erased). [None]: the value carries a member
    of another type than the interface declares, which this development
    does not follow further. *)

Definition string_member (v : JSValue) (k : string) : option jsstring :=
  match member v k with
  | Some (JString s) => Some s
  | _ => None
  end.

Definition number_member (v : JSValue) (k : string) : option number :=
  match member v k with
  | Some (JNumber n) => Some n
  | _ => None
  end.

Definition optional_string_member (v : JSValue) (k : string)
  : option (option jsstring) :=
  match member v k with
  | None => Some None
  | Some (JString s) => Some (Some s)
  | Some _ => None
  end.

Fixpoint all {A B} (f : A -> option B) (l : list A) : option (list B) :=
  match l with
  | [] => Some []
  | a :: l' =>
    match f a, all f l' with
    | Some b, Some bs => Some (b :: bs)
    | _, _ => None
    end
  end.

Definition collection {B} (f : JSValue -> option B) (v : JSValue) (k : string)
  : option (option (list B)) :=
  match member v k with
  | None | Some JNull => Some None
  | Some (JArray l) =>
    match all f l with
    | Some bs => Some (Some bs)
    | None => None
    end
  | Some _ => None
  end.

Definition bind {A B} (o : option A) (k : A -> option B) : option B :=
  match o with Some a => k a | None => None end.

Notation "'let?' x := o 'in' k" := (bind o (fun x => k))
  (at level 10, x name, k at level 200).

Definition ratio (v : JSValue) : option FinancialRatio.t :=
  let? n := string_member v "name" in
  let? x := number_member v "value" in
  let? u := string_member v "unit" in
  let? s := string_member v "status" in
  let? d := string_member v "description" in
  Some {| FinancialRatio.name := n; FinancialRatio.value := x;
          FinancialRatio.unit := u; FinancialRatio.status := s;
          FinancialRatio.description := d |}.

Definition department (v : JSValue) : option DepartmentAnalysis.t :=
  let? n := string_member v "name" in
  let? r := number_member v "revenue" in
  let? e := number_member v "expense" in
  let? p := number_member v "profit" in
  let? l := string_member v "liquidityComment" in
  Some {| DepartmentAnalysis.name := n; DepartmentAnalysis.revenue := r;
          DepartmentAnalysis.expense := e; DepartmentAnalysis.profit := p;
          DepartmentAnalysis.liquidityComment := l |}.

Definition change (v : JSValue) : option SignificantChange.t :=
  let? i := string_member v "item" in
  let? a := number_member v "amount" in
  let? p := string_member v "percentage" in
  let? t := string_member v "trend" in
  let? r := string_member v "reason" in
  let? d := optional_string_member v "relatedDepartment" in
  Some {| SignificantChange.item := i; SignificantChange.amount := a;
          SignificantChange.percentage := p; SignificantChange.trend := t;
          SignificantChange.reason := r; SignificantChange.relatedDepartment := d |}.

Definition text (v : JSValue) : option jsstring :=
  match v with JString s => Some s | _ => None end.

Definition result (v : JSValue) : option AnalysisResult :=
  let? o := string_member v "overallAnalysis" in
  let? f := string_member v "formalReport" in
  let? rs := collection ratio v "ratios" in
  let? ds := collection department v "departments" in
  let? cs := collection change v "significantChanges" in
  let? hi := collection text v "topHighItems" in
  let? lo := collection text v "topLowItems" in
  Some {| overallAnalysis := o; formalReport := f; ratios := rs;
          departments := ds; significantChanges := cs;
          topHighItems := hi; topLowItems := lo |}.
End Read.

(* ================================================================== *)
(** * The Dashboard (second module of src/components/FileUpload.tsx) *)
(* ================================================================== *)

Module Dashboard.
Import SignificantChange.

Definition All : jsstring := js "All".
Definition General : jsstring := js "General".

(** [x === s] for an optional string [x] and a string [s]. *)
Definition strict_eq (x : option jsstring) (s : jsstring) : bool :=
  match x with
  | Some y => jsstring_eqb y s
  | None => false
  end.

(** [x || d] for an optional string [x]. *)
Definition or_default (x : option jsstring) (d : jsstring) : jsstring :=
  match x with
  | Some ((_ :: _) as y) => y
  | Some [] | None => d
  end.

(** [Set.prototype.add]: insertion order, no duplicate. *)
Fixpoint set_add (s : list jsstring) (x : jsstring) : list jsstring :=
  match s with
  | [] => [x]
  | y :: s' => if jsstring_eqb y x then s else y :: set_add s' x
  end.

(** The default order of [Array.prototype.sort]: by code units. *)
Fixpoint jsstring_leb (a b : jsstring) : bool :=
  match a, b with
  | [], _ => true
  | _ :: _, [] => false
  | x :: a', y :: b' => (x <? y) || ((x =? y) && jsstring_leb a' b')
  end.

Fixpoint insert_sorted (x : jsstring) (l : list jsstring) : list jsstring :=
  match l with
  | [] => [x]
  | y :: l' => if jsstring_leb x y then x :: l else y :: insert_sorted x l'
  end.

Definition sort (l : list jsstring) : list jsstring :=
  fold_right insert_sorted [] l.

(** Lines 298-309. *)
Definition availableDepartments (data : AnalysisResult) : list jsstring :=
  let depts := [All] in
  let depts :=
    match departments data with
    | Some ds => fold_left (fun s d => set_add s (DepartmentAnalysis.name d)) ds depts
    | None => depts
    end in
  let depts :=
    match significantChanges data with
    | Some cs =>
      fold_left (fun s c =>
                   match relatedDepartment c with
                   | Some ((_ :: _) as d) => set_add s d
                   | _ => s
                   end) cs depts
    | None => depts
    end in
  sort depts.

(** Lines 312-319. *)
Definition filteredChanges (data : AnalysisResult) (selectedDept : jsstring)
  : list SignificantChange.t :=
  match significantChanges data with
  | None => []
  | Some changes =>
    if jsstring_eqb selectedDept All then changes
    else
      filter (fun item =>
                strict_eq (relatedDepartment item) selectedDept ||
                (strict_eq (relatedDepartment item) General &&
                 jsstring_eqb selectedDept All))
             changes
  end.

(** Lines 321-325. *)
Definition filteredDepts (data : AnalysisResult) (selectedDept : jsstring)
  : list DepartmentAnalysis.t :=
  match departments data with
  | None => []
  | Some ds =>
    if jsstring_eqb selectedDept All then ds
    else filter (fun d => jsstring_eqb (DepartmentAnalysis.name d) selectedDept) ds
  end.

(** The department cell of a row of the variance table, line 595. *)
Definition department_cell (item : SignificantChange.t) : jsstring :=
  or_default (relatedDepartment item) General.

(** ** The export, lines 328-377 *)

Inductive cell :=
| Text (s : jsstring)
| Num (n : number)
| Blank.

Definition sheet := list (list cell).

(** A workbook: its sheets in the order of [SheetNames]. *)
Definition workbook := list (jsstring * sheet).

Definition book_new : workbook := [].

(** [utils.aoa_to_sheet]: one row per inner array. *)
Definition aoa_to_sheet (rows : list (list cell)) : sheet := rows.

Fixpoint field (r : list (jsstring * cell)) (k : jsstring) : cell :=
  match r with
  | [] => Blank
  | (k', c) :: r' => if jsstring_eqb k' k then c else field r' k
  end.

(** [utils.json_to_sheet]: a header row of the keys, in the order they are
    first met, then one row per object. *)
Definition json_to_sheet (objects : list (list (jsstring * cell))) : sheet :=
  let header := fold_left (fun h r => fold_left set_add (map fst r) h) objects [] in
  map Text header :: map (fun r => map (field r) header) objects.

(** [utils.book_append_sheet]; the three names of the export differ, so the
    library's refusal of a repeated name does not arise. *)
Definition book_append_sheet (wb : workbook) (ws : sheet) (name : string) : workbook :=
  wb ++ [(js name, ws)].

Definition change_row (item : SignificantChange.t) : list (jsstring * cell) :=
  [ (js "รายการ", Text (SignificantChange.item item));
    (js "หน่วยงาน", Text (or_default (relatedDepartment item) (js "N/A")));
    (js "แนวโน้ม", Text (if jsstring_eqb (trend item) (js "increase")
                         then js "เพิ่มขึ้น" else js "ลดลง"));
    (js "เปลี่ยนแปลง (%)", Text (percentage item));
    (js "จำนวนเงิน", Num (amount item));
    (js "สาเหตุ", Text (reason item)) ].

Definition ratio_row (item : FinancialRatio.t) : list (jsstring * cell) :=
  [ (js "อัตราส่วน", Text (FinancialRatio.name item));
    (js "ค่า", Num (FinancialRatio.value item));
    (js "หน่วย", Text (FinancialRatio.unit item));
    (js "สถานะ", Text (FinancialRatio.status item));
    (js "คำอธิบาย", Text (FinancialRatio.description item)) ].

(** [x?.length > 0] *)
Definition nonempty {A} (x : option (list A)) : bool :=
  match x with
  | Some (_ :: _) => true
  | Some [] | None => false
  end.

Definition items {A} (x : option (list A)) : list A :=
  match x with Some l => l | None => [] end.

(** What [handleExportExcel] hands to [writeFile]: the workbook and the
    file name. [today] is [new Date().toLocaleDateString('th-TH')]. On a
    result of the declared types nothing in the [try] block throws. *)
Definition handleExportExcel (today : jsstring) (data : AnalysisResult)
  : workbook * jsstring :=
  let wb := book_new in
  let reportData :=
    [ [Text (js "SmartAcc Analyst Report")];
      [Text (js "วันที่พิมพ์:"); Text today];
      [];
      [Text (js "สรุปผู้บริหาร")];
      [Text (overallAnalysis data)];
      [];
      [Text (js "---------------------------------------------------")];
      [];
      [Text (js "บทรายงานฉบับเต็ม")];
      [Text (formalReport data)] ] in
  let wsReport := aoa_to_sheet reportData in
  let wb := book_append_sheet wb wsReport "Executive Report" in
  let wb :=
    if nonempty (significantChanges data) then
      let changesData := map change_row (items (significantChanges data)) in
      let wsChanges := json_to_sheet changesData in
      book_append_sheet wb wsChanges "Variance Analysis"
    else wb in
  let wb :=
    if nonempty (ratios data) then
      let ratiosData := map ratio_row (items (ratios data)) in
      let wsRatios := json_to_sheet ratiosData in
      book_append_sheet wb wsRatios "Financial Ratios"
    else wb in
  (wb, js "SmartAcc_Financial_Report.xlsx").

End Dashboard.


(* ================================================================== *)
(** * Vocabulary of the properties *)
(* ================================================================== *)




(** The closed set the schema of the request names for a ratio's status. *)
Definition status_values : list jsstring := map js ["good"; "warning"; "critical"]%string.

(** [s] ends in [p]; [s] contains [p]. *)
Definition ends_in (s p : jsstring) : Prop := exists q, s = q ++ p.
Definition contains (s p : jsstring) : Prop := exists a b, s = a ++ p ++ b.

(** A response text wrapped in a fenced block: the opening marker, with
    the [json] tag or without, the text and the closing marker, with any
    white space around each. *)
Definition wrap (tagged : bool) (ws0 ws1 ws2 ws3 : jsstring) (t : jsstring) : jsstring :=
  ws0 ++ fence ++ (if tagged then js "json" else []) ++ ws1 ++ t ++ ws2 ++ fence ++ ws3.

(** A text made of spaces only ([\s]). *)
Definition spaces (l : jsstring) : Prop :=
  Forall (fun c => JsString.is_space c = true) l.

(** ** What holds in every reachable state of the machine *)

(** Nothing is pending: no interval, no awaited request, no timeout. *)
Definition quiet (a : App) : Prop :=
  progressInterval a = None /\ request a = None /\ resultTimer a = None.

(** While analysing, either the request is in flight and the interval
    ticks, or the request has returned and the result waits for the
    timeout. *)
Definition in_flight (a : App) : Prop :=
  (exists c, request a = Some c) /\ progressInterval a = Some 150%Z
  /\ resultTimer a = None
  /\ (0 <= analysisProgress a <= 90)%Z /\ (analysisProgress a mod 2 = 0)%Z.

Definition showing_100 (a : App) : Prop :=
  request a = None /\ progressInterval a = None
  /\ (exists result, resultTimer a = Some (500%Z, result))
  /\ analysisProgress a = 100%Z.

Definition invariant (a : App) : Prop :=
  match state a with
  | UPLOAD => quiet a /\ analysisProgress a = 0%Z /\ analysisData a = None
              /\ errorMessage a = []
  | ANALYZING => in_flight a \/ showing_100 a
  | RESULT => quiet a /\ analysisProgress a = 100%Z /\ analysisData a <> None
  | ERROR => quiet a
  end.

(** After a request that threw, and until another file is uploaded, the
    machine is never in RESULT. *)
Definition failed (a : App) : Prop :=
  resultTimer a = None
  /\ (request a = None \/ exists e, request a = Some (Threw e))
  /\ state a <> RESULT.

Module ExportSpec.
Import Dashboard.

(** What the export is expected to lay out. *)
Definition report_rows (today : jsstring) (data : AnalysisResult) : sheet :=
  [ [Text (js "SmartAcc Analyst Report")];
    [Text (js "วันที่พิมพ์:"); Text today];
    [];
    [Text (js "สรุปผู้บริหาร")];
    [Text (overallAnalysis data)];
    [];
    [Text (js "---------------------------------------------------")];
    [];
    [Text (js "บทรายงานฉบับเต็ม")];
    [Text (formalReport data)] ].

Definition change_headers : list jsstring :=
  map js ["รายการ"; "หน่วยงาน"; "แนวโน้ม"; "เปลี่ยนแปลง (%)"; "จำนวนเงิน"; "สาเหตุ"]%string.

Definition ratio_headers : list jsstring :=
  map js ["อัตราส่วน"; "ค่า"; "หน่วย"; "สถานะ"; "คำอธิบาย"]%string.

(** A table: the header row, then one row of cells per entry. *)
Definition table {A} (headers : list jsstring) (row : A -> list (jsstring * cell))
           (l : list A) : sheet :=
  map Text headers :: map (fun x => map snd (row x)) l.

Definition expected_workbook (today : jsstring) (data : AnalysisResult) : workbook :=
  [(js "Executive Report", report_rows today data)]
  ++ (if nonempty (significantChanges data)
      then [(js "Variance Analysis",
             table change_headers change_row (items (significantChanges data)))]
      else [])
  ++ (if nonempty (ratios data)
      then [(js "Financial Ratios",
             table ratio_headers ratio_row (items (ratios data)))]
      else []).
End ExportSpec.

(* ================================================================== *)
(** * Concrete environments used by the examples *)
(* ================================================================== *)

Module Fixture.
(** An uploaded CSV file. *)
Definition file : FileData :=
  {| data := js "YSxiCjEsMg=="; mimeType := js "text/csv" |}.

(** A build with the given key, whose model answers every request with the
    same response text. *)
Definition answering (key : option jsstring) (text : option jsstring) : Env :=
  {| VITE_API_KEY := key;
     generateContent := fun _ => Resolved text;
     syntaxErrorMessage := fun _ => js "Unexpected token" |}.

(** A response whose single ratio carries a status outside the closed set. *)
Definition unknown_status_text : jsstring :=
  jsq "{'overallAnalysis': 'fine', 'formalReport': '## 1. Summary',
        'ratios': [{'name': 'Current Ratio', 'value': 1.5, 'unit': 'x',
                    'status': 'unknown', 'description': 'ok'}]}".

(** A response with no ratio and two significant changes: the first names
    no department, the second names General. *)
Definition two_changes_text : jsstring :=
  jsq "{'overallAnalysis': 'fine', 'formalReport': '## 1. Summary',
        'ratios': [],
        'significantChanges': [
          {'item': 'Rent', 'amount': 120, 'percentage': '+50%',
           'trend': 'increase', 'reason': 'new office'},
          {'item': 'Travel', 'relatedDepartment': 'General', 'amount': -40,
           'percentage': '-20%', 'trend': 'decrease', 'reason': 'fewer trips'}]}".

Definition rent : SignificantChange.t :=
  {| SignificantChange.item := js "Rent";
     SignificantChange.amount := js "120";
     SignificantChange.percentage := js "+50%";
     SignificantChange.trend := js "increase";
     SignificantChange.reason := js "new office";
     SignificantChange.relatedDepartment := None |}.

Definition travel : SignificantChange.t :=
  {| SignificantChange.item := js "Travel";
     SignificantChange.amount := js "-40";
     SignificantChange.percentage := js "-20%";
     SignificantChange.trend := js "decrease";
     SignificantChange.reason := js "fewer trips";
     SignificantChange.relatedDepartment := Some (js "General") |}.

(** A response whose five collections are all present and empty, and the
    result it is read as: no variance entry and no ratio. *)
Definition no_rows_text : jsstring :=
  jsq "{'overallAnalysis': 'fine', 'formalReport': '## 1. Summary',
        'ratios': [], 'departments': [], 'significantChanges': [],
        'topHighItems': [], 'topLowItems': []}".

Definition bare : AnalysisResult :=
  {| overallAnalysis := js "fine"; formalReport := js "## 1. Summary";
     ratios := Some []; departments := Some []; significantChanges := Some [];
     topHighItems := Some []; topLowItems := Some [] |}.


(** A build with a key, whose model is unreachable. *)
Definition offline : Env :=
  {| VITE_API_KEY := Some (js "k");
     generateContent := fun _ => Rejected (ErrorObject (js "fetch failed"));
     syntaxErrorMessage := fun _ => js "Unexpected token" |}.
End Fixture.

(* ================================================================== *)
(** * What the Dashboard renders (lines 379-679) *)
(* ================================================================== *)

Module DashboardView.
Import Dashboard.

(** The icons the data chooses between. *)
Inductive icon :=
| Activity | CheckCircle2 | AlertTriangle | TrendingDown
| ArrowUpRight | ArrowDownRight.

(** A ratio card, lines 519-559. The value is left as the number: its text
    is the host's [toLocaleString]. *)
Record RatioCard := {
  colorClass : jsstring;
  barColor : jsstring;
  cardIcon : icon;
  barWidth : jsstring;
  cardName : jsstring;
  cardValue : number;
  cardUnit : jsstring;
  cardDescription : jsstring
}.

Definition ratio_card (ratio : FinancialRatio.t) : RatioCard :=
  let status := FinancialRatio.status ratio in
  let '(colorClass, barColor, icon) :=
    if jsstring_eqb status (js "good") then
      (js "bg-emerald-50 text-emerald-700 border-emerald-100", js "bg-emerald-500",
       CheckCircle2)
    else if jsstring_eqb status (js "warning") then
      (js "bg-amber-50 text-amber-700 border-amber-100", js "bg-amber-500",
       AlertTriangle)
    else if jsstring_eqb status (js "critical") then
      (js "bg-red-50 text-red-700 border-red-100", js "bg-red-500", TrendingDown)
    else (js "bg-slate-100 text-slate-600", js "bg-slate-400", Activity) in
  {| colorClass := colorClass;
     barColor := barColor;
     cardIcon := icon;
     barWidth := if jsstring_eqb status (js "good") then js "80%"
                 else if jsstring_eqb status (js "warning") then js "50%"
                 else js "20%";
     cardName := FinancialRatio.name ratio;
     cardValue := FinancialRatio.value ratio;
     cardUnit := FinancialRatio.unit ratio;
     cardDescription := FinancialRatio.description ratio |}.

(** A row of the variance table, lines 589-612. *)
Record VarianceRow := {
  rowItem : jsstring;
  rowDepartment : jsstring;
  rowBadge : jsstring;
  rowIcon : icon;
  rowPercentage : jsstring;
  rowAmount : number;
  rowReason : jsstring
}.

Definition variance_row (item : SignificantChange.t) : VarianceRow :=
  let up := jsstring_eqb (SignificantChange.trend item) (js "increase") in
  {| rowItem := SignificantChange.item item;
     rowDepartment := department_cell item;
     rowBadge := if up then js "bg-emerald-100 text-emerald-700"
                 else js "bg-rose-100 text-rose-700";
     rowIcon := if up then ArrowUpRight else ArrowDownRight;
     rowPercentage := SignificantChange.percentage item;
     rowAmount := SignificantChange.amount item;
     rowReason := SignificantChange.reason item |}.

(** The body of the table: the rows, or the one cell that says there is
    nothing to show. *)
Inductive table_body :=
| Rows (rows : list VarianceRow)
| NoRows (message : jsstring).

Definition variance_body (changes : list SignificantChange.t) : table_body :=
  match changes with
  | _ :: _ => Rows (map variance_row changes)
  | [] => NoRows (js "ไม่พบข้อมูลที่มีการเปลี่ยนแปลงอย่างมีนัยสำคัญ")
  end.

(** ** The chart, lines 380-440 *)

Inductive ChartType := bar | line | pie.

Definition COLORS : list jsstring :=
  map js ["#6366f1"; "#10b981"; "#f59e0b"; "#ef4444"; "#8b5cf6"; "#ec4899"; "#06b6d4"]%string.

(** A slice of the pie with its [fill]; [None] is [undefined]. *)
Record Slice := {
  sliceName : jsstring;
  sliceValue : number;
  fill : option jsstring
}.

Inductive chart :=
| NoChartData (message : jsstring)
| PieChart (slices : list Slice)
| LineChart (rows : list DepartmentAnalysis.t)
| BarChart (rows : list DepartmentAnalysis.t).

(** [pieData.map((entry, index) => ...)], the index counted from [i]. *)
Fixpoint with_fill (all : bool) (i : nat) (pieData : list (jsstring * number))
  : list Slice :=
  match pieData with
  | [] => []
  | (n, v) :: rest =>
    {| sliceName := n; sliceValue := v;
       fill := if all then nth_error COLORS (i mod List.length COLORS)
               else Some (if Nat.eqb i 0 then js "#10b981" else js "#ef4444") |}
    :: with_fill all (S i) rest
  end.

Definition renderChart (data : AnalysisResult) (selectedDept : jsstring)
           (chartType : ChartType) : chart :=
  let chartData := filteredDepts data selectedDept in
  match chartData with
  | [] => NoChartData (js "ไม่มีข้อมูลแสดงกราฟ")
  | dept :: _ =>
    match chartType with
    | pie =>
      let all := jsstring_eqb selectedDept All in
      let pieData :=
        if all then
          map (fun d => (DepartmentAnalysis.name d, DepartmentAnalysis.revenue d)) chartData
        else [ (js "รายรับ", DepartmentAnalysis.revenue dept);
               (js "รายจ่าย", DepartmentAnalysis.expense dept) ] in
      PieChart (with_fill all 0 pieData)
    | line => LineChart chartData
    | bar => BarChart chartData
    end
  end.

(** ** The component *)

Inductive Tab := dashboard | report.

(** The three [useState] cells of the Dashboard, lines 293-295. *)
Record State := {
  activeTab : Tab;
  selectedDept : jsstring;
  chartType : ChartType
}.

Definition initial_state : State :=
  {| activeTab := dashboard; selectedDept := All; chartType := bar |}.

(** The dashboard tab, lines 497-647. *)
Record DashboardTab := {
  summary : jsstring;
  ratioCards : list RatioCard;
  varianceTitle : jsstring;
  varianceBody : table_body;
  mainChart : chart
}.

Inductive body :=
| DashboardBody (t : DashboardTab)
| ReportBody (report : jsstring).      (* what is handed to ReportViewer *)

(** The header and the body; the selector, with the value and the label of
    each option, is in the header on the dashboard tab only. *)
Record View := {
  selector : option (list (jsstring * jsstring));
  viewBody : body
}.

(** The render function. [None]: the evaluation throws a TypeError, which
    [data.ratios.map] of line 519 does when [ratios] is missing. *)
Definition render (data : AnalysisResult) (st : State) : option View :=
  match activeTab st with
  | dashboard =>
    match ratios data with
    | None => None
    | Some rs =>
      Some
        {| selector :=
             Some (map (fun dept =>
                          (dept, if jsstring_eqb dept All
                                 then js "ภาพรวมทั้งหมด (All)" else dept))
                       (availableDepartments data));
           viewBody :=
             DashboardBody
               {| summary := overallAnalysis data;
                  ratioCards := map ratio_card rs;
                  varianceTitle := if jsstring_eqb (selectedDept st) All
                                   then js "ภาพรวม" else selectedDept st;
                  varianceBody := variance_body (filteredChanges data (selectedDept st));
                  mainChart := renderChart data (selectedDept st) (chartType st) |} |}
    end
  | report =>
    Some {| selector := None;
            viewBody := ReportBody (or_default (Some (formalReport data))
                                               (js "กำลังสร้างรายงาน...")) |}
  end.

End DashboardView.

(* ================================================================== *)
(** * What the application renders (src/App.tsx, lines 55-163) *)
(* ================================================================== *)

Module Truthy.
(** The value of a number literal is [mantissa * 10 ^ exponent]. *)

Fixpoint digits (acc : N) (s : jsstring) : N * nat * jsstring :=
  match s with
  | c :: s' =>
    if Json.is_digit c then
      let '(v, n, rest) := digits (10 * acc + (c - 48)) s' in (v, S n, rest)
    else (acc, O, s)
  | [] => (acc, O, [])
  end.

Definition mantissa_exponent (literal : jsstring) : N * Z :=
  let unsigned := match literal with 45 :: s => s | _ => literal end in
  let '(int, _, rest) := digits 0 unsigned in
  let '(m, frac_len, rest) :=
    match rest with
    | 46 :: s => digits int s
    | _ => (int, O, rest)
    end in
  let exponent :=
    match rest with
    | e :: 45 :: s => if Json.is_e e then (- Z.of_N (fst (fst (digits 0 s))))%Z else 0%Z
    | e :: 43 :: s => if Json.is_e e then Z.of_N (fst (fst (digits 0 s))) else 0%Z
    | e :: s => if Json.is_e e then Z.of_N (fst (fst (digits 0 s))) else 0%Z
    | [] => 0%Z
    end in
  (m, (exponent - Z.of_nat frac_len)%Z).

(** The literal denotes the Number 0: its digits are all 0, or it is so
    small that the nearest double, ties to even, is 0 (at most [2 ^ -1075]). *)
Definition is_zero (literal : jsstring) : bool :=
  let '(m, e) := mantissa_exponent literal in
  if m =? 0 then true
  else if (e <? 0)%Z then m * 2 ^ 1075 <=? 10 ^ Z.to_N (- e)
  else false.

(** ToBoolean *)
Definition truthy (v : JSValue) : bool :=
  match v with
  | JNull => false
  | JBool b => b
  | JNumber literal => negb (is_zero literal)
  | JString s => truthy_string s
  | JArray _ | JObject _ => true
  end.
End Truthy.

Module AppView.

Inductive panel :=
| NavBadge                                  (* lines 70-76 *)
| Background                                (* lines 85-91 *)
| UploadPanel                               (* lines 93-108, the FileUpload *)
| AnalyzingPanel (width percent : Z)        (* lines 110-133 *)
| ErrorPanel (message : jsstring)           (* lines 135-149, with the reset button *)
| DashboardPanel (data : JSValue)           (* lines 151-153, with the reset button *)
| Text (s : jsstring)                       (* a number, which React renders as text *)
| Footer.                                   (* lines 157-161 *)

(** [{state === AppState.RESULT && analysisData && <Dashboard ... />}]: a
    falsy [analysisData] is itself the value of the expression; React
    renders a number and nothing for [null], [false] and the empty string. *)
Definition result_slot (analysisData : option JSValue) : list panel :=
  match analysisData with
  | None => []
  | Some v =>
    if Truthy.truthy v then [DashboardPanel v]
    else match v with
         | JNumber _ => [Text (js "0")]
         | _ => []
         end
  end.

Definition render (a : App) : list panel :=
  (match state a with RESULT => [NavBadge] | _ => [] end)
  ++ (match state a with RESULT => [] | _ => [Background] end)
  ++ (match state a with UPLOAD => [UploadPanel] | _ => [] end)
  ++ (match state a with
      | ANALYZING => [AnalyzingPanel (analysisProgress a) (analysisProgress a)]
      | _ => []
      end)
  ++ (match state a with ERROR => [ErrorPanel (errorMessage a)] | _ => [] end)
  ++ (match state a with RESULT => result_slot (analysisData a) | _ => [] end)
  ++ (match state a with RESULT => [] | _ => [Footer] end).

(** The panels that carry a control the user can act on. *)
Definition has_control (p : panel) : bool :=
  match p with
  | UploadPanel | ErrorPanel _ | DashboardPanel _ => true
  | _ => false
  end.

End AppView.

(* ================================================================== *)
(** * The report viewer (lines 201-288) *)
(* ================================================================== *)

Module Report.
Import JsString.

(** LineTerminator: what [^] follows under the [m] flag and what [.] does
    not match. *)
Definition is_line_terminator (c : code_unit) : bool :=
  (c =? 10) || (c =? 13) || (c =? 8232) || (c =? 8233).

(** [s.split(sep)] for a separator of one code unit, and [lines.join(sep)]. *)
Fixpoint split_on (sep : code_unit) (s : jsstring) : list jsstring :=
  match s with
  | [] => [[]]
  | c :: s' =>
    if c =? sep then [] :: split_on sep s'
    else match split_on sep s' with
         | l :: ls => (c :: l) :: ls
         | [] => [[c]]
         end
  end.

Fixpoint join (sep : code_unit) (ls : list jsstring) : jsstring :=
  match ls with
  | [] => []
  | [l] => l
  | l :: ls' => l ++ sep :: join sep ls'
  end.

(** The lookahead [##\s] of the pattern [/(?=^##\s)/m]. *)
Definition header_here (s : jsstring) : bool :=
  match s with
  | a :: b :: c :: _ => (a =? 35) && (b =? 35) && is_space c
  | _ => false
  end.

(** [report.split(/(?=^##\s)/m)] for a non-empty report: the text is cut
    before every header that starts a line, the start of the text apart
    (an empty match at the start of a piece does not split). The pair is
    the piece being read and the pieces after it. *)
Fixpoint split_go (at_line_start : bool) (s : jsstring) : jsstring * list jsstring :=
  match s with
  | [] => ([], [])
  | c :: s' =>
    let '(cur, rest) := split_go (is_line_terminator c) s' in
    if at_line_start && header_here s then ([], (c :: cur) :: rest)
    else (c :: cur, rest)
  end.

Definition split_sections (report : jsstring) : list jsstring :=
  let '(cur, rest) := split_go false report in cur :: rest.

Record Section_ := { title : jsstring; content : jsstring }.

(** The [useMemo] of [ReportViewer], lines 260-270. *)
Definition sections (report : jsstring) : list Section_ :=
  match report with
  | [] => []
  | _ :: _ =>
    let parts := split_sections report in
    map (fun part =>
           let lines := split_on 10 part in
           {| title := trim (hd [] lines);
              content := trim (join 10 (tl lines)) |})
        (filter (fun p => negb (Nat.eqb (List.length (trim p)) 0)) parts)
  end.

(** [title.replace(/^#+\s*/, '')] of [CollapsibleSection], line 245: both
    the run of number signs and the run of spaces are greedy and nothing
    follows them. *)
Fixpoint drop_hashes (s : jsstring) : jsstring :=
  match s with
  | c :: s' => if c =? 35 then drop_hashes s' else s
  | [] => []
  end.

Definition shown_title (title : jsstring) : jsstring :=
  match title with
  | c :: _ => if c =? 35 then trimStart (drop_hashes title) else title
  | [] => []
  end.

(** ** [MarkdownRenderer], lines 201-232 *)

Definition strong_open : jsstring := jsq "<strong class='text-slate-900 font-semibold'>".
Definition strong_close : jsstring := js "</strong>".

(** The lazy [(.*?)\*\*]: the text up to the nearest two asterisks, if no
    line terminator comes first. *)
Definition two_stars (s : jsstring) : bool :=
  match s with
  | a :: b :: _ => (a =? 42) && (b =? 42)
  | _ => false
  end.

Fixpoint find_close (s : jsstring) : option jsstring :=
  match s with
  | [] => None
  | c :: s' =>
    if two_stars s then Some []
    else if is_line_terminator c then None
    else match find_close s' with
         | Some content => Some (c :: content)
         | None => None
         end
  end.

(** [s.replace(/\*\*(.*?)\*\*/g, '<strong ...>$1</strong>')]. [skip] counts
    the code units of a match that are still to be passed over. *)
Fixpoint bold_go (skip : nat) (s : jsstring) : jsstring :=
  match s with
  | [] => []
  | c :: s' =>
    match skip with
    | S k => bold_go k s'
    | O =>
      if two_stars s then
        match find_close (tl s') with
        | Some inner =>
          strong_open ++ inner ++ strong_close ++ bold_go (List.length inner + 3) s'
        | None => c :: bold_go 0 s'
        end
      else c :: bold_go 0 s'
    end
  end.

Definition bold (s : jsstring) : jsstring := bold_go 0 s.

(** What a line of the content becomes; the markup is handed to
    [dangerouslySetInnerHTML] as it is. *)
Inductive block :=
| Spacer
| Bullet (html : jsstring)
| Paragraph (html : jsstring).

Definition render_line (line : jsstring) : block :=
  let trimmed := trim line in
  match trimmed with
  | [] => Spacer
  | _ :: _ =>
    if startsWith trimmed (js "- ") || startsWith trimmed (js "* ")
    then Bullet (bold (skipn 2 trimmed))
    else Paragraph (bold trimmed)
  end.

Definition MarkdownRenderer (content : jsstring) : list block :=
  map render_line (split_on 10 content).

(** [ReportViewer]: the sections, the first two open, or the notice. *)
Inductive viewer :=
| Sections (l : list (jsstring * bool * list block))   (* title, open, content *)
| Notice (message : jsstring).

Fixpoint collapsibles (idx : nat) (l : list Section_)
  : list (jsstring * bool * list block) :=
  match l with
  | [] => []
  | sec :: l' =>
    (shown_title (title sec), Nat.eqb idx 0 || Nat.eqb idx 1,
     MarkdownRenderer (content sec))
    :: collapsibles (S idx) l'
  end.

Definition ReportViewer (report : jsstring) : viewer :=
  match sections report with
  | (_ :: _) as l => Sections (collapsibles 0 l)
  | [] => Notice (js "กำลังประมวลผลรูปแบบรายงาน...")
  end.

End Report.

(** Two pieces that follow each other are cut at the start of a line. *)
Fixpoint cut_at_line_starts (pieces : list jsstring) : Prop :=
  match pieces with
  | p :: ((_ :: _) as rest) =>
    (exists q c, p = q ++ [c] /\ Report.is_line_terminator c = true)
    /\ cut_at_line_starts rest
  | _ => True
  end.

(** No asterisk; no line terminator. *)
Definition no_star (s : jsstring) : Prop := Forall (fun c => (c =? 42) = false) s.
Definition one_line (s : jsstring) : Prop :=
  Forall (fun c => Report.is_line_terminator c = false) s.

(* ================================================================== *)
(** * The payload of an upload (src/components/FileUpload.tsx, lines 42-83) *)
(* ================================================================== *)

Module Uri.
(** [encodeURIComponent] and [unescape]. *)

Definition is_high_surrogate (c : code_unit) : bool := (55296 <=? c) && (c <=? 56319).
Definition is_low_surrogate (c : code_unit) : bool := (56320 <=? c) && (c <=? 57343).

(** The code units that are not escaped: letters, digits, and
    [- _ . ! ~ * ' ( )]. *)
Definition unreserved (c : code_unit) : bool :=
  ((65 <=? c) && (c <=? 90)) || ((97 <=? c) && (c <=? 122))
  || ((48 <=? c) && (c <=? 57))
  || (c =? 45) || (c =? 95) || (c =? 46) || (c =? 33) || (c =? 126)
  || (c =? 42) || (c =? 39) || (c =? 40) || (c =? 41).

(** The octets of a code point in UTF-8. *)
Definition utf8 (v : N) : list N :=
  if v <? 128 then [v]
  else if v <? 2048 then [192 + v / 64; 128 + v mod 64]
  else if v <? 65536 then [224 + v / 4096; 128 + (v / 64) mod 64; 128 + v mod 64]
  else [240 + v / 262144; 128 + (v / 4096) mod 64; 128 + (v / 64) mod 64;
        128 + v mod 64].

Definition hex_digit (d : N) : code_unit := if d <? 10 then 48 + d else 55 + d.

(** An octet as a percent sign and two upper-case hexadecimal digits. *)
Definition percent (b : N) : jsstring := [37; hex_digit (b / 16); hex_digit (b mod 16)].

Definition escape_octets (bs : list N) : jsstring := List.concat (map percent bs).

Definition code_point (hi lo : code_unit) : N :=
  (hi - 55296) * 1024 + (lo - 56320) + 65536.

(** [encodeURIComponent(s)]; [None] is the URIError thrown on a surrogate
    that has no partner. *)
Fixpoint encodeURIComponent (s : jsstring) : option jsstring :=
  match s with
  | [] => Some []
  | c :: s' =>
    if unreserved c then option_map (cons c) (encodeURIComponent s')
    else if is_low_surrogate c then None
    else if is_high_surrogate c then
      match s' with
      | lo :: s'' =>
        if is_low_surrogate lo then
          option_map (app (escape_octets (utf8 (code_point c lo))))
                     (encodeURIComponent s'')
        else None
      | [] => None
      end
    else option_map (app (escape_octets (utf8 c))) (encodeURIComponent s')
  end.

(** The value of [%XX] and of [%uXXXX] at the start of a text. *)
Definition hex2 (s : jsstring) : option N :=
  match s with
  | a :: b :: _ =>
    match Json.hex_value a, Json.hex_value b with
    | Some x, Some y => Some (16 * x + y)
    | _, _ => None
    end
  | _ => None
  end.

Definition hex_u4 (s : jsstring) : option N :=
  match s with
  | u :: a :: b :: c :: d :: _ =>
    if u =? 117 then
      match Json.hex_value a, Json.hex_value b, Json.hex_value c, Json.hex_value d with
      | Some w, Some x, Some y, Some z => Some (4096 * w + 256 * x + 16 * y + z)
      | _, _, _, _ => None
      end
    else None
  | _ => None
  end.

(** [unescape(s)]. [skip] counts the code units of an escape that are
    still to be passed over. *)
Fixpoint unescape_go (skip : nat) (s : jsstring) : jsstring :=
  match s with
  | [] => []
  | c :: s' =>
    match skip with
    | S k => unescape_go k s'
    | O =>
      if c =? 37 then
        match hex_u4 s' with
        | Some v => v :: unescape_go 5 s'
        | None =>
          match hex2 s' with
          | Some v => v :: unescape_go 2 s'
          | None => c :: unescape_go 0 s'
          end
        end
      else c :: unescape_go 0 s'
    end
  end.

Definition unescape (s : jsstring) : jsstring := unescape_go 0 s.
End Uri.

Module Base64.
(** [window.btoa]. *)

(** The letter of a sextet: A-Z, a-z, 0-9, plus, solidus. *)
Definition letter (i : N) : code_unit :=
  if i <? 26 then 65 + i
  else if i <? 52 then 71 + i
  else if i <? 62 then i - 4
  else if i =? 62 then 43
  else 47.

Fixpoint encode (bytes : list N) : jsstring :=
  match bytes with
  | a :: b :: c :: rest =>
    [ letter (a / 4); letter ((a mod 4) * 16 + b / 16);
      letter ((b mod 16) * 4 + c / 64); letter (c mod 64) ] ++ encode rest
  | [a; b] =>
    [ letter (a / 4); letter ((a mod 4) * 16 + b / 16); letter ((b mod 16) * 4); 61 ]
  | [a] => [ letter (a / 4); letter ((a mod 4) * 16); 61; 61 ]
  | [] => []
  end.

(** [btoa(s)]; [None] is the InvalidCharacterError thrown on a code unit
    above 255. *)
Definition btoa (s : jsstring) : option jsstring :=
  if forallb (fun c => c <=? 255) s then Some (encode s) else None.
End Base64.

(** What the readers and the spreadsheet library deliver for the file:
    [utils.sheet_to_csv] of the first sheet of [read(data)], and the result
    of [readAsDataURL]. *)
Record Reading := {
  first_sheet_csv : jsstring;
  data_url : jsstring
}.

(** What the load callback does: it hands a payload to [onFileUpload] (the
    data is [undefined] when the data URL has no comma), or it throws; the
    callback runs outside the [try] block of the handler. *)
Inductive handed :=
| Handed (data : option jsstring) (mimeType : jsstring)
| Uncaught (error : jsstring).

(** [window.btoa(unescape(encodeURIComponent(csv)))], line 54. *)
Definition csv_payload (csv : jsstring) : handed :=
  match Uri.encodeURIComponent csv with
  | None => Uncaught (js "URIError")
  | Some escaped =>
    match Base64.btoa (Uri.unescape escaped) with
    | Some base64Data => Handed (Some base64Data) (js "text/csv")
    | None => Uncaught (js "InvalidCharacterError")
    end
  end.

(** The two [reader.onload] callbacks, lines 46-63 and 69-80. *)
Definition handleFileChange_load (file : File.t) (r : Reading) : handed :=
  if isSpreadsheet file then csv_payload (first_sheet_csv r)
  else
    Handed (nth_error (Report.split_on 44 (data_url r)) 1)
           (Dashboard.or_default (Some (File.type file)) (js "text/plain")).

(** ** Vocabulary: decoding *)

Module Decode.
(** The sextet of a letter of the base64 alphabet. *)
Definition sextet (c : code_unit) : N :=
  if (65 <=? c) && (c <=? 90) then c - 65
  else if (97 <=? c) && (c <=? 122) then c - 71
  else if (48 <=? c) && (c <=? 57) then c + 4
  else if c =? 43 then 62
  else 63.

Fixpoint base64 (s : jsstring) : list N :=
  match s with
  | w :: x :: y :: z :: rest =>
    let a := sextet w * 4 + sextet x / 16 in
    let b := (sextet x mod 16) * 16 + sextet y / 4 in
    let c := (sextet y mod 4) * 64 + sextet z in
    if y =? 61 then [a]
    else if z =? 61 then [a; b]
    else a :: b :: c :: base64 rest
  | _ => []
  end.

Definition text_of_octets (bytes : list N) : string :=
  fold_right (fun b s => String (ascii_of_N b) s) EmptyString bytes.

(** Base64, then UTF-8, back to code units. *)
Definition payload (s : jsstring) : jsstring := Utf8.decode (text_of_octets (base64 s)).
End Decode.

(** A string of code units (below 65536) in which every surrogate has its
    partner. *)
Fixpoint well_formed (s : jsstring) : Prop :=
  match s with
  | [] => True
  | c :: s' =>
    c < 65536 /\
    if Uri.is_low_surrogate c then False
    else if Uri.is_high_surrogate c then
      match s' with
      | lo :: s'' => Uri.is_low_surrogate lo = true /\ well_formed s''
      | [] => False
      end
    else well_formed s'
  end.

(** The octets of a well-formed string in UTF-8. *)
Fixpoint utf8_octets (s : jsstring) : list N :=
  match s with
  | [] => []
  | c :: s' =>
    if Uri.is_high_surrogate c then
      match s' with
      | lo :: s'' => Uri.utf8 (Uri.code_point c lo) ++ utf8_octets s''
      | [] => []
      end
    else Uri.utf8 c ++ utf8_octets s'
  end.

(* ================================================================== *)
(** * Vocabulary of the further properties *)
(* ================================================================== *)

From Stdlib Require Import Sorting.Sorted.

(** The order of [Array.prototype.sort] on strings, as a relation. *)
Definition code_unit_order (a b : jsstring) : Prop := Dashboard.jsstring_leb a b = true.

(** The step of the second loop of [availableDepartments], lines 304-306. *)
Definition add_related (s : list jsstring) (c : SignificantChange.t) : list jsstring :=
  match SignificantChange.relatedDepartment c with
  | Some ((_ :: _) as d) => Dashboard.set_add s d
  | _ => s
  end.

(* ================================================================== *)
(** * Properties *)
(* ================================================================== *)

Example cleanText_example : cleanText (jsq "
```json
  {'a': 1}  
```  ") = jsq "{'a': 1}".
Proof. vm_compute. reflexivity. Qed.

Example parse_example : Json.parse (jsq " {'a': [1, -2.5e+3, true, null, 'xก\n'], 'b': {}, 'a': 'z'} ")
  = Some (JObject [(js "a", JString (js "z")); (js "b", JObject [])]).
Proof. vm_compute. reflexivity. Qed.

Example parse_refuses : map Json.parse [jsq "[1,]"; jsq "01"; jsq "{'a' 1}"; jsq "tru"; jsq "1 2"; jsq ""; jsq "'a"; jsq "[1"; jsq "-"; jsq "1.e3"; jsq "nulll"]
  = repeat None 11.
Proof. vm_compute. reflexivity. Qed.

Example parse_accepts : map Json.parse [jsq "[1]"; jsq "0"; jsq "-0.10E-2"; jsq "'A\\'"; jsq "[[],{}]"; jsq "false"]
  = [Some (JArray [JNumber (js "1")]); Some (JNumber (js "0")); Some (JNumber (js "-0.10E-2")); Some (JString (js "A\")); Some (JArray [JArray []; JObject []]); Some (JBool false)].
Proof. vm_compute. reflexivity. Qed.

(* ------------------------------------------------------------------ *)
(** ** The credential precondition and the empty response *)
(* ------------------------------------------------------------------ *)

Lemma apiKey_absent (env : Env) :
  VITE_API_KEY env = None \/ VITE_API_KEY env = Some [] ->
  apiKey env = [].
Proof.
  unfold apiKey. intros [H | H]; rewrite H; reflexivity.
Qed.

Lemma apiKey_present (env : Env) (c : code_unit) (k : jsstring) :
  VITE_API_KEY env = Some (c :: k) -> apiKey env = c :: k.
Proof.
  unfold apiKey. intros H. rewrite H. reflexivity.
Qed.

(** C3. With the credential absent ([undefined]) or empty,
    [analyzeFinancialData] throws the fixed missing-key error, and the list
    of effects it performed is empty: no request was sent (and nothing was
    logged). The error is thrown outside the [try] block, so its message
    is not wrapped in the failure prefix. *)
Theorem C3_missing_credential_throws_before_network :
  forall (env : Env) (file : FileData),
    VITE_API_KEY env = None \/ VITE_API_KEY env = Some [] ->
    analyzeFinancialData env file = (Threw (ErrorObject missing_key_message), [])
    /\ forall r, ~ In (NetworkRequest r) (snd (analyzeFinancialData env file)).
Proof.
  intros env file H.
  assert (E : analyzeFinancialData env file
              = (Threw (ErrorObject missing_key_message), [])).
  { unfold analyzeFinancialData. rewrite (apiKey_absent env H). reflexivity. }
  split; [exact E | ].
  intros r. rewrite E. simpl. tauto.
Qed.

Lemma C3_witness :
  analyzeFinancialData (Fixture.answering None (Some (jsq "{}"))) Fixture.file
  = (Threw (ErrorObject missing_key_message), []).
Proof.
  apply (C3_missing_credential_throws_before_network
           (Fixture.answering None (Some (jsq "{}"))) Fixture.file).
  left. reflexivity.
Defined.

(** With a credential, exactly one request is sent, the one built from the
    file, whatever the outcome. *)
Lemma configured_sends_one_request (env : Env) (file : FileData) :
  apiKey env <> [] ->
  exists rest, snd (analyzeFinancialData env file)
               = NetworkRequest (request_for file) :: rest
               /\ forall r, ~ In (NetworkRequest r) rest.
Proof.
  intros Hk. unfold analyzeFinancialData.
  destruct (apiKey env) as [ | c k]; [congruence | ]. simpl.
  unfold call_generateContent.
  destruct (generateContent env (request_for file)) as [[[ | x text] | ] | e]; simpl.
  - eexists. split; [reflexivity | ]. intros r [H | []]. discriminate.
  - unfold JSON_parse. destruct (Json.parse _); simpl.
    + eexists. split; [reflexivity | ]. intros r [].
    + eexists. split; [reflexivity | ]. intros r [H | []]. discriminate.
  - eexists. split; [reflexivity | ]. intros r [H | []]. discriminate.
  - eexists. split; [reflexivity | ]. intros r [H | []]. discriminate.
Qed.

(** C10. When the request resolves with no text ([undefined]) or with the
    empty text, [analyzeFinancialData] throws an [Error] whose message is the
    failure prefix followed by the fixed no-response notice; it returns no
    result. *)
Theorem C10_empty_response_throws :
  forall (env : Env) (file : FileData),
    apiKey env <> [] ->
    generateContent env (request_for file) = Resolved None
    \/ generateContent env (request_for file) = Resolved (Some []) ->
    fst (analyzeFinancialData env file)
    = Threw (ErrorObject (failure_prefix ++ no_response_message))
    /\ forall v, fst (analyzeFinancialData env file) <> Returned v.
Proof.
  intros env file Hk Hr.
  assert (E : fst (analyzeFinancialData env file)
              = Threw (ErrorObject (failure_prefix ++ no_response_message))).
  { unfold analyzeFinancialData.
    destruct (apiKey env) as [ | c k]; [congruence | ]. simpl.
    unfold call_generateContent.
    destruct Hr as [Hr | Hr]; rewrite Hr; reflexivity. }
  split; [exact E | ]. intros v. rewrite E. discriminate.
Qed.

Lemma C10_witness :
  fst (analyzeFinancialData (Fixture.answering (Some (js "k")) None) Fixture.file)
  = Threw (ErrorObject (failure_prefix ++ no_response_message)).
Proof.
  apply (C10_empty_response_throws
           (Fixture.answering (Some (js "k")) None) Fixture.file).
  - discriminate.
  - left. reflexivity.
Defined.

(* ------------------------------------------------------------------ *)
(** ** The state machine: what holds in every reachable state *)
(* ------------------------------------------------------------------ *)

Section Reachable.
Variable env : Env.
Local Open Scope Z_scope.

Lemma tick_spec (p : Z) : tick p = if p <? 90 then p + 2 else p.
Proof.
  unfold tick. destruct (Z.geb_spec p 90), (Z.ltb_spec p 90); lia.
Qed.

Lemma invariant_initial : invariant initial.
Proof. repeat split. Qed.

Lemma step_invariant (a a' : App) (e : event) :
  invariant a -> step env a e = Some a' -> invariant a'.
Proof.
  unfold invariant, step. intros I H.
  destruct e.
  - destruct (state a) eqn:S; try discriminate.
    injection H as <-. simpl. left.
    destruct I as ((_ & _ & T) & _). unfold in_flight. simpl.
    repeat split; eauto; lia.
  - destruct (progressInterval a) eqn:P; try discriminate.
    injection H as <-. simpl.
    destruct (state a) eqn:S.
    + destruct I as ((Q & _) & _). congruence.
    + destruct I as [(R & Pi & T & B & M) | (_ & Q & _)]; [ | congruence].
      left. unfold in_flight. simpl. rewrite tick_spec.
      repeat split; auto; destruct (Z.ltb_spec (analysisProgress a) 90);
        Z.div_mod_to_equations; lia.
    + destruct I as ((Q & _) & _). congruence.
    + destruct I as (Q & _). congruence.
  - destruct (request a) as [c | ] eqn:R; try discriminate.
    injection H as <-.
    destruct (state a) eqn:S.
    + destruct I as ((_ & Q & _) & _). congruence.
    + destruct I as [(_ & Pi & T & B & M) | (Q & _)]; [ | congruence].
      destruct c as [result | error]; simpl; rewrite ?S.
      * right. unfold showing_100. simpl. repeat split; eauto.
      * unfold quiet. simpl. auto.
    + destruct I as ((_ & Q & _) & _). congruence.
    + destruct I as (_ & Q & _). congruence.
  - destruct (resultTimer a) as [[d result] | ] eqn:T; try discriminate.
    injection H as <-. simpl.
    destruct (state a) eqn:S.
    + destruct I as ((_ & _ & Q) & _). congruence.
    + destruct I as [(_ & _ & Q & _) | (R & Pi & _ & P)]; [congruence | ].
      unfold quiet. simpl. repeat split; auto. discriminate.
    + destruct I as ((_ & _ & Q) & _). congruence.
    + destruct I as (_ & _ & Q). congruence.
  - destruct (state a) eqn:S; try discriminate; injection H as <-; simpl.
    + destruct I as (Q & _). unfold quiet in *. simpl. tauto.
    + unfold quiet in *. simpl. tauto.
Qed.

Lemma run_invariant (es : list event) : forall a a',
  invariant a -> run env a es = Some a' -> invariant a'.
Proof.
  induction es as [ | e es IH]; simpl; intros a a' I H.
  - injection H as <-. exact I.
  - destruct (step env a e) as [a1 | ] eqn:S; [ | discriminate].
    eapply IH; [ | exact H]. eapply step_invariant; eauto.
Qed.

Lemma run_app (es1 es2 : list event) : forall a,
  run env a (es1 ++ es2)
  = match run env a es1 with
    | Some a1 => run env a1 es2
    | None => None
    end.
Proof.
  induction es1 as [ | e es1 IH]; simpl; intros a; [reflexivity | ].
  destruct (step env a e); [apply IH | reflexivity].
Qed.

(** A pending result timeout was set by the event just before, which was
    the request settling with a returned result. *)
Lemma timer_history (es : list event) (a : App) (d : Z) (result : JSValue) :
  run env initial es = Some a ->
  resultTimer a = Some (d, result) ->
  d = 500 /\
  exists es0 a0, es = es0 ++ [RequestSettled]
                 /\ run env initial es0 = Some a0
                 /\ request a0 = Some (Returned result).
Proof.
  destruct es as [ | e es] using rev_ind; intros R T.
  - injection R as <-. discriminate.
  - clear IHes. rewrite run_app in R.
    destruct (run env initial es) as [a1 | ] eqn:R1; [ | discriminate].
    assert (I : invariant a1)
      by (eapply run_invariant; [exact invariant_initial | exact R1]).
    simpl in R. destruct (step env a1 e) as [a2 | ] eqn:S; [ | discriminate].
    injection R as ->. unfold step, invariant in *.
    destruct e.
    + destruct (state a1); try discriminate. injection S as <-. simpl in T.
      destruct I as ((_ & _ & Q) & _). congruence.
    + destruct (progressInterval a1) eqn:P; try discriminate.
      injection S as <-. simpl in T.
      destruct (state a1).
      * destruct I as ((_ & _ & Q) & _). congruence.
      * destruct I as [(_ & _ & Q & _) | (_ & Q & _)]; congruence.
      * destruct I as ((_ & _ & Q) & _). congruence.
      * destruct I as (_ & _ & Q). congruence.
    + destruct (request a1) as [c | ] eqn:Rq; try discriminate.
      injection S as <-. destruct c as [r | err]; simpl in T.
      * injection T as <- <-. split; [reflexivity | ]. exists es, a1. auto.
      * destruct (state a1).
        -- destruct I as ((_ & _ & Q) & _). congruence.
        -- destruct I as [(_ & _ & Q & _) | (Q & _)]; congruence.
        -- destruct I as ((_ & _ & Q) & _). congruence.
        -- destruct I as (_ & _ & Q). congruence.
    + destruct (resultTimer a1) as [[d1 r1] | ]; try discriminate.
      injection S as <-. discriminate.
    + destruct (state a1) eqn:St; try discriminate; injection S as <-; simpl in T.
      * destruct I as ((_ & _ & Q) & _). congruence.
      * destruct I as (_ & _ & Q). congruence.
Qed.

End Reachable.

(** C7. In every reachable state, a progress tick stays in ANALYZING and
    replaces the progress [p] by [p + 2] when [p < 90] and by [p] otherwise
    (the updater does so for every [p]); the progress a tick leaves is never
    above 90. *)
Theorem C7_tick_adds_two_below_90_and_stops :
  forall (env : Env) (es : list event) (a a' : App),
    run env initial es = Some a ->
    step env a ProgressTick = Some a' ->
    (forall p, tick p = if (p <? 90)%Z then (p + 2)%Z else p)
    /\ analysisProgress a' = tick (analysisProgress a)
    /\ state a' = ANALYZING
    /\ (analysisProgress a' <= 90)%Z.
Proof.
  intros env es a a' R S.
  split; [exact tick_spec | ].
  assert (I : invariant a)
    by (eapply run_invariant; [exact invariant_initial | exact R]).
  assert (I' : invariant a') by (eapply step_invariant; eassumption).
  unfold step in S. destruct (progressInterval a) eqn:P; [ | discriminate].
  injection S as <-. simpl in *. split; [reflexivity | ].
  unfold invariant in I, I'. simpl in I'.
  destruct (state a) eqn:St.
  - destruct I as ((Q & _) & _). congruence.
  - split; [reflexivity | ].
    destruct I' as [(_ & _ & _ & B & _) | (_ & Q & _)]; simpl in *; [lia | congruence].
  - destruct I as ((Q & _) & _). congruence.
  - destruct I as (Q & _). congruence.
Qed.

Lemma C7_witness :
  exists a',
    step Fixture.offline
         (handleFileUpload_start Fixture.offline Fixture.file initial)
         ProgressTick = Some a'
    /\ analysisProgress a' = 2%Z.
Proof.
  eexists. split; [reflexivity | ].
  apply (C7_tick_adds_two_below_90_and_stops
           Fixture.offline [FileUploaded Fixture.file]
           (handleFileUpload_start Fixture.offline Fixture.file initial));
    reflexivity.
Defined.

(** C6. Whenever a reachable state that is not RESULT steps into RESULT,
    the step is the result timeout firing; the state before it is ANALYZING
    with the progress at 100 and the interval cleared; that timeout was set,
    with the fixed delay of 500, by the event just before, the request
    settling with a returned result, which is the result now shown. *)
Theorem C6_result_only_after_resolve_and_progress_100 :
  forall (env : Env) (es : list event) (e : event) (a a' : App),
    run env initial es = Some a ->
    step env a e = Some a' ->
    state a <> RESULT ->
    state a' = RESULT ->
    e = DisplayDelayElapsed
    /\ state a = ANALYZING
    /\ analysisProgress a = 100%Z
    /\ analysisProgress a' = 100%Z
    /\ progressInterval a = None
    /\ exists es0 a0 result,
         es = es0 ++ [RequestSettled]
         /\ run env initial es0 = Some a0
         /\ request a0 = Some (Returned result)
         /\ resultTimer a = Some (500%Z, result)
         /\ analysisData a' = Some result.
Proof.
  intros env es e a a' R S N E.
  assert (I : invariant a)
    by (eapply run_invariant; [exact invariant_initial | exact R]).
  unfold step in S. destruct e.
  - destruct (state a); try discriminate. injection S as <-. discriminate.
  - destruct (progressInterval a); try discriminate. injection S as <-.
    simpl in E. congruence.
  - destruct (request a) as [[r | err] | ]; try discriminate;
      injection S as <-; simpl in E; congruence.
  - destruct (resultTimer a) as [[d result] | ] eqn:T; try discriminate.
    injection S as <-. simpl.
    destruct (timer_history env es a d result R T) as (-> & es0 & a0 & -> & R0 & Rq).
    unfold invariant in I. destruct (state a) eqn:St.
    + destruct I as ((_ & _ & Q) & _). congruence.
    + destruct I as [(_ & _ & Q & _) | (_ & Pi & _ & P)]; [congruence | ].
      repeat split; auto. exists es0, a0, result. auto.
    + congruence.
    + destruct I as (_ & _ & Q). congruence.
  - destruct (state a); try discriminate; injection S as <-; discriminate.
Qed.

Lemma C6_witness :
  let env := Fixture.answering (Some (js "k")) (Some (jsq "{'ratios': []}")) in
  exists a a',
    run env initial [FileUploaded Fixture.file; ProgressTick; RequestSettled] = Some a
    /\ step env a DisplayDelayElapsed = Some a'
    /\ state a' = RESULT
    /\ analysisProgress a = 100%Z.
Proof.
  intros env. eexists. eexists.
  split; [vm_compute; reflexivity | ].
  split; [vm_compute; reflexivity | ].
  split; [reflexivity | ].
  refine (proj1 (proj2 (proj2
            (C6_result_only_after_resolve_and_progress_100
               env [FileUploaded Fixture.file; ProgressTick; RequestSettled]
               DisplayDelayElapsed _ _ _ _ _ _)))).
  - vm_compute. reflexivity.
  - vm_compute. reflexivity.
  - discriminate.
  - reflexivity.
Defined.

(* ------------------------------------------------------------------ *)
(** ** Malformed and unchecked responses *)
(* ------------------------------------------------------------------ *)

Section Responses.
Variable env : Env.
Variable file : FileData.

(** What [analyzeFinancialData] does with a non-empty response text. *)
Lemma analyze_text (c : code_unit) (text : jsstring) :
  apiKey env <> [] ->
  generateContent env (request_for file) = Resolved (Some (c :: text)) ->
  fst (analyzeFinancialData env file)
  = match Json.parse (cleanText (c :: text)) with
    | Some v => Returned v
    | None => Threw (ErrorObject
                       (failure_prefix
                        ++ syntaxErrorMessage env (cleanText (c :: text))))
    end.
Proof.
  intros Hk Hr. unfold analyzeFinancialData.
  destruct (apiKey env); [congruence | ]. simpl.
  unfold call_generateContent. rewrite Hr. simpl.
  unfold JSON_parse. destruct (Json.parse _); reflexivity.
Qed.


Lemma ticks_run (n : nat) : forall a,
  progressInterval a <> None ->
  exists a', run env a (repeat ProgressTick n) = Some a'
             /\ state a' = state a /\ request a' = request a
             /\ analysisData a' = analysisData a
             /\ resultTimer a' = resultTimer a.
Proof.
  induction n as [ | n IH]; intros a P; simpl.
  - exists a. auto.
  - destruct (progressInterval a) eqn:Pi; [ | congruence].
    destruct (IH (progress_callback a)) as (a' & R & S & Rq & D & T).
    + simpl. congruence.
    + exists a'. auto.
Qed.

Lemma failed_run (es : list event) : forall a a',
  (forall f, ~ In (FileUploaded f) es) ->
  failed a -> run env a es = Some a' -> failed a'.
Proof.
  induction es as [ | e es IH]; simpl; intros a a' NF F R.
  - injection R as <-. exact F.
  - destruct (step env a e) as [a1 | ] eqn:S; [ | discriminate].
    apply (IH a1 a'); [intros f H; apply (NF f); auto | | exact R].
    clear IH R. destruct F as (T & Rq & St). unfold step in S.
    destruct e as [f | | | | ].
    + exfalso. apply (NF f). auto.
    + destruct (progressInterval a); [ | discriminate]. injection S as <-.
      repeat split; auto.
    + destruct (request a) as [c | ] eqn:Q; [ | discriminate]. injection S as <-.
      destruct Rq as [Rq | (err & Rq)]; [discriminate | ].
      injection Rq as ->. repeat split; simpl; auto. discriminate.
    + rewrite T in S. discriminate.
    + destruct (state a); try discriminate; injection S as <-;
        repeat split; simpl; auto; discriminate.
Qed.

End Responses.

(** C1 (as the code has it). When the text of the response, after the fence
    stripping, is not a JSON text, [analyzeFinancialData] throws an [Error]
    whose message is the failure prefix followed by the parser's message;
    after the upload and any number of progress ticks, the settling request
    puts the machine in ERROR with that message and no result; and the
    machine is not in RESULT after any further events that upload no other
    file. *)
Theorem C1_malformed_json_lands_in_error :
  forall (env : Env) (file : FileData) (c : code_unit) (text : jsstring),
    apiKey env <> [] ->
    generateContent env (request_for file) = Resolved (Some (c :: text)) ->
    Json.parse (cleanText (c :: text)) = None ->
    let message :=
      failure_prefix ++ syntaxErrorMessage env (cleanText (c :: text)) in
    fst (analyzeFinancialData env file) = Threw (ErrorObject message)
    /\ (forall n, exists a,
          run env initial
              (FileUploaded file :: repeat ProgressTick n ++ [RequestSettled])
          = Some a
          /\ state a = ERROR /\ errorMessage a = message
          /\ analysisData a = None /\ resultTimer a = None)
    /\ (forall es a,
          (forall f, ~ In (FileUploaded f) es) ->
          run env initial (FileUploaded file :: es) = Some a ->
          state a <> RESULT).
Proof.
  intros env file c text Hk Hr Hp message.
  assert (E : fst (analyzeFinancialData env file) = Threw (ErrorObject message)).
  { rewrite (analyze_text env file c text Hk Hr), Hp. reflexivity. }
  split; [exact E | ]. split.
  - intros n. simpl.
    destruct (ticks_run env n (handleFileUpload_start env file initial))
      as (a1 & R & S & Rq & D & T); [discriminate | ].
    rewrite run_app, R. simpl. rewrite Rq. simpl. rewrite E.
    eexists. split; [reflexivity | ]. simpl. rewrite D, T. auto.
  - intros es a NF R. simpl in R.
    refine (proj2 (proj2 (failed_run env es _ a NF _ R))).
    repeat split; simpl; [ | discriminate].
    right. rewrite E. eauto.
Qed.

Lemma C1_witness :
  let text := 96 :: jsq "``json {'ratios': [ ```" in
  let env := Fixture.answering (Some (js "k")) (Some text) in
  exists a,
    run env initial [FileUploaded Fixture.file; ProgressTick; ProgressTick; RequestSettled]
    = Some a
    /\ state a = ERROR
    /\ errorMessage a = failure_prefix ++ js "Unexpected token".
Proof.
  intros text env.
  destruct (C1_malformed_json_lands_in_error
              env Fixture.file 96 (jsq "``json {'ratios': [ ```")) as (_ & H & _).
  - vm_compute. discriminate.
  - reflexivity.
  - vm_compute. reflexivity.
  - destruct (H 2%nat) as (a & R & S & M & _). exists a. auto.
Defined.

(** C1 (as stated) fails: a response that is well-formed JSON and whose
    ratio carries the status [unknown], outside good / warning / critical,
    is returned as the result, and the machine lands in RESULT. *)
Lemma C1_counterexample_unknown_status_reaches_result :
  let env := Fixture.answering (Some (js "k")) (Some Fixture.unknown_status_text) in
  exists v data r,
    fst (analyzeFinancialData env Fixture.file) = Returned v
    /\ Read.result v = Some data
    /\ ratios data = Some [r]
    /\ FinancialRatio.status r = js "unknown"
    /\ ~ In (FinancialRatio.status r) status_values
    /\ option_map state
         (run env initial
              [FileUploaded Fixture.file; RequestSettled; DisplayDelayElapsed])
       = Some RESULT.
Proof.
  intros env. eexists. eexists. eexists.
  split; [vm_compute; reflexivity | ].
  split; [vm_compute; reflexivity | ].
  split; [reflexivity | ].
  split; [reflexivity | ].
  split; [ | vm_compute; reflexivity].
  vm_compute. intros [H | [H | [H | []]]]; discriminate.
Qed.

(* ------------------------------------------------------------------ *)
(** ** The collections of a returned result *)
(* ------------------------------------------------------------------ *)







(* ------------------------------------------------------------------ *)
(** ** The spreadsheet export *)
(* ------------------------------------------------------------------ *)

Section ExportSheets.
Import Dashboard ExportSpec.

(** The header of [json_to_sheet] over rows that all carry the same keys,
    none repeated, is that list of keys. *)
Lemma header_of_uniform_rows {A} (row : A -> list (jsstring * cell))
      (keys : list jsstring) :
  (forall x, map fst (row x) = keys) ->
  fold_left set_add keys keys = keys ->
  forall l,
    fold_left (fun h r => fold_left set_add (map fst r) h) (map row l) keys = keys.
Proof.
  intros K F l. induction l as [ | x l IH]; simpl; [reflexivity | ].
  rewrite K, F. exact IH.
Qed.

Lemma json_to_sheet_uniform {A} (row : A -> list (jsstring * cell))
      (keys : list jsstring) (x : A) (l : list A) :
  (forall y, map fst (row y) = keys) ->
  (forall y, map (field (row y)) keys = map snd (row y)) ->
  fold_left set_add keys [] = keys ->
  fold_left set_add keys keys = keys ->
  json_to_sheet (map row (x :: l)) = table keys row (x :: l).
Proof.
  intros K V F0 F. unfold json_to_sheet, table.
  change (map row (x :: l)) with (row x :: map row l).
  cbn [fold_left]. rewrite K, F0, (header_of_uniform_rows row keys K F l).
  f_equal. change (row x :: map row l) with (map row (x :: l)).
  rewrite map_map. apply map_ext. exact V.
Qed.

Lemma changes_sheet (x : SignificantChange.t) (l : list SignificantChange.t) :
  json_to_sheet (map change_row (x :: l)) = table change_headers change_row (x :: l).
Proof.
  apply json_to_sheet_uniform; try intros y; vm_compute; reflexivity.
Qed.

Lemma ratios_sheet (x : FinancialRatio.t) (l : list FinancialRatio.t) :
  json_to_sheet (map ratio_row (x :: l)) = table ratio_headers ratio_row (x :: l).
Proof.
  apply json_to_sheet_uniform; try intros y; vm_compute; reflexivity.
Qed.

End ExportSheets.

(** C8 (as stated) fails: a response whose collections are all present and
    empty is returned, the application shows it in the Dashboard, whose two
    tabs both render, and the workbook exported for it has the single sheet
    Executive Report. *)
Lemma C8_counterexample_single_sheet :
  let env := Fixture.answering (Some (js "k")) (Some Fixture.no_rows_text) in
  exists v a,
    fst (analyzeFinancialData env Fixture.file) = Returned v
    /\ run env initial [FileUploaded Fixture.file; RequestSettled; DisplayDelayElapsed]
       = Some a
    /\ AppView.render a = [AppView.NavBadge; AppView.DashboardPanel v]
    /\ Read.result v = Some Fixture.bare
    /\ (forall st, DashboardView.render Fixture.bare st <> None)
    /\ map fst (fst (Dashboard.handleExportExcel (js "1/1/2568") Fixture.bare))
       = [js "Executive Report"].
Proof.
  intros env. eexists. eexists.
  split; [vm_compute; reflexivity | ].
  split; [vm_compute; reflexivity | ].
  split; [vm_compute; reflexivity | ].
  split; [vm_compute; reflexivity | ].
  split; [ | vm_compute; reflexivity].
  intros st. unfold DashboardView.render.
  destruct (DashboardView.activeTab st); discriminate.
Qed.

(** C8 (as the code has it). The export hands [writeFile] the fixed file
    name and a workbook that starts with the sheet Executive Report (title,
    date, overall analysis, full report), followed by Variance Analysis, the
    [significantChanges] under the six Thai headers, when there is at least
    one entry, and then by Financial Ratios, the [ratios] under the five
    Thai headers, when there is at least one ratio. *)
Theorem C8_export_sheets_follow_the_data :
  forall (today : jsstring) (data : AnalysisResult),
    Dashboard.handleExportExcel today data
    = (ExportSpec.expected_workbook today data, js "SmartAcc_Financial_Report.xlsx")
    /\ map fst (ExportSpec.expected_workbook today data)
       = [js "Executive Report"]
         ++ (if Dashboard.nonempty (significantChanges data)
             then [js "Variance Analysis"] else [])
         ++ (if Dashboard.nonempty (ratios data)
             then [js "Financial Ratios"] else []).
Proof.
  intros today data. split.
  - unfold Dashboard.handleExportExcel, ExportSpec.expected_workbook.
    f_equal.
    destruct (significantChanges data) as [[ | c cs] | ];
      destruct (ratios data) as [[ | r rs] | ];
      cbn [Dashboard.nonempty Dashboard.items];
      rewrite ?changes_sheet, ?ratios_sheet; reflexivity.
  - unfold ExportSpec.expected_workbook.
    destruct (Dashboard.nonempty (significantChanges data));
      destruct (Dashboard.nonempty (ratios data)); reflexivity.
Qed.

(* ------------------------------------------------------------------ *)
(** ** A change with no department *)
(* ------------------------------------------------------------------ *)

(** C9. Parsing keeps the absence of [relatedDepartment] (the first entry
    of the response is read with no department). The application shows the
    result in the Dashboard, whose variance table, with All selected, lists
    both entries and labels the first one General; the selector offers
    General, which the second entry makes an option; but the department
    filter compares the raw member: with General selected the table lists
    the second entry only. *)
Theorem C9_absent_department_is_labelled_General_but_not_filtered_as_General :
  let env := Fixture.answering (Some (js "k")) (Some Fixture.two_changes_text) in
  let general_selected :=
    {| DashboardView.activeTab := DashboardView.dashboard;
       DashboardView.selectedDept := Dashboard.General;
       DashboardView.chartType := DashboardView.bar |} in
  exists v a data options all_tab general_tab,
    fst (analyzeFinancialData env Fixture.file) = Returned v
    /\ run env initial [FileUploaded Fixture.file; RequestSettled; DisplayDelayElapsed]
       = Some a
    /\ AppView.render a = [AppView.NavBadge; AppView.DashboardPanel v]
    /\ Read.result v = Some data
    /\ significantChanges data = Some [Fixture.rent; Fixture.travel]
    /\ SignificantChange.relatedDepartment Fixture.rent = None
    /\ DashboardView.render data DashboardView.initial_state
       = Some {| DashboardView.selector := Some options;
                 DashboardView.viewBody := DashboardView.DashboardBody all_tab |}
    /\ DashboardView.varianceBody all_tab
       = DashboardView.Rows [DashboardView.variance_row Fixture.rent;
                             DashboardView.variance_row Fixture.travel]
    /\ DashboardView.rowDepartment (DashboardView.variance_row Fixture.rent)
       = Dashboard.General
    /\ In (Dashboard.General, Dashboard.General) options
    /\ DashboardView.render data general_selected
       = Some {| DashboardView.selector := Some options;
                 DashboardView.viewBody := DashboardView.DashboardBody general_tab |}
    /\ DashboardView.varianceBody general_tab
       = DashboardView.Rows [DashboardView.variance_row Fixture.travel]
    /\ Dashboard.department_cell Fixture.rent = Dashboard.General
    /\ In Dashboard.General (Dashboard.availableDepartments data)
    /\ Dashboard.filteredChanges data Dashboard.General = [Fixture.travel]
    /\ Dashboard.filteredChanges data Dashboard.All = [Fixture.rent; Fixture.travel].
Proof.
  intros env general_selected. eexists. eexists. eexists. eexists. eexists. eexists.
  split; [vm_compute; reflexivity | ].
  split; [vm_compute; reflexivity | ].
  split; [vm_compute; reflexivity | ].
  split; [vm_compute; reflexivity | ].
  split; [vm_compute; reflexivity | ].
  split; [reflexivity | ].
  split; [vm_compute; reflexivity | ].
  split; [vm_compute; reflexivity | ].
  split; [vm_compute; reflexivity | ].
  split; [vm_compute; auto | ].
  split; [vm_compute; reflexivity | ].
  split; [vm_compute; reflexivity | ].
  split; [vm_compute; reflexivity | ].
  split; [vm_compute; auto | ].
  split; vm_compute; reflexivity.
Qed.

(** Whatever department other than All is selected, an entry with no
    department is not among the filtered changes. *)
Lemma filteredChanges_drops_absent (data : AnalysisResult) (selectedDept : jsstring)
      (item : SignificantChange.t) :
  jsstring_eqb selectedDept Dashboard.All = false ->
  SignificantChange.relatedDepartment item = None ->
  ~ In item (Dashboard.filteredChanges data selectedDept).
Proof.
  intros S A. unfold Dashboard.filteredChanges.
  destruct (significantChanges data) as [changes | ]; [ | intros []].
  rewrite S. rewrite filter_In. intros (_ & H). rewrite A in H. discriminate.
Qed.

(* ------------------------------------------------------------------ *)
(** ** String predicates and the classification of a file *)
(* ------------------------------------------------------------------ *)

Lemma jsstring_eqb_eq (a b : jsstring) : jsstring_eqb a b = true <-> a = b.
Proof.
  revert b. induction a as [ | x a IH]; intros [ | y b]; simpl;
    try (split; [discriminate | congruence]); [tauto | ].
  rewrite andb_true_iff, N.eqb_eq, IH. split; [intros (-> & ->) | intros [= -> ->]]; auto.
Qed.

Lemma jsstring_eqb_refl (a : jsstring) : jsstring_eqb a a = true.
Proof. apply jsstring_eqb_eq. reflexivity. Qed.

Lemma startsWith_spec (s p : jsstring) :
  JsString.startsWith s p = true <-> exists q, s = p ++ q.
Proof.
  revert s. induction p as [ | y p IH]; intros s; simpl.
  - destruct s; split; eauto.
  - destruct s as [ | x s].
    + split; [discriminate | intros (q & H); discriminate].
    + simpl. rewrite andb_true_iff, N.eqb_eq, IH. split.
      * intros (-> & q & ->). eauto.
      * intros (q & [= -> ->]). eauto.
Qed.

Lemma endsWith_spec (s p : jsstring) :
  JsString.endsWith s p = true <-> ends_in s p.
Proof.
  unfold JsString.endsWith, ends_in. rewrite startsWith_spec. split.
  - intros (q & H). exists (rev q).
    rewrite <- (rev_involutive s), H, rev_app_distr, rev_involutive. reflexivity.
  - intros (q & ->). exists (rev q). apply rev_app_distr.
Qed.

Lemma includes_spec (s p : jsstring) :
  JsString.includes s p = true <-> contains s p.
Proof.
  unfold contains. induction s as [ | x s IH].
  - change (JsString.includes [] p) with (JsString.startsWith [] p || false).
    rewrite orb_false_r, startsWith_spec. split.
    + intros (q & H). exists [], q. exact H.
    + intros (a & b & H). destruct a as [ | z a]; [eauto | discriminate].
  - change (JsString.includes (x :: s) p)
      with (JsString.startsWith (x :: s) p || JsString.includes s p).
    rewrite orb_true_iff, IH, startsWith_spec. split.
    + intros [(q & H) | (a & b & ->)].
      * exists [], q. exact H.
      * exists (x :: a), b. reflexivity.
    + intros (a & b & H). destruct a as [ | z a].
      * left. exists b. exact H.
      * right. injection H as -> ->. eauto.
Qed.

(** C4 (as stated) fails on its own example: [report.CSV], declared with
    no content type, takes the opaque branch; the suffix test is case
    sensitive. *)
Lemma C4_counterexample_upper_case_extension :
  classify {| File.name := js "report.CSV"; File.type := [] |} = Opaque.
Proof. vm_compute. reflexivity. Qed.

(** C4 (as the code has it). Every file is classified as exactly one of
    tabular and opaque, by its name and its declared type together: tabular
    if and only if the name ends in [.xlsx], [.xls] or [.csv] as written
    (lower case), or the type contains [spreadsheet] or [excel], or the type
    is [text/csv]. *)
Theorem C4_classification_rule :
  forall file : File.t,
    (classify file = Tabular \/ classify file = Opaque)
    /\ (classify file = Tabular <->
        ends_in (File.name file) (js ".xlsx")
        \/ ends_in (File.name file) (js ".xls")
        \/ ends_in (File.name file) (js ".csv")
        \/ contains (File.type file) (js "spreadsheet")
        \/ contains (File.type file) (js "excel")
        \/ File.type file = js "text/csv").
Proof.
  intros file. split.
  - destruct (classify file); auto.
  - rewrite <- !endsWith_spec, <- !includes_spec, <- jsstring_eqb_eq.
    unfold classify, isSpreadsheet.
    destruct (JsString.endsWith (File.name file) (js ".xlsx"));
      destruct (JsString.endsWith (File.name file) (js ".xls"));
      destruct (JsString.endsWith (File.name file) (js ".csv"));
      destruct (JsString.includes (File.type file) (js "spreadsheet"));
      destruct (JsString.includes (File.type file) (js "excel"));
      destruct (jsstring_eqb (File.type file) (js "text/csv"));
      simpl; intuition discriminate.
Qed.

(** The examples of the rule: a lower-case extension decides alone; an
    upper-case one leaves the decision to the declared type. *)
Example classify_examples :
  map classify
      [ {| File.name := js "report.csv"; File.type := [] |};
        {| File.name := js "report.CSV"; File.type := js "text/csv" |};
        {| File.name := js "statement.pdf"; File.type := js "application/pdf" |};
        {| File.name := js "statement.pdf"; File.type := js "application/vnd.ms-excel" |};
        {| File.name := js "book.xlsx"; File.type := js "application/octet-stream" |} ]
  = [Tabular; Tabular; Opaque; Tabular; Tabular].
Proof. vm_compute. reflexivity. Qed.

(* ------------------------------------------------------------------ *)
(** ** White space, [trim] and the three patterns *)
(* ------------------------------------------------------------------ *)

Section Spaces.
Import JsString.

(** The code units [\s] matches. *)
Lemma is_space_cases (c : code_unit) :
  is_space c = true ->
  In c [9; 10; 11; 12; 13; 32; 160; 5760; 8192; 8193; 8194; 8195; 8196; 8197;
        8198; 8199; 8200; 8201; 8202; 8232; 8233; 8239; 8287; 12288; 65279].
Proof.
  unfold is_space.
  rewrite !orb_true_iff, !andb_true_iff, !N.leb_le, !N.eqb_eq. simpl. lia.
Qed.

Lemma trimStart_spaces (l s : jsstring) :
  spaces l -> trimStart (l ++ s) = trimStart s.
Proof.
  induction 1 as [ | c l C _ IH]; simpl; [reflexivity | ]. rewrite C. exact IH.
Qed.

Lemma trimStart_stops (c : code_unit) (s : jsstring) :
  is_space c = false -> trimStart (c :: s) = c :: s.
Proof. intros C. simpl. rewrite C. reflexivity. Qed.

Lemma trimStart_split (s : jsstring) :
  exists l, s = l ++ trimStart s /\ spaces l.
Proof.
  induction s as [ | c s (l & E & L)]; simpl.
  - exists []. split; [reflexivity | constructor].
  - destruct (is_space c) eqn:C.
    + exists (c :: l). split; [simpl; congruence | constructor; assumption].
    + exists []. split; [reflexivity | constructor].
Qed.

Lemma trimStart_head (s r : jsstring) (c : code_unit) :
  trimStart s = c :: r -> is_space c = false.
Proof.
  induction s as [ | x s IH]; simpl; [discriminate | ].
  destruct (is_space x) eqn:X; [exact IH | ]. intros [= <- <-]. exact X.
Qed.

(** What [trimStart] leaves of a text that ends in [d :: r], [d] not a
    space, still ends so. *)
Lemma trimStart_keeps_tail (w r : jsstring) (d : code_unit) :
  is_space d = false ->
  exists q, trimStart (w ++ d :: r) = q ++ d :: r.
Proof.
  intros D. induction w as [ | x w (q & IH)]; simpl.
  - rewrite D. exists []. reflexivity.
  - destruct (is_space x); [eauto | ]. exists (x :: w). reflexivity.
Qed.

Lemma spaces_rev (l : jsstring) : spaces l -> spaces (rev l).
Proof. apply Forall_rev. Qed.

Lemma spaces_app (l1 l2 : jsstring) : spaces l1 -> spaces l2 -> spaces (l1 ++ l2).
Proof. intros. apply Forall_app. auto. Qed.

Lemma trimEnd_spaces (s r : jsstring) :
  spaces r -> trimEnd (s ++ r) = trimEnd s.
Proof.
  intros R. unfold trimEnd.
  rewrite rev_app_distr, (trimStart_spaces _ _ (spaces_rev r R)). reflexivity.
Qed.

Lemma trimEnd_stops (s : jsstring) (d : code_unit) :
  is_space d = false -> trimEnd (s ++ [d]) = s ++ [d].
Proof.
  intros D. unfold trimEnd. rewrite rev_app_distr. simpl. rewrite D. simpl.
  rewrite rev_involutive. reflexivity.
Qed.

Lemma trimEnd_split (s : jsstring) :
  exists r, s = trimEnd s ++ r /\ spaces r.
Proof.
  unfold trimEnd. destruct (trimStart_split (rev s)) as (l & E & L).
  exists (rev l). split; [ | apply spaces_rev; exact L].
  rewrite <- rev_app_distr, <- E, rev_involutive. reflexivity.
Qed.

(** A text that starts with a code unit that is not a space is trimmed at
    its end only, to a text that starts with the same code unit and ends
    with one that is not a space. *)
Lemma trimEnd_tight (c : code_unit) (u : jsstring) :
  is_space c = false ->
  exists k p d, trimEnd (c :: u) = c :: k
                /\ trimEnd (c :: u) = p ++ [d] /\ is_space d = false.
Proof.
  intros C. unfold trimEnd. simpl rev.
  destruct (trimStart_keeps_tail (rev u) [] c C) as (q & E). rewrite E.
  rewrite rev_app_distr. simpl. exists (rev q). 
  destruct q as [ | d q].
  - exists [], c. simpl. auto.
  - exists (c :: rev q), d. simpl. repeat split; auto.
    exact (trimStart_head _ _ _ E).
Qed.

End Spaces.

Section Patterns.
Import JsString Regex.

Lemma fence_units : fence = [96; 96; 96].
Proof. reflexivity. Qed.

Lemma match_lits (p : jsstring) (re : regex) (s : jsstring) :
  match_here (lits p ++ re) (p ++ s) = match_here re s.
Proof.
  induction p as [ | y p IH]; simpl; [reflexivity | ].
  rewrite N.eqb_refl. exact IH.
Qed.

Lemma match_lits_fails (p : jsstring) (re : regex) (s : jsstring) :
  startsWith s p = false -> match_here (lits p ++ re) s = None.
Proof.
  revert s. induction p as [ | y p IH]; intros s H.
  - destruct s; discriminate.
  - destruct s as [ | x s]; [reflexivity | ]. simpl in *.
    destruct (x =? y); simpl in *; [apply IH; exact H | reflexivity].
Qed.

(** A trailing [\s*] takes every space. *)
Lemma match_spaces (s : jsstring) :
  match_here [SpaceStar] s = Some (trimStart s).
Proof.
  induction s as [ | x s IH]; [reflexivity | ].
  simpl in *. rewrite IH. destruct (is_space x); reflexivity.
Qed.

Lemma match_fence_end (u : jsstring) :
  match_here (lits fence ++ [Eol]) u
  = if jsstring_eqb u fence then Some [] else None.
Proof.
  rewrite fence_units. simpl.
  destruct u as [ | a [ | b [ | c [ | d u]]]]; simpl; try reflexivity;
    destruct (a =? 96); simpl; try reflexivity;
    destruct (b =? 96); simpl; try reflexivity;
    destruct (c =? 96); reflexivity.
Qed.

Lemma space_not_backtick (x : code_unit) : is_space x = true -> (x =? 96) = false.
Proof.
  intros X. destruct (N.eqb_spec x 96) as [-> | ]; [discriminate | reflexivity].
Qed.

(** [/\s*```$/] matches at a position exactly when the rest of the text
    is spaces followed by the fence; the match then runs to the end. *)
Lemma match_close (s : jsstring) :
  match_here re_close s
  = if jsstring_eqb (trimStart s) fence then Some [] else None.
Proof.
  unfold re_close.
  induction s as [ | x s IH].
  - reflexivity.
  - cbn [match_here] in *. cbn [trimStart].
    destruct (is_space x) eqn:X.
    + rewrite IH. destruct (jsstring_eqb (trimStart s) fence); [reflexivity | ].
      rewrite fence_units. simpl. rewrite (space_not_backtick x X). reflexivity.
    + apply match_fence_end.
Qed.

Lemma jsstring_eqb_length (a b : jsstring) :
  jsstring_eqb a b = true -> List.length a = List.length b.
Proof. intros H. apply jsstring_eqb_eq in H. congruence. Qed.

(** Nothing matches while a code unit that is not a space lies between
    the position and the closing fence. *)
Lemma match_close_before (w r : jsstring) (d : code_unit) :
  is_space d = false ->
  match_here re_close (w ++ d :: r ++ fence) = None.
Proof.
  intros D. rewrite match_close.
  destruct (trimStart_keeps_tail w (r ++ fence) d D) as (q & ->).
  destruct (jsstring_eqb _ fence) eqn:E; [ | reflexivity].
  apply jsstring_eqb_length in E. rewrite fence_units in E.
  rewrite length_app in E. simpl in E. rewrite length_app in E. simpl in E. lia.
Qed.

Lemma replace_scan_eq (re : regex) (s : jsstring) :
  replace_scan re s
  = match match_here re s with
    | Some rest => rest
    | None => match s with
              | [] => []
              | c :: s' => c :: replace_scan re s'
              end
    end.
Proof. destruct s; reflexivity. Qed.

(** The closing fence and the spaces before it are removed. *)
Lemma replace_close_strips (p r : jsstring) (d : code_unit) :
  is_space d = false -> spaces r ->
  replace_empty false re_close ((p ++ [d]) ++ r ++ fence) = p ++ [d].
Proof.
  intros D R. unfold replace_empty.
  induction p as [ | x p IH].
  - change (([] ++ [d]) ++ r ++ fence) with (d :: r ++ fence).
    rewrite replace_scan_eq.
    assert (M : match_here re_close (d :: r ++ fence) = None)
      by exact (match_close_before [] r d D).
    rewrite M. simpl. f_equal.
    rewrite replace_scan_eq, match_close, (trimStart_spaces r fence R).
    reflexivity.
  - change (((x :: p) ++ [d]) ++ r ++ fence) with (x :: (p ++ [d]) ++ r ++ fence).
    rewrite replace_scan_eq.
    assert (M : match_here re_close (x :: (p ++ [d]) ++ r ++ fence) = None).
    { rewrite <- app_assoc. exact (match_close_before (x :: p) r d D). }
    rewrite M. simpl. f_equal. exact IH.
Qed.

(** A text that does not end in a backtick is left as it is. *)
Lemma replace_close_unchanged (s : jsstring) :
  (forall p, s <> p ++ [96]) ->
  replace_empty false re_close s = s.
Proof.
  unfold replace_empty. induction s as [ | x s IH]; intros N.
  - reflexivity.
  - rewrite replace_scan_eq, match_close.
    destruct (jsstring_eqb (trimStart (x :: s)) fence) eqn:E.
    + exfalso. apply jsstring_eqb_eq in E.
      destruct (trimStart_split (x :: s)) as (l & S & _).
      rewrite E, fence_units in S. apply (N (l ++ [96; 96])).
      rewrite S, <- app_assoc. reflexivity.
    + f_equal. apply IH. intros p ->. apply (N (x :: p)). reflexivity.
Qed.

(** An opening pattern leaves a text that starts with another code unit
    than the backtick as it is. *)
Lemma replace_open_unchanged (p : jsstring) (c : code_unit) (s : jsstring) :
  (c =? 96) = false ->
  replace_empty true (lits (96 :: p) ++ [SpaceStar]) (c :: s) = c :: s.
Proof.
  intros C. unfold replace_empty. simpl. rewrite C. reflexivity.
Qed.

End Patterns.

(* ------------------------------------------------------------------ *)
(** ** The lexer and the white space around a JSON text *)
(* ------------------------------------------------------------------ *)

Section LexerSpaces.
Import JsString Json.

Lemma lex_run_app (s1 s2 : jsstring) : forall conf,
  lex_run conf (s1 ++ s2)
  = match lex_run conf s1 with
    | Some conf1 => lex_run conf1 s2
    | None => None
    end.
Proof.
  induction s1 as [ | c s1 IH]; intros conf; simpl; [reflexivity | ].
  destruct (lex_step conf c); [apply IH | reflexivity].
Qed.

Ltac each_space H :=
  apply is_space_cases in H; simpl in H;
  repeat (destruct H as [H | H]; [subst | ]); [ .. | contradiction H].

(** Between two tokens a space is skipped when it is JSON white space and
    refused otherwise. *)
Lemma idle_step_space (out : list token) (c : code_unit) :
  is_space c = true ->
  idle_step out c = if is_ws c then Some (LIdle, out) else None.
Proof. intros H. each_space H; reflexivity. Qed.

(** A space read in any state either is refused or leaves what the lexer
    would deliver at the end of the input unchanged, unless the lexer is
    inside a string, where it delivers nothing. *)
Lemma lex_step_space (conf conf2 : lconf) (c : code_unit) (ts : list token) :
  is_space c = true ->
  lex_step conf c = Some conf2 ->
  lex_finish conf2 = Some ts ->
  lex_finish conf = Some ts.
Proof.
  intros H S F. destruct conf as [[ | acc e | n acc | w seen] out].
  - simpl in S. rewrite (idle_step_space out c H) in S.
    destruct (is_ws c); [ | discriminate]. injection S as <-. exact F.
  - destruct e as [ | | k x]; each_space H;
      vm_compute in S; try discriminate S; injection S as <-; discriminate F.
  - destruct n; each_space H;
      vm_compute in S; try discriminate S; injection S as <-; exact F.
  - destruct w; destruct seen as [ | [ | [ | [ | [ | seen]]]]]; each_space H;
      vm_compute in S; discriminate S.
Qed.

(** A backtick is refused outside a string. *)
Lemma lex_step_backtick (conf conf2 : lconf) :
  lex_step conf 96 = Some conf2 -> lex_finish conf2 = None.
Proof.
  intros S. destruct conf as [[ | acc e | n acc | w seen] out].
  - vm_compute in S. discriminate S.
  - destruct e as [ | | k x];
      vm_compute in S; try discriminate S; injection S as <-; reflexivity.
  - destruct n; vm_compute in S; discriminate S.
  - destruct w; destruct seen as [ | [ | [ | [ | [ | seen]]]]];
      vm_compute in S; discriminate S.
Qed.

Lemma lex_leading (l s : jsstring) (ts : list token) :
  spaces l -> lex (l ++ s) = Some ts -> lex s = Some ts.
Proof.
  unfold lex. induction 1 as [ | c l C _ IH]; [auto | ].
  simpl. rewrite (idle_step_space [] c C).
  destruct (is_ws c); [exact IH | discriminate].
Qed.

Lemma lex_trailing_space (s : jsstring) (c : code_unit) (ts : list token) :
  is_space c = true -> lex (s ++ [c]) = Some ts -> lex s = Some ts.
Proof.
  unfold lex. rewrite lex_run_app. intros C H.
  destruct (lex_run (LIdle, []) s) as [conf | ]; [ | discriminate]. simpl in H.
  destruct (lex_step conf c) as [conf2 | ] eqn:S; [ | discriminate].
  exact (lex_step_space conf conf2 c ts C S H).
Qed.

Lemma lex_trailing (r : jsstring) : forall (s : jsstring) (ts : list token),
  spaces r -> lex (s ++ r) = Some ts -> lex s = Some ts.
Proof.
  induction r as [ | c r IH]; intros s ts R H.
  - rewrite app_nil_r in H. exact H.
  - inversion R as [ | ? ? C R']; subst.
    apply (lex_trailing_space s c ts C). apply (IH (s ++ [c]) ts R').
    rewrite <- app_assoc. exact H.
Qed.

Lemma lex_backtick_end (p : jsstring) : lex (p ++ [96]) = None.
Proof.
  unfold lex. rewrite lex_run_app.
  destruct (lex_run (LIdle, []) p) as [conf | ]; [ | reflexivity]. simpl.
  destruct (lex_step conf 96) as [conf2 | ] eqn:S; [ | reflexivity].
  exact (lex_step_backtick conf conf2 S).
Qed.

(** A text the lexer accepts starts neither with a backtick nor with the
    letter j. *)
Lemma lex_first (c : code_unit) (s : jsstring) (ts : list token) :
  lex (c :: s) = Some ts -> (c =? 96) = false /\ (c =? 106) = false.
Proof.
  unfold lex. simpl. intros H.
  split; [destruct (N.eqb_spec c 96) | destruct (N.eqb_spec c 106)];
    auto; subst; vm_compute in H; discriminate H.
Qed.

Lemma parse_lex (t : jsstring) (v : JSValue) :
  parse t = Some v ->
  exists ts, lex t = Some ts /\ parse_tokens ts = Some v /\ ts <> [].
Proof.
  unfold parse. destruct (lex t) as [ts | ]; [ | discriminate].
  intros P. exists ts. repeat split; auto. intros ->. discriminate P.
Qed.

(** The anatomy of a text that [JSON.parse] accepts: spaces, then a core
    that starts and ends with code units that are no spaces, no backtick
    and, at the start, no j; then spaces. The core is [trim] of the text
    and parses to the same value. *)
Lemma parse_anatomy (t : jsstring) (v : JSValue) :
  parse t = Some v ->
  exists l c k p d r,
    t = l ++ trim t ++ r /\ spaces l /\ spaces r
    /\ trim t = c :: k /\ trim t = p ++ [d]
    /\ is_space c = false /\ (c =? 96) = false /\ (c =? 106) = false
    /\ is_space d = false /\ (d =? 96) = false
    /\ parse (trim t) = Some v.
Proof.
  intros P. destruct (parse_lex t v P) as (ts & L & PT & NE).
  destruct (trimStart_split t) as (l & Et & Sl).
  assert (Lu : lex (trimStart t) = Some ts).
  { apply (lex_leading l); [exact Sl | ]. rewrite <- Et. exact L. }
  destruct (trimStart t) as [ | c u] eqn:U.
  { unfold lex in Lu. simpl in Lu. injection Lu as <-. congruence. }
  pose proof (trimStart_head t u c U) as C.
  destruct (lex_first c u ts Lu) as (C96 & C106).
  destruct (trimEnd_tight c u C) as (k & p & d & Ek & Ep & D).
  destruct (trimEnd_split (c :: u)) as (r & Er & Sr).
  assert (Lc : lex (trimEnd (c :: u)) = Some ts).
  { apply (lex_trailing r); [exact Sr | ]. rewrite <- Er. exact Lu. }
  assert (T : trim t = trimEnd (c :: u)) by (unfold trim; rewrite U; reflexivity).
  exists l, c, k, p, d, r. rewrite T.
  repeat split; auto.
  - rewrite <- Er. exact Et.
  - destruct (N.eqb_spec d 96) as [-> | ]; [ | reflexivity].
    rewrite Ep, lex_backtick_end in Lc. discriminate.
  - unfold parse. rewrite Lc. exact PT.
Qed.

End LexerSpaces.

(* ------------------------------------------------------------------ *)
(** ** Fenced responses *)
(* ------------------------------------------------------------------ *)

Section Fences.
Import JsString Regex.

Lemma trim_fenced (ws0 ws3 body : jsstring) :
  spaces ws0 -> spaces ws3 ->
  trim (ws0 ++ fence ++ body ++ fence ++ ws3) = fence ++ body ++ fence.
Proof.
  intros S0 S3. unfold trim. rewrite (trimStart_spaces ws0 _ S0).
  rewrite fence_units.
  change (trimStart ([96; 96; 96] ++ body ++ [96; 96; 96] ++ ws3))
    with ([96; 96; 96] ++ body ++ [96; 96; 96] ++ ws3).
  replace ([96; 96; 96] ++ body ++ [96; 96; 96] ++ ws3)
    with (((([96; 96; 96] ++ body) ++ [96; 96]) ++ [96]) ++ ws3)
    by (rewrite <- !app_assoc; reflexivity).
  rewrite (trimEnd_spaces _ ws3 S3), trimEnd_stops by reflexivity.
  rewrite <- !app_assoc. reflexivity.
Qed.

Lemma open_json_unchanged (c : code_unit) (s : jsstring) :
  (c =? 96) = false -> replace_empty true re_open_json (c :: s) = c :: s.
Proof.
  intros C. unfold replace_empty, re_open_json.
  rewrite match_lits_fails; [reflexivity | ].
  change (js "```json") with (96 :: js "``json"). simpl. rewrite C. reflexivity.
Qed.

Lemma open_unchanged (c : code_unit) (s : jsstring) :
  (c =? 96) = false -> replace_empty true re_open (c :: s) = c :: s.
Proof.
  intros C. unfold replace_empty, re_open.
  rewrite match_lits_fails; [reflexivity | ].
  rewrite fence_units. simpl. rewrite C. reflexivity.
Qed.

(** The tagged opening marker and the spaces after it are removed. *)
Lemma open_json_strips (sp rest : jsstring) (c : code_unit) :
  spaces sp -> is_space c = false ->
  replace_empty true re_open_json (fence ++ js "json" ++ sp ++ c :: rest) = c :: rest.
Proof.
  intros S C. unfold replace_empty, re_open_json.
  change (fence ++ js "json" ++ sp ++ c :: rest)
    with (js "```json" ++ sp ++ c :: rest).
  rewrite match_lits, match_spaces, (trimStart_spaces sp _ S), (trimStart_stops c rest C).
  reflexivity.
Qed.

(** Without the tag, the first pattern does not match ... *)
Lemma open_json_skips_untagged (sp rest : jsstring) (c : code_unit) :
  spaces sp -> (c =? 106) = false ->
  replace_empty true re_open_json (fence ++ sp ++ c :: rest)
  = fence ++ sp ++ c :: rest.
Proof.
  intros S C. unfold replace_empty, re_open_json.
  change (lits (js "```json")) with (lits fence ++ lits (js "json")).
  rewrite <- app_assoc, match_lits, match_lits_fails; [reflexivity | ].
  destruct S as [ | x sp X _]; simpl.
  - rewrite C. reflexivity.
  - replace (x =? 106) with false; [reflexivity | ].
    destruct (N.eqb_spec x 106) as [-> | ]; [discriminate X | reflexivity].
Qed.

(** ... and the second removes the marker and the spaces after it. *)
Lemma open_strips (sp rest : jsstring) (c : code_unit) :
  spaces sp -> is_space c = false ->
  replace_empty true re_open (fence ++ sp ++ c :: rest) = c :: rest.
Proof.
  intros S C. unfold replace_empty, re_open.
  rewrite match_lits, match_spaces, (trimStart_spaces sp _ S), (trimStart_stops c rest C).
  reflexivity.
Qed.

(** What the cleaning leaves of a fenced JSON text, and of the text
    alone, is the text trimmed. *)
Lemma cleanText_fenced (t : jsstring) (v : JSValue)
      (tagged : bool) (ws0 ws1 ws2 ws3 : jsstring) :
  Json.parse t = Some v ->
  spaces ws0 -> spaces ws1 -> spaces ws2 -> spaces ws3 ->
  cleanText (wrap tagged ws0 ws1 ws2 ws3 t) = trim t
  /\ cleanText t = trim t
  /\ Json.parse (trim t) = Some v.
Proof.
  intros P S0 S1 S2 S3.
  destruct (parse_anatomy t v P)
    as (l & c & k & p & d & r & Et & Sl & Sr & Ek & Ep & C & C96 & C106 & D & D96 & Pc).
  split; [ | split; [ | exact Pc]].
  - unfold cleanText, wrap.
    replace (ws0 ++ fence ++ (if tagged then js "json" else []) ++ ws1 ++ t
                 ++ ws2 ++ fence ++ ws3)
      with (ws0 ++ fence ++ ((if tagged then js "json" else []) ++ ws1 ++ t ++ ws2)
                ++ fence ++ ws3)
      by (rewrite <- !app_assoc; reflexivity).
    rewrite (trim_fenced ws0 ws3 _ S0 S3).
    rewrite Et at 1. rewrite Ek at 1.
    assert (Ssp : spaces (ws1 ++ l)) by (apply spaces_app; assumption).
    assert (Sr2 : spaces (r ++ ws2)) by (apply spaces_app; assumption).
    assert (E : forall tag,
               fence ++ (tag ++ ws1 ++ (l ++ (c :: k) ++ r) ++ ws2) ++ fence
               = fence ++ tag ++ (ws1 ++ l) ++ c :: (k ++ (r ++ ws2) ++ fence)).
    { intros tag. repeat (progress (simpl; rewrite <- ?app_assoc)). reflexivity. }
    rewrite E. 
    assert (O : Regex.replace_empty true re_open
                  (Regex.replace_empty true re_open_json
                     (fence ++ (if tagged then js "json" else []) ++ (ws1 ++ l)
                            ++ c :: k ++ (r ++ ws2) ++ fence))
                = c :: k ++ (r ++ ws2) ++ fence).
    { destruct tagged.
      - rewrite (open_json_strips _ _ c Ssp C). apply open_unchanged. exact C96.
      - simpl app at 2.
        rewrite (open_json_skips_untagged _ _ c Ssp C106).
        apply (open_strips _ _ c Ssp C). }
    rewrite O.
    change (c :: k ++ (r ++ ws2) ++ fence) with ((c :: k) ++ (r ++ ws2) ++ fence).
    rewrite <- Ek, Ep. rewrite (replace_close_strips p (r ++ ws2) d D Sr2).
    reflexivity.
  - unfold cleanText. rewrite Ek.
    rewrite (open_json_unchanged c k C96), (open_unchanged c k C96).
    rewrite <- Ek. apply replace_close_unchanged.
    intros q E. rewrite Ep in E. apply app_inj_tail in E. destruct E as (_ & ->).
    discriminate D96.
Qed.

End Fences.

(** C5. Let [t] be a text that [JSON.parse] accepts, with value [v]. When
    the response is [t] wrapped in code-fence markers (the opening marker
    with or without the [json] tag, any white space around the markers and
    around [t]), the cleaned text is the one the unwrapped [t] is cleaned
    to, it parses to [v], and [analyzeFinancialData] returns [v], as it does
    for the unwrapped response. *)
Theorem C5_fenced_response_parses_as_unwrapped :
  forall (t : jsstring) (v : JSValue) (tagged : bool) (ws0 ws1 ws2 ws3 : jsstring)
         (env env' : Env) (file : FileData),
    Json.parse t = Some v ->
    spaces ws0 -> spaces ws1 -> spaces ws2 -> spaces ws3 ->
    apiKey env <> [] -> apiKey env' <> [] ->
    generateContent env (request_for file)
    = Resolved (Some (wrap tagged ws0 ws1 ws2 ws3 t)) ->
    generateContent env' (request_for file) = Resolved (Some t) ->
    cleanText (wrap tagged ws0 ws1 ws2 ws3 t) = cleanText t
    /\ Json.parse (cleanText (wrap tagged ws0 ws1 ws2 ws3 t)) = Some v
    /\ fst (analyzeFinancialData env file) = Returned v
    /\ fst (analyzeFinancialData env' file) = Returned v.
Proof.
  intros t v tagged ws0 ws1 ws2 ws3 env env' file P S0 S1 S2 S3 K K' G G'.
  destruct (cleanText_fenced t v tagged ws0 ws1 ws2 ws3 P S0 S1 S2 S3) as (W & U & Pc).
  split; [congruence | ]. split; [rewrite W; exact Pc | ].
  split.
  - destruct (wrap tagged ws0 ws1 ws2 ws3 t) as [ | x w] eqn:E.
    + exfalso. unfold wrap in E. rewrite fence_units in E.
      apply app_eq_nil in E. destruct E as (_ & E). discriminate E.
    + rewrite (analyze_text env file x w K G), W, Pc. reflexivity.
  - destruct t as [ | x w].
    + vm_compute in P. discriminate P.
    + rewrite (analyze_text env' file x w K' G'), U, Pc. reflexivity.
Qed.

Lemma C5_witness :
  let t := jsq "{'ratios': []}" in
  let fenced := wrap true [] [10] [10] [10] t in
  fst (analyzeFinancialData (Fixture.answering (Some (js "k")) (Some fenced)) Fixture.file)
  = Returned (JObject [(js "ratios", JArray [])]).
Proof.
  intros t fenced.
  refine (proj1 (proj2 (proj2
            (C5_fenced_response_parses_as_unwrapped
               t (JObject [(js "ratios", JArray [])]) true [] [10] [10] [10]
               (Fixture.answering (Some (js "k")) (Some fenced))
               (Fixture.answering (Some (js "k")) (Some t))
               Fixture.file _ _ _ _ _ _ _ _ _)))).
  - vm_compute. reflexivity.
  - constructor.
  - repeat constructor.
  - repeat constructor.
  - repeat constructor.
  - vm_compute. discriminate.
  - vm_compute. discriminate.
  - reflexivity.
  - reflexivity.
Defined.

(* ------------------------------------------------------------------ *)
(** ** Further properties of the pipeline *)
(* ------------------------------------------------------------------ *)

(** A reset brings the machine back to exactly its initial state: in every
    RESULT or ERROR state the machine can reach, no interval, request or
    timeout of the session is still pending, so the reset leaves nothing
    behind, and whatever follows it is what follows a fresh start. *)
Theorem reset_restores_the_initial_state :
  forall (env : Env) (es : list event) (a : App),
    run env initial es = Some a ->
    state a = RESULT \/ state a = ERROR ->
    step env a ResetClicked = Some initial
    /\ forall es', run env initial (es ++ ResetClicked :: es') = run env initial es'.
Proof.
  intros env es a R S.
  pose proof (run_invariant env es initial a invariant_initial R) as I.
  assert (step env a ResetClicked = Some initial) as E.
  { unfold invariant in I. unfold step, handleReset, initial.
    destruct S as [S | S]; rewrite S in *.
    - destruct I as ((P & Q & T) & _). rewrite P, Q, T. reflexivity.
    - destruct I as (P & Q & T). rewrite P, Q, T. reflexivity. }
  split; [exact E | ].
  intros es'. rewrite run_app, R. cbn [run]. rewrite E. reflexivity.
Qed.

Lemma reset_restores_the_initial_state_witness :
  step Fixture.offline
       (handleFileUpload_resume (Threw (ErrorObject (js "fetch failed")))
          (handleFileUpload_start Fixture.offline Fixture.file initial))
       ResetClicked = Some initial
  /\ forall es',
      run Fixture.offline initial
          ([FileUploaded Fixture.file; ProgressTick; RequestSettled] ++ ResetClicked :: es')
      = run Fixture.offline initial es'.
Proof.
  pose proof (reset_restores_the_initial_state Fixture.offline
                [FileUploaded Fixture.file; ProgressTick; RequestSettled]
                _ eq_refl (or_intror eq_refl)) as (E & F).
  split; [ | exact F].
  vm_compute. reflexivity.
Defined.

(** Submitting a file in UPLOAD starts the analysis at progress 0; a request
    that fails then moves the machine to ERROR whatever the progress is,
    with the message of the error. *)
Theorem upload_then_failure_lands_in_error :
  forall (env : Env) (file : FileData) (n : nat) (message : jsstring),
    fst (analyzeFinancialData env file) = Threw (ErrorObject message) ->
    exists a1 a2,
      run env initial [FileUploaded file] = Some a1
      /\ state a1 = ANALYZING /\ analysisProgress a1 = 0%Z
      /\ run env a1 (repeat ProgressTick n ++ [RequestSettled]) = Some a2
      /\ state a2 = ERROR /\ errorMessage a2 = message /\ analysisData a2 = None.
Proof.
  intros env file n message E.
  exists (handleFileUpload_start env file initial).
  destruct (ticks_run env n (handleFileUpload_start env file initial))
    as (a & R & S & Rq & D & T); [discriminate | ].
  eexists. split; [reflexivity | ]. split; [reflexivity | ]. split; [reflexivity | ].
  rewrite run_app, R. simpl. rewrite Rq. simpl. rewrite E.
  split; [reflexivity | ]. simpl. auto.
Qed.

Lemma upload_then_failure_witness :
  exists a,
    run Fixture.offline initial
        ([FileUploaded Fixture.file] ++ repeat ProgressTick 3 ++ [RequestSettled]) = Some a
    /\ state a = ERROR
    /\ errorMessage a = failure_prefix ++ js "fetch failed".
Proof.
  destruct (upload_then_failure_lands_in_error
              Fixture.offline Fixture.file 3 (failure_prefix ++ js "fetch failed"))
    as (a1 & a2 & R1 & _ & _ & R2 & S & M & _).
  - vm_compute. reflexivity.
  - exists a2. rewrite run_app, R1. auto.
Defined.

(** A request the service rejects is thrown on as an [Error] whose message
    is the failure prefix followed by the text of the rejection, after one
    request and one line on the console. *)
Theorem rejected_request_is_wrapped :
  forall (env : Env) (file : FileData) (e : thrown),
    apiKey env <> [] ->
    generateContent env (request_for file) = Rejected e ->
    analyzeFinancialData env file
    = (Threw (ErrorObject (failure_prefix ++ error_text e)),
       [NetworkRequest (request_for file); ConsoleError (js "Gemini Error:") e]).
Proof.
  intros env file e K G. unfold analyzeFinancialData.
  destruct (apiKey env); [congruence | ]. simpl.
  unfold call_generateContent. rewrite G. reflexivity.
Qed.

Lemma rejected_request_witness :
  fst (analyzeFinancialData Fixture.offline Fixture.file)
  = Threw (ErrorObject (failure_prefix ++ js "fetch failed")).
Proof.
  rewrite (rejected_request_is_wrapped
             Fixture.offline Fixture.file (ErrorObject (js "fetch failed"))).
  - reflexivity.
  - vm_compute. discriminate.
  - reflexivity.
Defined.

(** A well-formed response is returned with every member as the document
    wrote it: the number stays a number and the status stays the string
    it was. *)
Example parse_preserves_fields :
  let text := jsq "{'overallAnalysis': 'ok', 'formalReport': '## 1. A',
                    'ratios': [{'name': 'Current Ratio', 'value': 1.5,
                                'unit': 'เท่า', 'status': 'good',
                                'description': 'ok'}]}" in
  option_map ratios
    (Read.bind (Json.parse (cleanText text)) Read.result)
  = Some (Some [ {| FinancialRatio.name := js "Current Ratio";
                    FinancialRatio.value := js "1.5";
                    FinancialRatio.unit := js "เท่า";
                    FinancialRatio.status := js "good";
                    FinancialRatio.description := js "ok" |} ]).
Proof. vm_compute. reflexivity. Qed.

Example parse_escapes :
  Json.parse (jsq "['aก\n\/', {'k': {'k': [true, false, null]}}, -0.5e-3]")
  = Some (JArray [ JString [97; 3585; 10; 47];
                   JObject [(js "k", JObject [(js "k", JArray [JBool true; JBool false; JNull])])];
                   JNumber (js "-0.5e-3") ]).
Proof. vm_compute. reflexivity. Qed.

Example cleanText_examples :
  map cleanText [ jsq "{'a': 1}"; jsq "```{'a': 1}```"; jsq "  ```json{'a': 1}
```
"; jsq "{'a': '```'}"; jsq "``` json" ]
  = [ jsq "{'a': 1}"; jsq "{'a': 1}"; jsq "{'a': 1}"; jsq "{'a': '```'}"; jsq "json" ].
Proof. vm_compute. reflexivity. Qed.

Lemma configured_sends_one_request_witness :
  exists rest,
    snd (analyzeFinancialData Fixture.offline Fixture.file)
    = NetworkRequest (request_for Fixture.file) :: rest
    /\ forall r, ~ In (NetworkRequest r) rest.
Proof.
  apply (configured_sends_one_request Fixture.offline Fixture.file).
  vm_compute. discriminate.
Defined.

(* ------------------------------------------------------------------ *)
(** ** What the cleaning can and cannot remove *)
(* ------------------------------------------------------------------ *)

Section Cleaning.
Import JsString Regex.

Lemma match_here_suffix (re : regex) : forall s r,
  match_here re s = Some r -> exists p, s = p ++ r.
Proof.
  induction re as [ | a re IH]; intros s r H.
  - injection H as <-. exists []. reflexivity.
  - destruct a as [c | | ].
    + destruct s as [ | x s]; simpl in H; [discriminate | ].
      destruct (x =? c); [ | discriminate].
      destruct (IH s r H) as (p & ->). exists (x :: p). reflexivity.
    + revert r H. induction s as [ | x s IHs]; intros r H.
      * exact (IH [] r H).
      * cbn [match_here] in H.
        destruct (is_space x).
        -- match type of H with
           | match ?m with _ => _ end = _ => destruct m as [r' | ] eqn:M
           end.
           ++ injection H as <-. destruct (IHs r' M) as (p & ->).
              exists (x :: p). reflexivity.
           ++ exact (IH (x :: s) r H).
        -- exact (IH (x :: s) r H).
    + destruct s; simpl in H; [ | discriminate]. exact (IH [] r H).
Qed.

Lemma replace_anchored_suffix (re : regex) (s : jsstring) :
  exists p, s = p ++ replace_empty true re s.
Proof.
  unfold replace_empty. destruct (match_here re s) as [r | ] eqn:M.
  - exact (match_here_suffix re s r M).
  - exists []. reflexivity.
Qed.

Lemma replace_close_prefix (s : jsstring) :
  exists q, s = replace_empty false re_close s ++ q.
Proof.
  unfold replace_empty. induction s as [ | x s (q & IH)].
  - exists []. reflexivity.
  - rewrite replace_scan_eq, match_close.
    destruct (jsstring_eqb (trimStart (x :: s)) fence).
    + exists (x :: s). reflexivity.
    + exists q. simpl. congruence.
Qed.

Lemma replace_close_unfenced (s : jsstring) :
  (forall p, s <> p ++ fence) -> replace_empty false re_close s = s.
Proof.
  unfold replace_empty. induction s as [ | x s IH]; intros N.
  - reflexivity.
  - rewrite replace_scan_eq, match_close.
    destruct (jsstring_eqb (trimStart (x :: s)) fence) eqn:E.
    + exfalso. apply jsstring_eqb_eq in E.
      destruct (trimStart_split (x :: s)) as (l & S & _).
      rewrite E in S. exact (N l S).
    + f_equal. apply IH. intros p ->. apply (N (x :: p)). reflexivity.
Qed.

Lemma startsWith_longer (s p q : jsstring) :
  startsWith s p = false -> startsWith s (p ++ q) = false.
Proof.
  intros H. destruct (startsWith s (p ++ q)) eqn:E; [ | reflexivity].
  apply startsWith_spec in E. destruct E as (r & ->).
  rewrite <- app_assoc in H.
  assert (T : startsWith (p ++ q ++ r) p = true) by (apply startsWith_spec; eauto).
  congruence.
Qed.

End Cleaning.

(** The cleaning only cuts at the two ends: the cleaned text is a
    contiguous part of the response text, which is never rewritten in
    between. *)
Theorem cleanText_is_a_part_of_the_text :
  forall t : jsstring, exists a b, t = a ++ cleanText t ++ b.
Proof.
  intros t. unfold cleanText, JsString.trim.
  destruct (trimStart_split t) as (l & Et & _).
  destruct (trimEnd_split (JsString.trimStart t)) as (r & Er & _).
  set (core := JsString.trimEnd (JsString.trimStart t)) in *.
  destruct (replace_anchored_suffix re_open_json core) as (p1 & E1).
  set (x1 := Regex.replace_empty true re_open_json core) in *.
  destruct (replace_anchored_suffix re_open x1) as (p2 & E2).
  set (x2 := Regex.replace_empty true re_open x1) in *.
  destruct (replace_close_prefix x2) as (q & E3).
  set (x3 := Regex.replace_empty false re_close x2) in *.
  exists (l ++ p1 ++ p2), (q ++ r).
  rewrite Et at 1. rewrite Er at 1. rewrite E1 at 1. rewrite E2 at 1. rewrite E3 at 1.
  rewrite <- !app_assoc. reflexivity.
Qed.

(** A response whose trimmed text neither starts nor ends with the fence is
    only trimmed. *)
Theorem cleanText_of_an_unfenced_text :
  forall t : jsstring,
    JsString.startsWith (JsString.trim t) fence = false ->
    (forall p, JsString.trim t <> p ++ fence) ->
    cleanText t = JsString.trim t.
Proof.
  intros t S E. unfold cleanText, Regex.replace_empty at 2 3.
  unfold re_open_json, re_open.
  change (js "```json") with (fence ++ js "json").
  rewrite (match_lits_fails _ _ _ (startsWith_longer _ fence (js "json") S)).
  rewrite (match_lits_fails _ _ _ S).
  apply replace_close_unfenced. exact E.
Qed.

Lemma cleanText_of_an_unfenced_text_witness :
  cleanText (jsq "  {'note': '```'}
") = jsq "{'note': '```'}".
Proof.
  rewrite (cleanText_of_an_unfenced_text (jsq "  {'note': '```'}
")).
  - vm_compute. reflexivity.
  - vm_compute. reflexivity.
  - intros p H. apply (f_equal (@rev code_unit)) in H.
    rewrite rev_app_distr in H. vm_compute in H. discriminate H.
Defined.

(* ------------------------------------------------------------------ *)
(** ** The department filter of the Dashboard *)
(* ------------------------------------------------------------------ *)

Section Departments.
Import Dashboard.

Lemma set_add_In (s : list jsstring) (x y : jsstring) :
  In y (set_add s x) <-> In y s \/ y = x.
Proof.
  induction s as [ | z s IH]; simpl.
  - intuition congruence.
  - destruct (jsstring_eqb z x) eqn:E.
    + apply jsstring_eqb_eq in E. subst. simpl. intuition congruence.
    + simpl. rewrite IH. tauto.
Qed.

Lemma set_add_NoDup (s : list jsstring) (x : jsstring) :
  NoDup s -> NoDup (set_add s x).
Proof.
  induction 1 as [ | z s N D IH]; simpl.
  - constructor; [intros [] | constructor].
  - destruct (jsstring_eqb z x) eqn:E.
    + constructor; assumption.
    + constructor; [ | exact IH].
      rewrite set_add_In. intros [H | ->]; [exact (N H) | ].
      rewrite jsstring_eqb_refl in E. discriminate.
Qed.

Lemma jsstring_leb_total (a : jsstring) : forall b,
  jsstring_leb a b = false -> jsstring_leb b a = true.
Proof.
  induction a as [ | x a IH]; intros [ | y b]; simpl; try congruence.
  rewrite orb_false_iff, andb_false_iff. intros (L & E).
  apply N.ltb_ge in L. apply orb_true_iff.
  destruct (N.eqb_spec x y) as [-> | NE].
  - right. rewrite N.eqb_refl. simpl. destruct E as [E | E]; [discriminate | auto].
  - left. apply N.ltb_lt. lia.
Qed.

Lemma insert_sorted_In (x y : jsstring) (l : list jsstring) :
  In y (insert_sorted x l) <-> y = x \/ In y l.
Proof.
  induction l as [ | z l IH]; simpl.
  - intuition congruence.
  - destruct (jsstring_leb x z); simpl; [intuition congruence | ].
    rewrite IH. intuition congruence.
Qed.

Lemma insert_sorted_NoDup (x : jsstring) (l : list jsstring) :
  ~ In x l -> NoDup l -> NoDup (insert_sorted x l).
Proof.
  intros N D. induction D as [ | z l Nz D IH]; simpl.
  - constructor; [intros [] | constructor].
  - destruct (jsstring_leb x z).
    + constructor; [exact N | constructor; assumption].
    + constructor.
      * rewrite insert_sorted_In. intros [-> | H]; [apply N; simpl; auto | exact (Nz H)].
      * apply IH. intros H. apply N. simpl. auto.
Qed.

Lemma insert_sorted_Sorted (x : jsstring) (l : list jsstring) :
  Sorted code_unit_order l -> Sorted code_unit_order (insert_sorted x l).
Proof.
  induction 1 as [ | z l S IH R]; simpl.
  - repeat constructor.
  - destruct (jsstring_leb x z) eqn:L.
    + constructor; [constructor; assumption | constructor; exact L].
    + constructor; [exact IH | ].
      apply jsstring_leb_total in L.
      destruct l as [ | w l]; simpl.
      * constructor. exact L.
      * destruct (jsstring_leb x w); constructor; [exact L | ].
        inversion R. assumption.
Qed.

Lemma sort_In (l : list jsstring) (y : jsstring) : In y (sort l) <-> In y l.
Proof.
  unfold sort. induction l as [ | x l IH]; simpl; [tauto | ].
  rewrite insert_sorted_In, IH. intuition congruence.
Qed.

Lemma sort_NoDup (l : list jsstring) : NoDup l -> NoDup (sort l).
Proof.
  unfold sort. induction 1 as [ | x l N D IH]; simpl; [constructor | ].
  apply insert_sorted_NoDup; [ | exact IH]. rewrite (sort_In l x). exact N.
Qed.

Lemma sort_Sorted (l : list jsstring) : Sorted code_unit_order (sort l).
Proof.
  unfold sort. induction l; simpl; [constructor | ].
  apply insert_sorted_Sorted. assumption.
Qed.

Lemma add_names_In (ds : list DepartmentAnalysis.t) : forall s y,
  In y (fold_left (fun s d => set_add s (DepartmentAnalysis.name d)) ds s)
  <-> In y s \/ exists d, In d ds /\ DepartmentAnalysis.name d = y.
Proof.
  induction ds as [ | d ds IH]; intros s y; simpl.
  - split; [auto | intros [H | (d & [] & _)]; exact H].
  - rewrite IH, set_add_In. split.
    + intros [[H | ->] | (d' & H & E)]; eauto.
    + intros [H | (d' & [<- | H] & E)]; eauto.
Qed.

Lemma add_names_NoDup (ds : list DepartmentAnalysis.t) : forall s,
  NoDup s -> NoDup (fold_left (fun s d => set_add s (DepartmentAnalysis.name d)) ds s).
Proof.
  induction ds as [ | d ds IH]; intros s N; simpl; [exact N | ].
  apply IH, set_add_NoDup, N.
Qed.

Lemma add_related_In (cs : list SignificantChange.t) : forall s y,
  In y (fold_left add_related cs s)
  <-> In y s \/ exists c, In c cs /\ SignificantChange.relatedDepartment c = Some y
                          /\ y <> [].
Proof.
  induction cs as [ | c cs IH]; intros s y; simpl.
  - split; [auto | intros [H | (c & [] & _)]; exact H].
  - rewrite IH. unfold add_related.
    destruct (SignificantChange.relatedDepartment c) as [[ | x d] | ] eqn:R.
    + split.
      * intros [H | (c' & H & E)]; eauto.
      * intros [H | (c' & [<- | H] & E & N)]; eauto. congruence.
    + rewrite set_add_In. split.
      * intros [[H | ->] | (c' & H & E)]; eauto.
        right. exists c. repeat split; auto. discriminate.
      * intros [H | (c' & [<- | H] & E & N)]; eauto.
        left. right. congruence.
    + split.
      * intros [H | (c' & H & E)]; eauto.
      * intros [H | (c' & [<- | H] & E & N)]; eauto. congruence.
Qed.

Lemma add_related_NoDup (cs : list SignificantChange.t) : forall s,
  NoDup s -> NoDup (fold_left add_related cs s).
Proof.
  induction cs as [ | c cs IH]; intros s N; simpl; [exact N | ].
  apply IH. unfold add_related.
  destruct (SignificantChange.relatedDepartment c) as [[ | x d] | ]; auto.
  apply set_add_NoDup, N.
Qed.

Lemma availableDepartments_eq (data : AnalysisResult) :
  availableDepartments data
  = sort (fold_left add_related (items (significantChanges data))
            (fold_left (fun s d => set_add s (DepartmentAnalysis.name d))
                       (items (departments data)) [All])).
Proof.
  unfold availableDepartments, items.
  destruct (departments data), (significantChanges data); reflexivity.
Qed.

Lemma availableDepartments_In (data : AnalysisResult) (x : jsstring) :
  In x (Dashboard.availableDepartments data)
  <-> x = Dashboard.All
      \/ (exists d, In d (Dashboard.items (departments data))
                    /\ DepartmentAnalysis.name d = x)
      \/ (exists c, In c (Dashboard.items (significantChanges data))
                    /\ SignificantChange.relatedDepartment c = Some x
                    /\ x <> []).
Proof.
  rewrite availableDepartments_eq, sort_In, add_related_In, add_names_In.
  simpl. intuition congruence.
Qed.

Lemma filter_all {A} (l : list A) : filter (fun _ => true) l = l.
Proof. induction l; simpl; congruence. Qed.

Lemma filteredDepts_eq (data : AnalysisResult) (selectedDept : jsstring) :
  Dashboard.filteredDepts data selectedDept
  = filter (fun d => jsstring_eqb selectedDept Dashboard.All
                     || jsstring_eqb (DepartmentAnalysis.name d) selectedDept)
           (Dashboard.items (departments data)).
Proof.
  unfold Dashboard.filteredDepts, Dashboard.items.
  destruct (departments data) as [ds | ];
    destruct (jsstring_eqb selectedDept Dashboard.All); simpl;
    rewrite ?filter_all; reflexivity.
Qed.

Lemma filteredChanges_eq (data : AnalysisResult) (selectedDept : jsstring) :
  Dashboard.filteredChanges data selectedDept
  = filter (fun c => jsstring_eqb selectedDept Dashboard.All
                     || Dashboard.strict_eq (SignificantChange.relatedDepartment c)
                                            selectedDept)
           (Dashboard.items (significantChanges data)).
Proof.
  unfold Dashboard.filteredChanges, Dashboard.items.
  destruct (significantChanges data) as [cs | ];
    destruct (jsstring_eqb selectedDept Dashboard.All); simpl;
    rewrite ?filter_all; try reflexivity.
  apply filter_ext. intros c. rewrite andb_false_r, orb_false_r. reflexivity.
Qed.

End Departments.

(** The options of the department selector: All is always one of them;
    the others are exactly the names of the departments and the non-empty
    related departments of the changes; no option is repeated, and the
    options stand in the order of their code units. *)
Theorem availableDepartments_are_the_departments_once_and_sorted :
  forall data : AnalysisResult,
    In Dashboard.All (Dashboard.availableDepartments data)
    /\ NoDup (Dashboard.availableDepartments data)
    /\ Sorted code_unit_order (Dashboard.availableDepartments data)
    /\ forall x,
        In x (Dashboard.availableDepartments data)
        <-> x = Dashboard.All
            \/ (exists d, In d (Dashboard.items (departments data))
                          /\ DepartmentAnalysis.name d = x)
            \/ (exists c, In c (Dashboard.items (significantChanges data))
                          /\ SignificantChange.relatedDepartment c = Some x
                          /\ x <> []).
Proof.
  intros data.
  split; [apply availableDepartments_In; auto | ].
  split; [ | split; [ | apply availableDepartments_In]].
  - rewrite availableDepartments_eq.
    apply sort_NoDup, add_related_NoDup, add_names_NoDup.
    constructor; [intros [] | constructor].
  - rewrite availableDepartments_eq. apply sort_Sorted.
Qed.

(** Every option of the selector other than All shows something: a
    department row or a change. *)
Theorem every_department_option_selects_something :
  forall (data : AnalysisResult) (selectedDept : jsstring),
    In selectedDept (Dashboard.availableDepartments data) ->
    selectedDept <> Dashboard.All ->
    Dashboard.filteredDepts data selectedDept <> []
    \/ Dashboard.filteredChanges data selectedDept <> [].
Proof.
  intros data sel I N.
  apply availableDepartments_In in I.
  destruct I as [-> | [(d & I & E) | (c & I & E & _)]]; [congruence | | ].
  - left. rewrite filteredDepts_eq. intros Z.
    assert (H : In d (filter (fun d => jsstring_eqb sel Dashboard.All
                                       || jsstring_eqb (DepartmentAnalysis.name d) sel)
                             (Dashboard.items (departments data)))).
    { apply filter_In. split; [exact I | ]. rewrite E, jsstring_eqb_refl.
      apply orb_true_r. }
    rewrite Z in H. exact H.
  - right. rewrite filteredChanges_eq. intros Z.
    assert (H : In c (filter (fun c => jsstring_eqb sel Dashboard.All
                                       || Dashboard.strict_eq
                                            (SignificantChange.relatedDepartment c) sel)
                             (Dashboard.items (significantChanges data)))).
    { apply filter_In. split; [exact I | ]. rewrite E. simpl.
      rewrite jsstring_eqb_refl. apply orb_true_r. }
    rewrite Z in H. exact H.
Qed.

Lemma every_department_option_witness :
  Dashboard.filteredDepts
    {| overallAnalysis := []; formalReport := []; ratios := None;
       departments := None;
       significantChanges := Some [Fixture.rent; Fixture.travel];
       topHighItems := None; topLowItems := None |} Dashboard.General <> []
  \/ Dashboard.filteredChanges
       {| overallAnalysis := []; formalReport := []; ratios := None;
          departments := None;
          significantChanges := Some [Fixture.rent; Fixture.travel];
          topHighItems := None; topLowItems := None |} Dashboard.General <> [].
Proof.
  apply (every_department_option_selects_something
           {| overallAnalysis := []; formalReport := []; ratios := None;
              departments := None;
              significantChanges := Some [Fixture.rent; Fixture.travel];
              topHighItems := None; topLowItems := None |} Dashboard.General).
  - vm_compute. auto.
  - vm_compute. discriminate.
Defined.

(* ------------------------------------------------------------------ *)
(** ** What is rendered *)
(* ------------------------------------------------------------------ *)

Example truthy_examples :
  map (fun t => option_map Truthy.truthy (Json.parse (jsq t)))
      ["null"; "false"; "0"; "-0.000e5"; "''"; "1e-400"; "5e-324"; "true"; "0.1"; "[]"; "{}"; "' '"; "1e400"]%string
  = map Some [false; false; false; false; false; false; true; true; true; true; true; true; true].
Proof. vm_compute. reflexivity. Qed.

Section Rendered.
Variable env : Env.
Variable file : FileData.

(** Ticks change the progress only. *)
Lemma ticks_change_progress_only (n : nat) : forall a,
  progressInterval a <> None ->
  exists p,
    run env a (repeat ProgressTick n)
    = Some {| state := state a; analysisData := analysisData a;
              errorMessage := errorMessage a; analysisProgress := p;
              progressInterval := progressInterval a; request := request a;
              resultTimer := resultTimer a |}.
Proof.
  induction n as [ | n IH]; intros a P; simpl.
  - exists (analysisProgress a). destruct a; reflexivity.
  - destruct (progressInterval a) eqn:Pi; [ | congruence].
    destruct (IH (progress_callback a)) as (p & R); [simpl; congruence | ].
    exists p. rewrite R. simpl. rewrite Pi. reflexivity.
Qed.

(** The run of a request that returns a result. *)
Lemma run_to_result (v : JSValue) (n : nat) :
  fst (analyzeFinancialData env file) = Returned v ->
  run env initial
      (FileUploaded file :: repeat ProgressTick n ++ [RequestSettled; DisplayDelayElapsed])
  = Some {| state := RESULT; analysisData := Some v; errorMessage := [];
            analysisProgress := 100%Z; progressInterval := None; request := None;
            resultTimer := None |}.
Proof.
  intros E. simpl.
  destruct (ticks_change_progress_only n (handleFileUpload_start env file initial))
    as (p & R); [discriminate | ].
  rewrite run_app, R. simpl. rewrite E. reflexivity.
Qed.

End Rendered.




(** A response whose document is falsy ([null], [false], a zero, the empty
    string) is accepted too: the machine reaches RESULT, where neither the
    Dashboard nor any other panel with a control is rendered; a zero is
    rendered as the text 0. *)
Theorem falsy_result_renders_no_control :
  forall (env : Env) (file : FileData) (v : JSValue) (n : nat),
    fst (analyzeFinancialData env file) = Returned v ->
    Truthy.truthy v = false ->
    exists a,
      run env initial
          (FileUploaded file :: repeat ProgressTick n
                        ++ [RequestSettled; DisplayDelayElapsed]) = Some a
      /\ state a = RESULT
      /\ AppView.render a
         = AppView.NavBadge :: match v with
                               | JNumber _ => [AppView.Text (js "0")]
                               | _ => []
                               end
      /\ existsb AppView.has_control (AppView.render a) = false.
Proof.
  intros env file v n E F.
  eexists. split; [exact (run_to_result env file v n E) | ].
  split; [reflexivity | ].
  unfold AppView.render, AppView.result_slot. simpl. rewrite F.
  destruct v; split; reflexivity.
Qed.

Lemma falsy_result_witness :
  let env := Fixture.answering (Some (js "k")) (Some (jsq "```json
null
```")) in
  exists a,
    run env initial [FileUploaded Fixture.file; RequestSettled; DisplayDelayElapsed] = Some a
    /\ AppView.render a = [AppView.NavBadge].
Proof.
  intros env.
  destruct (falsy_result_renders_no_control env Fixture.file JNull 0)
    as (a & R & _ & V & _).
  - vm_compute. reflexivity.
  - reflexivity.
  - exists a. split; [exact R | exact V].
Defined.

Section Pie.
Import Dashboard DashboardView.

Lemma palette (i : nat) :
  exists c, nth_error COLORS (i mod List.length COLORS) = Some c /\ In c COLORS.
Proof.
  destruct (nth_error COLORS (i mod List.length COLORS)) as [c | ] eqn:E.
  - exists c. split; [reflexivity | ]. exact (nth_error_In _ _ E).
  - apply nth_error_None in E.
    pose proof (Nat.mod_upper_bound i (List.length COLORS)) as B.
    change (List.length COLORS) with 7%nat in *. lia.
Qed.

Lemma with_fill_nth (l : list DepartmentAnalysis.t) : forall i k d,
  nth_error l k = Some d ->
  nth_error (with_fill true i
               (map (fun d => (DepartmentAnalysis.name d, DepartmentAnalysis.revenue d)) l))
            k
  = Some {| sliceName := DepartmentAnalysis.name d;
            sliceValue := DepartmentAnalysis.revenue d;
            fill := nth_error COLORS ((i + k) mod 7) |}.
Proof.
  induction l as [ | x l IH]; intros i k d H.
  - destruct k; discriminate H.
  - destruct k as [ | k]; cbn [map with_fill nth_error] in *.
    + injection H as ->. rewrite Nat.add_0_r. reflexivity.
    + rewrite (IH (S i) k d H).
      replace (S i + k)%nat with (i + S k)%nat by lia. reflexivity.
Qed.

Lemma with_fill_all (pieData : list (jsstring * number)) : forall i,
  Forall (fun s => exists c, fill s = Some c /\ In c COLORS) (with_fill true i pieData)
  /\ List.length (with_fill true i pieData) = List.length pieData.
Proof.
  induction pieData as [ | [n v] rest IH]; intros i; cbn [with_fill List.length].
  - split; [constructor | reflexivity].
  - destruct (IH (S i)) as (F & L). split; [ | congruence].
    constructor; [ | exact F]. exact (palette i).
Qed.

End Pie.

Example pie_chart_palette :
  map DashboardView.fill
      (DashboardView.with_fill true 0 (repeat (js "d", js "1") 9))
  = map Some (DashboardView.COLORS ++ map js ["#6366f1"; "#10b981"]%string).
Proof. vm_compute. reflexivity. Qed.

(** The pie chart. With All selected it has one slice per department, in
    the order of the departments: the slice at index i carries the name and
    the revenue of department i and the colour at index i modulo 7 of the
    palette, so the colours repeat from the eighth slice on and no slice is
    left without a fill. With a department selected it has two slices, the
    revenue and the expense of the first department of that name only.
    Without a matching department there is no chart but a notice. *)
Theorem pie_chart_slices :
  forall (data : AnalysisResult) (selectedDept : jsstring),
    match Dashboard.filteredDepts data selectedDept with
    | [] => exists message,
        DashboardView.renderChart data selectedDept DashboardView.pie
        = DashboardView.NoChartData message
    | dept :: rest =>
      exists slices,
        DashboardView.renderChart data selectedDept DashboardView.pie
        = DashboardView.PieChart slices
        /\ if jsstring_eqb selectedDept Dashboard.All then
             List.length slices = List.length (dept :: rest)
             /\ (forall i d,
                    nth_error (dept :: rest) i = Some d ->
                    nth_error slices i
                    = Some {| DashboardView.sliceName := DepartmentAnalysis.name d;
                              DashboardView.sliceValue := DepartmentAnalysis.revenue d;
                              DashboardView.fill :=
                                nth_error DashboardView.COLORS (i mod 7) |})
             /\ Forall (fun s => exists c, DashboardView.fill s = Some c
                                           /\ In c DashboardView.COLORS) slices
           else
             slices
             = [ {| DashboardView.sliceName := js "รายรับ";
                    DashboardView.sliceValue := DepartmentAnalysis.revenue dept;
                    DashboardView.fill := Some (js "#10b981") |};
                 {| DashboardView.sliceName := js "รายจ่าย";
                    DashboardView.sliceValue := DepartmentAnalysis.expense dept;
                    DashboardView.fill := Some (js "#ef4444") |} ]
    end.
Proof.
  intros data sel. unfold DashboardView.renderChart.
  destruct (Dashboard.filteredDepts data sel) as [ | dept rest]; [eauto | ].
  eexists. split; [reflexivity | ].
  destruct (jsstring_eqb sel Dashboard.All); [ | reflexivity].
  split; [ | split].
  - rewrite (proj2 (with_fill_all _ 0%nat)). apply length_map.
  - intros i d H. exact (with_fill_nth (dept :: rest) 0 i d H).
  - apply with_fill_all.
Qed.

(* ------------------------------------------------------------------ *)
(** ** The report viewer *)
(* ------------------------------------------------------------------ *)

Example report_examples :
  map Report.split_sections
      [ jsq "## 1. A
text
## 2. B
more"; jsq "intro
##not a header
 ## nor this
## 3. C"; jsq "a ## b" ]
  = [ [jsq "## 1. A
text
"; jsq "## 2. B
more"]; [jsq "intro
##not a header
 ## nor this
"; jsq "## 3. C"]; [jsq "a ## b"] ].
Proof. vm_compute. reflexivity. Qed.

Example bold_examples :
  map Report.bold [ js "a **b** c **d**"; js "***a** *"; js "**a"; js "****"; js "x ** y"; js "<b>**1 < 2**</b>" ]
  = [ js "a " ++ Report.strong_open ++ js "b" ++ Report.strong_close ++ js " c "
         ++ Report.strong_open ++ js "d" ++ Report.strong_close;
      Report.strong_open ++ js "*a" ++ Report.strong_close ++ js " *";
      js "**a";
      Report.strong_open ++ Report.strong_close;
      js "x ** y";
      js "<b>" ++ Report.strong_open ++ js "1 < 2" ++ Report.strong_close ++ js "</b>" ].
Proof. vm_compute. reflexivity. Qed.

Example sections_example :
  Report.ReportViewer (jsq "## 1. Summary
- **Revenue** rose

## 2. Health
ok")
  = Report.Sections
      [ (js "1. Summary", true,
         [Report.Bullet (Report.strong_open ++ js "Revenue" ++ Report.strong_close ++ js " rose")]);
        (js "2. Health", true, [Report.Paragraph (js "ok")]) ].
Proof. vm_compute. reflexivity. Qed.

Section ReportSplit.
Import JsString Report.

Lemma split_go_keeps_header (c : code_unit) (s : jsstring) :
  header_here (c :: s) = true ->
  header_here (c :: fst (split_go (is_line_terminator c) s)) = true.
Proof.
  destruct s as [ | x [ | y s]]; try discriminate.
  intros H. pose proof H as H'. simpl in H'.
  apply andb_true_iff in H'. destruct H' as (H' & Y).
  apply andb_true_iff in H'. destruct H' as (C & X).
  apply N.eqb_eq in C, X. subst c x.
  cbn [split_go]. change (is_line_terminator 35) with false. cbn [andb].
  destruct (split_go (is_line_terminator y) s) as [cur rest]. simpl.
  exact Y.
Qed.

Lemma split_go_spec (s : jsstring) : forall b,
  let '(cur, rest) := split_go b s in
  cur ++ List.concat rest = s
  /\ Forall (fun p => header_here p = true) rest
  /\ (b = false -> s <> [] -> cur <> [])
  /\ (rest <> [] ->
      (cur = [] /\ b = true)
      \/ exists q c, cur = q ++ [c] /\ is_line_terminator c = true)
  /\ cut_at_line_starts rest.
Proof.
  induction s as [ | c s IH]; intros b.
  - simpl. repeat split; auto.
  - cbn [split_go]. specialize (IH (is_line_terminator c)).
    destruct (split_go (is_line_terminator c) s) as [cur rest] eqn:Sg.
    destruct IH as (C & F & _ & E & L).
    destruct (b && header_here (c :: s)) eqn:H.
    + apply andb_true_iff in H. destruct H as (-> & H).
      split; [simpl; congruence | ]. split; [ | split; [discriminate | split]].
      * constructor; [ | exact F].
        pose proof (split_go_keeps_header c s H) as K. rewrite Sg in K. exact K.
      * intros _. left. auto.
      * destruct rest as [ | r rest]; [exact I | ].
        split; [ | exact L].
        destruct E as [(-> & T) | (q & x & -> & T)]; [discriminate | | ].
        -- exists [], c. auto.
        -- exists (c :: q), x. auto.
    + split; [simpl; congruence | ]. split; [exact F | ].
      split; [discriminate | ]. split; [ | exact L].
      intros N. right.
      destruct (E N) as [(-> & T) | (q & x & -> & T)].
      * exists [], c. auto.
      * exists (c :: q), x. auto.
Qed.

Lemma split_sections_concat (report : jsstring) :
  List.concat (split_sections report) = report.
Proof.
  unfold split_sections.
  pose proof (split_go_spec report false) as S.
  destruct (split_go false report) as [cur rest].
  destruct S as (C & _). exact C.
Qed.

End ReportSplit.

(** Splitting a report into its sections loses nothing and cuts only where
    a header starts a line: the pieces joined are the report, every piece
    after the first starts with two number signs and a space, and every
    piece before another ends with a line terminator. *)
Theorem report_is_split_at_its_headers :
  forall report : jsstring,
    List.concat (Report.split_sections report) = report
    /\ Forall (fun p => Report.header_here p = true) (tl (Report.split_sections report))
    /\ cut_at_line_starts (Report.split_sections report)
    /\ (report <> [] -> Forall (fun p => p <> []) (Report.split_sections report)).
Proof.
  intros report. unfold Report.split_sections.
  pose proof (split_go_spec report false) as S.
  destruct (Report.split_go false report) as [cur rest].
  destruct S as (C & F & N & E & L).
  split; [exact C | ]. split; [exact F | ]. split.
  - simpl. destruct rest as [ | r rest]; [exact I | ]. split; [ | exact L].
    destruct E as [(_ & T) | E]; [discriminate | discriminate | exact E].
  - intros NE. constructor; [auto | ].
    eapply Forall_impl; [ | exact F].
    intros p H ->. discriminate H.
Qed.

Section ReportBlank.
Import JsString Report.

Lemma trimStart_nil (s : jsstring) : trimStart s = [] <-> spaces s.
Proof.
  split.
  - intros E. destruct (trimStart_split s) as (l & S & L).
    rewrite E, app_nil_r in S. subst. exact L.
  - intros S. rewrite <- (app_nil_r s), (trimStart_spaces s [] S). reflexivity.
Qed.

Lemma trim_nil (s : jsstring) : trim s = [] <-> spaces s.
Proof.
  unfold trim. split.
  - intros E. apply trimStart_nil.
    destruct (trimStart s) as [ | c u] eqn:U; [reflexivity | ].
    pose proof (trimStart_head s u c U) as C.
    destruct (trimEnd_tight c u C) as (k & _ & _ & K & _). congruence.
  - intros S. apply trimStart_nil in S. rewrite S. reflexivity.
Qed.

Lemma spaces_concat (ls : list jsstring) :
  spaces (List.concat ls) <-> Forall spaces ls.
Proof.
  induction ls as [ | l ls IH]; simpl.
  - split; constructor.
  - unfold spaces at 1. rewrite Forall_app. fold (spaces l) (spaces (List.concat ls)).
    rewrite IH. split; [intros (A & B); constructor; auto | intros H; inversion H; auto].
Qed.

Lemma filter_nil {A} (f : A -> bool) (l : list A) :
  filter f l = [] <-> Forall (fun x => f x = false) l.
Proof.
  induction l as [ | x l IH]; simpl.
  - split; constructor.
  - destruct (f x) eqn:E.
    + split; [discriminate | intros H; inversion H; congruence].
    + rewrite IH. split; [constructor; auto | intros H; inversion H; auto].
Qed.

Lemma sections_nil (report : jsstring) : sections report = [] <-> spaces report.
Proof.
  unfold sections. destruct report as [ | c report]; [split; [constructor | reflexivity] | ].
  set (r := c :: report).
  pose proof (split_sections_concat r) as C.
  rewrite <- C at 2. rewrite spaces_concat.
  split.
  - intros E. apply map_eq_nil in E. apply filter_nil in E.
    eapply Forall_impl; [ | exact E]. intros p H. apply trim_nil.
    apply negb_false_iff, Nat.eqb_eq in H. destruct (trim p); [reflexivity | discriminate].
  - intros F.
    assert (E : filter (fun p => negb (Nat.eqb (List.length (trim p)) 0))
                       (split_sections r) = []).
    { apply filter_nil. eapply Forall_impl; [ | exact F]. intros p H.
      apply trim_nil in H. rewrite H. reflexivity. }
    rewrite E. reflexivity.
Qed.

End ReportBlank.

(** The viewer shows its notice instead of sections exactly when the report
    is blank (empty, or white space only); a report with any other text
    gives at least one section. *)
Theorem report_notice_only_for_a_blank_report :
  forall report : jsstring,
    (exists message, Report.ReportViewer report = Report.Notice message)
    <-> JsString.trim report = [].
Proof.
  intros report. rewrite trim_nil, <- sections_nil. unfold Report.ReportViewer.
  destruct (Report.sections report) as [ | x l]; split; eauto.
  - intros (m & H). discriminate H.
  - discriminate.
Qed.

Section Bold.
Import JsString Report.

Lemma two_stars_includes (s : jsstring) :
  includes s (js "**") = false -> two_stars s = false.
Proof.
  intros H. destruct (two_stars s) eqn:T; [ | reflexivity].
  destruct s as [ | a [ | b s]]; try discriminate.
  simpl in T. apply andb_true_iff in T. destruct T as (A & B).
  apply N.eqb_eq in A, B. subst.
  assert (I : includes (42 :: 42 :: s) (js "**") = true).
  { apply includes_spec. exists [], s. reflexivity. }
  pose proof (eq_trans (eq_sym I) H) as X. discriminate X.
Qed.

Lemma includes_tail (c : code_unit) (s p : jsstring) :
  includes (c :: s) p = false -> includes s p = false.
Proof.
  change (includes (c :: s) p) with (startsWith (c :: s) p || includes s p).
  intros H. apply orb_false_iff in H. tauto.
Qed.

Lemma bold_go_zero (c : code_unit) (s : jsstring) :
  bold_go 0 (c :: s)
  = if two_stars (c :: s) then
      match find_close (tl s) with
      | Some inner =>
        strong_open ++ inner ++ strong_close ++ bold_go (List.length inner + 3) s
      | None => c :: bold_go 0 s
      end
    else c :: bold_go 0 s.
Proof. reflexivity. Qed.

Lemma bold_go_plain (s : jsstring) :
  includes s (js "**") = false -> bold_go 0 s = s.
Proof.
  induction s as [ | c s IH]; intros H; [reflexivity | ].
  rewrite bold_go_zero, (two_stars_includes _ H).
  f_equal. apply IH. exact (includes_tail c s _ H).
Qed.

Lemma bold_go_skip (p : jsstring) : forall s,
  bold_go (List.length p) (p ++ s) = bold_go 0 s.
Proof.
  induction p as [ | c p IH]; intros s; [reflexivity | ]. simpl. apply IH.
Qed.

Lemma two_stars_no_star (c : code_unit) (s : jsstring) :
  (c =? 42) = false -> two_stars (c :: s) = false.
Proof. intros C. destruct s; simpl; [reflexivity | ]. rewrite C. reflexivity. Qed.

Lemma bold_go_before (a : jsstring) (s : jsstring) :
  no_star a -> bold_go 0 (a ++ s) = a ++ bold_go 0 s.
Proof.
  induction 1 as [ | c a C _ IH]; [reflexivity | ].
  change ((c :: a) ++ s) with (c :: (a ++ s)).
  rewrite bold_go_zero, (two_stars_no_star c _ C). simpl. f_equal. exact IH.
Qed.

Lemma find_close_cons (c : code_unit) (s : jsstring) :
  find_close (c :: s)
  = if two_stars (c :: s) then Some []
    else if is_line_terminator c then None
    else match find_close s with
         | Some content => Some (c :: content)
         | None => None
         end.
Proof. reflexivity. Qed.

Lemma find_close_inner (b s : jsstring) :
  no_star b -> one_line b -> find_close (b ++ 42 :: 42 :: s) = Some b.
Proof.
  induction b as [ | c b IH]; intros S L; [reflexivity | ].
  inversion S as [ | ? ? C Sb]; inversion L as [ | ? ? Lc Lb]; subst.
  change ((c :: b) ++ 42 :: 42 :: s) with (c :: (b ++ 42 :: 42 :: s)).
  rewrite find_close_cons, (two_stars_no_star c _ C), Lc, (IH Sb Lb). reflexivity.
Qed.

End Bold.

(** A text with no two asterisks in a row is handed on unchanged: whatever
    markup the report carries in such a line is what [dangerouslySetInnerHTML]
    receives, nothing is escaped. *)
Theorem markup_without_bold_is_injected_verbatim :
  forall line : jsstring,
    JsString.includes (JsString.trim line) (js "**") = false ->
    JsString.trim line <> [] ->
    Report.render_line line
    = if JsString.startsWith (JsString.trim line) (js "- ")
         || JsString.startsWith (JsString.trim line) (js "* ")
      then Report.Bullet (skipn 2 (JsString.trim line))
      else Report.Paragraph (JsString.trim line).
Proof.
  intros line H N. unfold Report.render_line.
  destruct (JsString.trim line) as [ | c t] eqn:T; [congruence | ].
  destruct (JsString.startsWith (c :: t) (js "- ") || JsString.startsWith (c :: t) (js "* ")).
  - f_equal. apply bold_go_plain.
    destruct t as [ | d t]; [reflexivity | ]. simpl skipn.
    exact (includes_tail d t _ (includes_tail c (d :: t) _ H)).
  - f_equal. apply bold_go_plain. exact H.
Qed.

Lemma markup_without_bold_witness :
  Report.render_line (js "  <img src=x onerror=alert(1)> ")
  = Report.Paragraph (js "<img src=x onerror=alert(1)>").
Proof.
  rewrite (markup_without_bold_is_injected_verbatim (js "  <img src=x onerror=alert(1)> ")).
  - vm_compute. reflexivity.
  - vm_compute. reflexivity.
  - vm_compute. discriminate.
Defined.

(** Two asterisks, a text with no asterisk and no line terminator, and two
    asterisks become that text between the opening and the closing tag; the
    text before, when it has no asterisk, is kept, and the replacement goes
    on after the closing asterisks. *)
Theorem bold_wraps_the_marked_text :
  forall a b c : jsstring,
    no_star a -> no_star b -> one_line b ->
    Report.bold (a ++ js "**" ++ b ++ js "**" ++ c)
    = a ++ Report.strong_open ++ b ++ Report.strong_close ++ Report.bold c.
Proof.
  intros a b c A B L. unfold Report.bold.
  rewrite (bold_go_before a _ A). f_equal.
  change (js "**" ++ b ++ js "**" ++ c) with (42 :: 42 :: b ++ 42 :: 42 :: c).
  rewrite bold_go_zero.
  change (Report.two_stars (42 :: 42 :: b ++ 42 :: 42 :: c)) with true.
  cbn [tl]. rewrite (find_close_inner b c B L).
  assert (K : Report.bold_go (List.length b + 3) (42 :: b ++ 42 :: 42 :: c)
              = Report.bold_go 0 c).
  { replace (List.length b + 3)%nat with (List.length (42 :: b ++ [42; 42]))
      by (simpl; rewrite length_app; simpl; lia).
    replace (42 :: b ++ 42 :: 42 :: c) with ((42 :: b ++ [42; 42]) ++ c)
      by (simpl; rewrite <- app_assoc; reflexivity).
    apply bold_go_skip. }
  rewrite K. reflexivity.
Qed.

Lemma bold_wraps_witness :
  Report.bold (js "Net " ++ js "**" ++ js "profit" ++ js "**" ++ js " up")
  = js "Net " ++ Report.strong_open ++ js "profit" ++ Report.strong_close
       ++ Report.bold (js " up").
Proof.
  apply (bold_wraps_the_marked_text (js "Net ") (js "profit") (js " up"));
    vm_compute; repeat constructor.
Defined.

(* ------------------------------------------------------------------ *)
(** ** The payload of an upload *)
(* ------------------------------------------------------------------ *)

Example csv_payload_example :
  csv_payload (js "a,b
1,ก") = Handed (Some (js "YSxiCjEs4LiB")) (js "text/csv")
  /\ Decode.payload (js "YSxiCjEs4LiB") = js "a,b
1,ก"
  /\ csv_payload [97; 55357] = Uncaught (js "URIError")
  /\ csv_payload [55357; 56832] = Handed (Some (js "8J+YgA==")) (js "text/csv")
  /\ Uri.unescape (js "%u0041%41%4g%") = js "AA%4g%".
Proof. vm_compute. repeat split; reflexivity. Qed.

Section Payload.

Ltac arith := zify; Z.to_euclidean_division_equations; lia.

Ltac bools :=
  repeat match goal with
  | H : (_ && _)%bool = true |- _ => apply andb_true_iff in H; destruct H
  | H : (_ && _)%bool = false |- _ => apply andb_false_iff in H
  | H : (_ || _)%bool = true |- _ => apply orb_true_iff in H
  | H : (_ || _)%bool = false |- _ => apply orb_false_iff in H; destruct H
  | H : (_ <=? _) = true |- _ => apply N.leb_le in H
  | H : (_ <=? _) = false |- _ => apply N.leb_gt in H
  | H : (_ <? _) = true |- _ => apply N.ltb_lt in H
  | H : (_ <? _) = false |- _ => apply N.ltb_ge in H
  | H : (_ =? _) = true |- _ => apply N.eqb_eq in H
  | H : (_ =? _) = false |- _ => apply N.eqb_neq in H
  end.

Ltac splits :=
  bools; repeat (match goal with H : _ \/ _ |- _ => destruct H end; bools).

Ltac cases :=
  repeat match goal with
  | |- context [if ?b then _ else _] => destruct b eqn:?
  end; bools.

Lemma hex_value_digit d : d < 16 -> Json.hex_value (Uri.hex_digit d) = Some d.
Proof.
  intros H. unfold Uri.hex_digit.
  destruct (d <? 10) eqn:D; unfold Json.hex_value, Json.is_digit;
    cases; try f_equal; try arith; splits; arith.
Qed.

Lemma hex_u4_none h l : h <> 117 -> Uri.hex_u4 (h :: l) = None.
Proof.
  intros H. apply N.eqb_neq in H.
  destruct l as [ | a [ | b [ | c [ | d l]]]]; simpl; try reflexivity.
  rewrite H. reflexivity.
Qed.

Lemma hex_digit_range d : d < 16 -> Uri.hex_digit d <> 117.
Proof. intros H. unfold Uri.hex_digit. destruct (d <? 10) eqn:D; bools; arith. Qed.

Lemma unescape_percent b rest :
  b < 256 ->
  Uri.unescape_go 0 (Uri.percent b ++ rest) = b :: Uri.unescape_go 0 rest.
Proof.
  intros H.
  assert (b / 16 < 16) as H1 by arith.
  assert (b mod 16 < 16) as H2 by arith.
  unfold Uri.percent.
  change (Uri.unescape_go 0 ([37; Uri.hex_digit (b / 16); Uri.hex_digit (b mod 16)] ++ rest))
    with (match Uri.hex_u4 (Uri.hex_digit (b / 16) :: Uri.hex_digit (b mod 16) :: rest) with
          | Some v => v :: Uri.unescape_go 5 (Uri.hex_digit (b / 16) :: Uri.hex_digit (b mod 16) :: rest)
          | None =>
            match Uri.hex2 (Uri.hex_digit (b / 16) :: Uri.hex_digit (b mod 16) :: rest) with
            | Some v => v :: Uri.unescape_go 0 rest
            | None => 37 :: Uri.unescape_go 0 (Uri.hex_digit (b / 16) :: Uri.hex_digit (b mod 16) :: rest)
            end
          end).
  rewrite hex_u4_none by (apply hex_digit_range; assumption).
  unfold Uri.hex2. rewrite !hex_value_digit by assumption.
  f_equal. arith.
Qed.

Lemma unescape_octets bs rest :
  Forall (fun b => b < 256) bs ->
  Uri.unescape_go 0 (Uri.escape_octets bs ++ rest) = bs ++ Uri.unescape_go 0 rest.
Proof.
  induction 1 as [ | b bs B _ IH]; [reflexivity | ].
  change (Uri.escape_octets (b :: bs)) with (Uri.percent b ++ Uri.escape_octets bs).
  rewrite <- app_assoc, unescape_percent by assumption.
  rewrite IH. reflexivity.
Qed.

Lemma unescape_plain c rest :
  c <> 37 -> Uri.unescape_go 0 (c :: rest) = c :: Uri.unescape_go 0 rest.
Proof.
  intros H. apply N.eqb_neq in H. simpl. rewrite H. reflexivity.
Qed.

Lemma unreserved_ascii c : Uri.unreserved c = true -> c < 128 /\ c <> 37.
Proof.
  unfold Uri.unreserved. intros H. splits; arith.
Qed.

Lemma utf8_octets_range v : v < 1114112 -> Forall (fun b => b < 256) (Uri.utf8 v).
Proof.
  intros H. unfold Uri.utf8. cases; repeat constructor; arith.
Qed.

Lemma code_point_range hi lo :
  Uri.is_high_surrogate hi = true -> Uri.is_low_surrogate lo = true ->
  65536 <= Uri.code_point hi lo < 1114112.
Proof.
  unfold Uri.is_high_surrogate, Uri.is_low_surrogate, Uri.code_point.
  intros H L. bools. arith.
Qed.

(** Induction that can step over a surrogate pair. *)
Lemma pairs_induction (P : jsstring -> Prop) :
  P [] ->
  (forall c s, P s -> (forall lo s', s = lo :: s' -> P s') -> P (c :: s)) ->
  forall s, P s.
Proof.
  intros H0 H1 s.
  assert (P s /\ forall lo s', s = lo :: s' -> P s') as [H _]; [ | exact H].
  induction s as [ | c s [IH1 IH2]].
  - split; [exact H0 | discriminate].
  - split.
    + apply H1; assumption.
    + intros lo s' E. injection E as _ <-. exact IH1.
Qed.

Lemma encode_well_formed (csv : jsstring) :
  well_formed csv ->
  exists escaped,
    Uri.encodeURIComponent csv = Some escaped
    /\ Uri.unescape escaped = utf8_octets csv
    /\ Forall (fun b => b < 256) (utf8_octets csv).
Proof.
  unfold Uri.unescape.
  induction csv as [ | c s IH1 IH2] using pairs_induction; intros W.
  - exists []. repeat split; constructor.
  - destruct W as [R W]. simpl Uri.encodeURIComponent. simpl utf8_octets.
    destruct (Uri.unreserved c) eqn:U.
    + destruct (unreserved_ascii c U) as [A N37].
      assert (Uri.is_low_surrogate c = false) as L
        by (unfold Uri.is_low_surrogate; apply andb_false_iff; left;
            apply N.leb_gt; arith).
      assert (Uri.is_high_surrogate c = false) as Hi
        by (unfold Uri.is_high_surrogate; apply andb_false_iff; left;
            apply N.leb_gt; arith).
      rewrite L, Hi in *.
      destruct (IH1 W) as (e & E1 & E2 & E3). exists (c :: e).
      rewrite E1. split; [reflexivity | ].
      rewrite unescape_plain by assumption. rewrite E2.
      assert (Uri.utf8 c = [c]) as ->
        by (unfold Uri.utf8; apply N.ltb_lt in A; rewrite A; reflexivity).
      split; [reflexivity | ]. constructor; [arith | assumption].
    + destruct (Uri.is_low_surrogate c) eqn:L; [contradiction | ].
      destruct (Uri.is_high_surrogate c) eqn:Hi.
      * destruct s as [ | lo s']; [contradiction | ].
        destruct W as [Lo W]. rewrite Lo.
        destruct (IH2 lo s' eq_refl W) as (e & E1 & E2 & E3).
        pose proof (code_point_range c lo Hi Lo) as CP.
        pose proof (utf8_octets_range (Uri.code_point c lo) (proj2 CP)) as F.
        exists (Uri.escape_octets (Uri.utf8 (Uri.code_point c lo)) ++ e).
        rewrite E1. split; [reflexivity | ].
        rewrite unescape_octets by assumption. rewrite E2.
        split; [reflexivity | ]. apply Forall_app. split; assumption.
      * destruct (IH1 W) as (e & E1 & E2 & E3).
        assert (c < 1114112) as R' by arith.
        pose proof (utf8_octets_range c R') as F.
        exists (Uri.escape_octets (Uri.utf8 c) ++ e).
        rewrite E1. split; [reflexivity | ].
        rewrite unescape_octets by assumption. rewrite E2.
        split; [reflexivity | ]. apply Forall_app. split; assumption.
Qed.

Lemma encode_some (csv : jsstring) :
  Forall (fun c => c < 65536) csv ->
  Uri.encodeURIComponent csv <> None -> well_formed csv.
Proof.
  induction csv as [ | c s IH1 IH2] using pairs_induction; intros R W.
  - exact I.
  - inversion R as [ | ? ? Rc Rs]; subst.
    simpl Uri.encodeURIComponent in W. simpl well_formed.
    split; [assumption | ].
    destruct (Uri.unreserved c) eqn:U.
    + destruct (unreserved_ascii c U) as [A N37].
      assert (Uri.is_low_surrogate c = false) as L
        by (unfold Uri.is_low_surrogate; apply andb_false_iff; left;
            apply N.leb_gt; arith).
      assert (Uri.is_high_surrogate c = false) as Hi
        by (unfold Uri.is_high_surrogate; apply andb_false_iff; left;
            apply N.leb_gt; arith).
      rewrite L, Hi. apply IH1; [assumption | ].
      intros E. rewrite E in W. apply W. reflexivity.
    + destruct (Uri.is_low_surrogate c) eqn:L; [exfalso; apply W; reflexivity | ].
      destruct (Uri.is_high_surrogate c) eqn:Hi.
      * destruct s as [ | lo s']; [exfalso; apply W; reflexivity | ].
        destruct (Uri.is_low_surrogate lo) eqn:Lo; [ | exfalso; apply W; reflexivity].
        split; [reflexivity | ].
        inversion Rs; subst.
        apply (IH2 lo s' eq_refl); [assumption | ].
        intros E. rewrite E in W. apply W. reflexivity.
      * apply IH1; [assumption | ].
        intros E. rewrite E in W. apply W. reflexivity.
Qed.

(** *** Base64 *)

Lemma triples_induction (P : list N -> Prop) :
  P [] -> (forall a, P [a]) -> (forall a b, P [a; b]) ->
  (forall a b c rest, P rest -> P (a :: b :: c :: rest)) ->
  forall l, P l.
Proof.
  intros H0 H1 H2 H3. fix IH 1.
  intros [ | a [ | b [ | c rest]]];
    [exact H0 | apply H1 | apply H2 | apply H3; apply IH].
Qed.

Lemma sextet_letter i : i < 64 -> Decode.sextet (Base64.letter i) = i.
Proof.
  intros H. unfold Base64.letter.
  destruct (i <? 26) eqn:A; [ | destruct (i <? 52) eqn:B;
    [ | destruct (i <? 62) eqn:C; [ | destruct (i =? 62) eqn:D]]];
    unfold Decode.sextet; cases; try arith; splits; arith.
Qed.

Lemma letter_is_no_separator i : Base64.letter i <> 61 /\ Base64.letter i <> 44.
Proof.
  unfold Base64.letter.
  destruct (i <? 26) eqn:A; [ | destruct (i <? 52) eqn:B;
    [ | destruct (i <? 62) eqn:C; [ | destruct (i =? 62) eqn:D]]];
    bools; arith.
Qed.

Lemma base64_quad w x y z rest :
  Decode.base64 (w :: x :: y :: z :: rest)
  = if y =? 61 then [Decode.sextet w * 4 + Decode.sextet x / 16]
    else if z =? 61 then
      [Decode.sextet w * 4 + Decode.sextet x / 16;
       (Decode.sextet x mod 16) * 16 + Decode.sextet y / 4]
    else (Decode.sextet w * 4 + Decode.sextet x / 16)
         :: ((Decode.sextet x mod 16) * 16 + Decode.sextet y / 4)
         :: ((Decode.sextet y mod 4) * 64 + Decode.sextet z)
         :: Decode.base64 rest.
Proof. reflexivity. Qed.

Lemma encode_triple a b c rest :
  Base64.encode (a :: b :: c :: rest)
  = Base64.letter (a / 4) :: Base64.letter ((a mod 4) * 16 + b / 16)
    :: Base64.letter ((b mod 16) * 4 + c / 64) :: Base64.letter (c mod 64)
    :: Base64.encode rest.
Proof. reflexivity. Qed.

Lemma letter_eqb i : (Base64.letter i =? 61) = false.
Proof. apply N.eqb_neq. apply letter_is_no_separator. Qed.

Lemma base64_round_trip bytes :
  Forall (fun b => b < 256) bytes -> Decode.base64 (Base64.encode bytes) = bytes.
Proof.
  induction bytes as [ | a | a b | a b c rest IH] using triples_induction;
    intros F.
  - reflexivity.
  - inversion F as [ | ? ? A _]; subst.
    change (Base64.encode [a])
      with [Base64.letter (a / 4); Base64.letter ((a mod 4) * 16); 61; 61].
    rewrite base64_quad. change (61 =? 61) with true. cbv iota.
    rewrite !sextet_letter by arith. f_equal. arith.
  - inversion F as [ | ? ? A F1]; subst. inversion F1 as [ | ? ? B _]; subst.
    change (Base64.encode [a; b])
      with [Base64.letter (a / 4); Base64.letter ((a mod 4) * 16 + b / 16);
            Base64.letter ((b mod 16) * 4); 61].
    rewrite base64_quad, letter_eqb. change (61 =? 61) with true. cbv iota.
    rewrite !sextet_letter by arith. f_equal; [arith | f_equal; arith].
  - inversion F as [ | ? ? A F1]; subst. inversion F1 as [ | ? ? B F2]; subst.
    inversion F2 as [ | ? ? C F3]; subst.
    rewrite encode_triple, base64_quad, !letter_eqb.
    rewrite !sextet_letter by arith. rewrite (IH F3).
    f_equal; [arith | f_equal; [arith | f_equal; arith]].
Qed.

Lemma encode_has_no_comma bytes : ~ In 44 (Base64.encode bytes).
Proof.
  induction bytes as [ | a | a b | a b c rest IH] using triples_induction.
  - intros [].
  - change (Base64.encode [a])
      with [Base64.letter (a / 4); Base64.letter ((a mod 4) * 16); 61; 61].
    intros [E | [E | [E | [E | []]]]];
      try discriminate E; revert E; apply letter_is_no_separator.
  - change (Base64.encode [a; b])
      with [Base64.letter (a / 4); Base64.letter ((a mod 4) * 16 + b / 16);
            Base64.letter ((b mod 16) * 4); 61].
    intros [E | [E | [E | [E | []]]]];
      try discriminate E; revert E; apply letter_is_no_separator.
  - rewrite encode_triple.
    intros [E | [E | [E | [E | E]]]]; try (revert E; apply letter_is_no_separator).
    exact (IH E).
Qed.

(** *** UTF-8 *)

Lemma land_63 x : N.land x 63 = x mod 64.
Proof. change 63 with (N.ones 6). rewrite N.land_ones. reflexivity. Qed.
Lemma land_31 x : N.land x 31 = x mod 32.
Proof. change 31 with (N.ones 5). rewrite N.land_ones. reflexivity. Qed.
Lemma land_15 x : N.land x 15 = x mod 16.
Proof. change 15 with (N.ones 4). rewrite N.land_ones. reflexivity. Qed.
Lemma land_7 x : N.land x 7 = x mod 8.
Proof. change 7 with (N.ones 3). rewrite N.land_ones. reflexivity. Qed.
Lemma land_1023 x : N.land x 1023 = x mod 1024.
Proof. change 1023 with (N.ones 10). rewrite N.land_ones. reflexivity. Qed.
Lemma shiftl_6 x : N.shiftl x 6 = x * 64.
Proof. rewrite N.shiftl_mul_pow2. reflexivity. Qed.
Lemma shiftl_12 x : N.shiftl x 12 = x * 4096.
Proof. rewrite N.shiftl_mul_pow2. reflexivity. Qed.
Lemma shiftl_18 x : N.shiftl x 18 = x * 262144.
Proof. rewrite N.shiftl_mul_pow2. reflexivity. Qed.
Lemma shiftr_10 x : N.shiftr x 10 = x / 1024.
Proof. rewrite N.shiftr_div_pow2. reflexivity. Qed.

Lemma byte_of_octet b : b < 256 -> Utf8.byte (ascii_of_N b) = b.
Proof. intros H. unfold Utf8.byte. apply N_ascii_embedding. assumption. Qed.

Lemma cont_of_octet y : y < 64 -> Utf8.cont (ascii_of_N (128 + y)) = y.
Proof.
  intros H. unfold Utf8.cont. rewrite byte_of_octet by arith.
  rewrite land_63. arith.
Qed.

Lemma decode_cons a s1 :
  Utf8.decode (String a s1)
  = if Utf8.byte a <? 128 then Utf8.byte a :: Utf8.decode s1
    else if Utf8.byte a <? 224 then
      match s1 with
      | String a1 s2 =>
        (N.shiftl (N.land (Utf8.byte a) 31) 6 + Utf8.cont a1) :: Utf8.decode s2
      | _ => []
      end
    else if Utf8.byte a <? 240 then
      match s1 with
      | String a1 (String a2 s3) =>
        (N.shiftl (N.land (Utf8.byte a) 15) 12 + N.shiftl (Utf8.cont a1) 6
         + Utf8.cont a2) :: Utf8.decode s3
      | _ => []
      end
    else
      match s1 with
      | String a1 (String a2 (String a3 s4)) =>
        Utf8.surrogates (N.shiftl (N.land (Utf8.byte a) 7) 18
                         + N.shiftl (Utf8.cont a1) 12
                         + N.shiftl (Utf8.cont a2) 6 + Utf8.cont a3)
        ++ Utf8.decode s4
      | _ => []
      end.
Proof. reflexivity. Qed.

Lemma text_of_octets_cons b bs :
  Decode.text_of_octets (b :: bs) = String (ascii_of_N b) (Decode.text_of_octets bs).
Proof. reflexivity. Qed.

Lemma decode_unit v rest :
  v < 65536 ->
  Utf8.decode (Decode.text_of_octets (Uri.utf8 v ++ rest))
  = v :: Utf8.decode (Decode.text_of_octets rest).
Proof.
  intros H. unfold Uri.utf8.
  destruct (v <? 128) eqn:A; [ | destruct (v <? 2048) eqn:B;
    [ | destruct (v <? 65536) eqn:C]]; bools; try arith.
  - cbn [app]. rewrite text_of_octets_cons, decode_cons.
    rewrite byte_of_octet by arith.
    apply N.ltb_lt in A. rewrite A. reflexivity.
  - cbn [app]. rewrite !text_of_octets_cons, decode_cons.
    rewrite byte_of_octet by arith.
    assert ((192 + v / 64 <? 128) = false) as -> by (apply N.ltb_ge; arith).
    assert ((192 + v / 64 <? 224) = true) as -> by (apply N.ltb_lt; arith).
    rewrite cont_of_octet by arith. rewrite land_31, shiftl_6.
    f_equal. arith.
  - cbn [app]. rewrite !text_of_octets_cons, decode_cons.
    rewrite byte_of_octet by arith.
    assert ((224 + v / 4096 <? 128) = false) as -> by (apply N.ltb_ge; arith).
    assert ((224 + v / 4096 <? 224) = false) as -> by (apply N.ltb_ge; arith).
    assert ((224 + v / 4096 <? 240) = true) as -> by (apply N.ltb_lt; arith).
    rewrite !cont_of_octet by arith. rewrite land_15, shiftl_12, shiftl_6.
    f_equal. arith.
Qed.

Lemma decode_pair v rest :
  65536 <= v < 1114112 ->
  Utf8.decode (Decode.text_of_octets (Uri.utf8 v ++ rest))
  = Utf8.surrogates v ++ Utf8.decode (Decode.text_of_octets rest).
Proof.
  intros H. unfold Uri.utf8.
  assert ((v <? 128) = false) as -> by (apply N.ltb_ge; arith).
  assert ((v <? 2048) = false) as -> by (apply N.ltb_ge; arith).
  assert ((v <? 65536) = false) as -> by (apply N.ltb_ge; arith).
  cbn [app]. rewrite !text_of_octets_cons, decode_cons.
  rewrite byte_of_octet by arith.
  assert ((240 + v / 262144 <? 128) = false) as -> by (apply N.ltb_ge; arith).
  assert ((240 + v / 262144 <? 224) = false) as -> by (apply N.ltb_ge; arith).
  assert ((240 + v / 262144 <? 240) = false) as -> by (apply N.ltb_ge; arith).
  rewrite !cont_of_octet by arith. rewrite land_7, shiftl_18, shiftl_12, shiftl_6.
  f_equal. f_equal. arith.
Qed.

Lemma surrogates_of_pair hi lo :
  Uri.is_high_surrogate hi = true -> Uri.is_low_surrogate lo = true ->
  Utf8.surrogates (Uri.code_point hi lo) = [hi; lo].
Proof.
  unfold Uri.is_high_surrogate, Uri.is_low_surrogate, Uri.code_point, Utf8.surrogates.
  intros H L. bools. cbv zeta. rewrite shiftr_10, land_1023.
  f_equal; [arith | f_equal; arith].
Qed.

Lemma decode_octets (csv : jsstring) :
  well_formed csv -> Utf8.decode (Decode.text_of_octets (utf8_octets csv)) = csv.
Proof.
  induction csv as [ | c s IH1 IH2] using pairs_induction; intros W.
  - reflexivity.
  - destruct W as [R W]. simpl utf8_octets.
    destruct (Uri.is_low_surrogate c) eqn:L; [contradiction | ].
    destruct (Uri.is_high_surrogate c) eqn:Hi.
    + destruct s as [ | lo s']; [contradiction | ].
      destruct W as [Lo W].
      rewrite decode_pair by (apply code_point_range; assumption).
      rewrite surrogates_of_pair by assumption.
      rewrite (IH2 lo s' eq_refl W). reflexivity.
    + rewrite decode_unit by assumption. rewrite (IH1 W). reflexivity.
Qed.

Lemma btoa_octets bs :
  Forall (fun b => b < 256) bs -> Base64.btoa bs = Some (Base64.encode bs).
Proof.
  intros F. unfold Base64.btoa.
  assert (forallb (fun c => c <=? 255) bs = true) as ->; [ | reflexivity].
  apply forallb_forall. intros x X. apply N.leb_le.
  rewrite Forall_forall in F. specialize (F x X). arith.
Qed.

Lemma csv_payload_well_formed (csv : jsstring) :
  well_formed csv ->
  csv_payload csv = Handed (Some (Base64.encode (utf8_octets csv))) (js "text/csv")
  /\ Decode.payload (Base64.encode (utf8_octets csv)) = csv.
Proof.
  intros W. destruct (encode_well_formed csv W) as (e & E1 & E2 & E3).
  unfold csv_payload. rewrite E1, E2, (btoa_octets _ E3).
  split; [reflexivity | ].
  unfold Decode.payload. rewrite (base64_round_trip _ E3).
  apply decode_octets. assumption.
Qed.

(** *** The data URL *)

Lemma split_on_no_separator sep (s : jsstring) :
  ~ In sep s -> Report.split_on sep s = [s].
Proof.
  induction s as [ | c s IH]; intros H; [reflexivity | ].
  simpl. destruct (c =? sep) eqn:E.
  - apply N.eqb_eq in E. exfalso. apply H. left. assumption.
  - rewrite IH; [reflexivity | ]. intros X. apply H. right. assumption.
Qed.

Lemma split_on_first sep (h p : jsstring) :
  ~ In sep h -> Report.split_on sep (h ++ sep :: p) = h :: Report.split_on sep p.
Proof.
  induction h as [ | c h IH]; intros H.
  - simpl. rewrite N.eqb_refl. reflexivity.
  - simpl. destruct (c =? sep) eqn:E.
    + apply N.eqb_eq in E. exfalso. apply H. left. assumption.
    + rewrite IH; [reflexivity | ]. intros X. apply H. right. assumption.
Qed.

End Payload.

(** For a spreadsheet whose first sheet converts to a well-formed text,
    the load callback hands over, under the fixed type text/csv, a payload
    that is the base64 of the UTF-8 octets of that text: decoding it gives
    the text back, whatever the characters in it. *)
Theorem spreadsheet_payload_decodes_to_the_csv (file : File.t) (r : Reading) :
  isSpreadsheet file = true ->
  well_formed (first_sheet_csv r) ->
  exists base64Data,
    handleFileChange_load file r = Handed (Some base64Data) (js "text/csv")
    /\ base64Data = Base64.encode (utf8_octets (first_sheet_csv r))
    /\ Decode.payload base64Data = first_sheet_csv r.
Proof.
  intros S W. unfold handleFileChange_load. rewrite S.
  destruct (csv_payload_well_formed _ W) as [E D].
  eexists. split; [exact E | ]. split; [reflexivity | exact D].
Qed.

Lemma spreadsheet_payload_witness :
  exists base64Data,
    handleFileChange_load {| File.name := js "ledger.csv"; File.type := [] |}
      {| first_sheet_csv := js "a,ก"; data_url := [] |}
    = Handed (Some base64Data) (js "text/csv")
    /\ base64Data = Base64.encode (utf8_octets (js "a,ก"))
    /\ Decode.payload base64Data = js "a,ก".
Proof.
  apply (spreadsheet_payload_decodes_to_the_csv
           {| File.name := js "ledger.csv"; File.type := [] |}
           {| first_sheet_csv := js "a,ก"; data_url := [] |});
    vm_compute; repeat split; reflexivity.
Defined.

(** The conversion of a spreadsheet fails exactly when the text of the
    sheet holds a surrogate without its partner: [encodeURIComponent] then
    throws a URIError inside the load callback, nothing is handed over, and
    [btoa] never rejects what [unescape] produced. *)
Theorem spreadsheet_payload_fails_exactly_on_a_lone_surrogate
  (file : File.t) (r : Reading) :
  isSpreadsheet file = true ->
  Forall (fun c => c < 65536) (first_sheet_csv r) ->
  (handleFileChange_load file r = Uncaught (js "URIError")
   <-> ~ well_formed (first_sheet_csv r))
  /\ handleFileChange_load file r <> Uncaught (js "InvalidCharacterError").
Proof.
  intros S R. unfold handleFileChange_load. rewrite S.
  destruct (Uri.encodeURIComponent (first_sheet_csv r)) as [e | ] eqn:E.
  - assert (well_formed (first_sheet_csv r)) as W
      by (apply encode_some; [assumption | rewrite E; discriminate]).
    destruct (csv_payload_well_formed _ W) as [P _]. rewrite P.
    split; [split | ]; try discriminate. intros N. contradiction.
  - unfold csv_payload. rewrite E. split; [split | ].
    + intros _ W. destruct (csv_payload_well_formed _ W) as [P _].
      unfold csv_payload in P. rewrite E in P. discriminate P.
    + reflexivity.
    + vm_compute. discriminate.
Qed.

Lemma spreadsheet_payload_fails_witness :
  (handleFileChange_load {| File.name := js "ledger.csv"; File.type := [] |}
     {| first_sheet_csv := [97; 55357]; data_url := [] |}
   = Uncaught (js "URIError")
   <-> ~ well_formed [97; 55357])
  /\ handleFileChange_load {| File.name := js "ledger.csv"; File.type := [] |}
       {| first_sheet_csv := [97; 55357]; data_url := [] |}
     <> Uncaught (js "InvalidCharacterError").
Proof.
  apply (spreadsheet_payload_fails_exactly_on_a_lone_surrogate
           {| File.name := js "ledger.csv"; File.type := [] |}
           {| first_sheet_csv := [97; 55357]; data_url := [] |}).
  - vm_compute. reflexivity.
  - repeat constructor.
Defined.

(** For any other file, read as a data URL whose part before the first
    comma is followed by the base64 of the file's octets, the payload handed
    over is exactly that base64 text, and its type is the declared type of
    the file, or text/plain when the file declares none: it is never
    empty. *)
Theorem other_file_payload_is_the_base64_part
  (file : File.t) (r : Reading) (header : jsstring) (octets : list N) :
  isSpreadsheet file = false ->
  data_url r = header ++ 44 :: Base64.encode octets ->
  ~ In 44 header ->
  exists mimeType,
    handleFileChange_load file r = Handed (Some (Base64.encode octets)) mimeType
    /\ mimeType <> []
    /\ (File.type file <> [] -> mimeType = File.type file)
    /\ (File.type file = [] -> mimeType = js "text/plain").
Proof.
  intros S U H. unfold handleFileChange_load. rewrite S, U.
  rewrite split_on_first by assumption.
  rewrite split_on_no_separator by apply encode_has_no_comma.
  eexists. split; [reflexivity | ].
  destruct (File.type file) as [ | c t]; simpl.
  - repeat split; try reflexivity; try discriminate. intros X. now contradiction X.
  - repeat split; try reflexivity; discriminate.
Qed.

Lemma other_file_payload_witness :
  exists mimeType,
    handleFileChange_load
      {| File.name := js "statement.pdf"; File.type := js "application/pdf" |}
      {| first_sheet_csv := [];
         data_url := js "data:application/pdf;base64" ++ 44 :: Base64.encode [37; 80; 68; 70] |}
    = Handed (Some (Base64.encode [37; 80; 68; 70])) mimeType
    /\ mimeType <> []
    /\ (js "application/pdf" <> [] -> mimeType = js "application/pdf")
    /\ (js "application/pdf" = [] -> mimeType = js "text/plain").
Proof.
  apply (other_file_payload_is_the_base64_part
           {| File.name := js "statement.pdf"; File.type := js "application/pdf" |}
           {| first_sheet_csv := [];
              data_url := js "data:application/pdf;base64" ++ 44 :: Base64.encode [37; 80; 68; 70] |}
           (js "data:application/pdf;base64") [37; 80; 68; 70]).
  - vm_compute. reflexivity.
  - reflexivity.
  - vm_compute. intuition discriminate.
Defined.

(** When the data URL delivered by the reader has no comma, the second
    element of the split does not exist: the callback still calls
    [onFileUpload], with [data] undefined. *)
Theorem other_file_payload_is_undefined_without_a_comma
  (file : File.t) (r : Reading) :
  isSpreadsheet file = false ->
  ~ In 44 (data_url r) ->
  exists mimeType, handleFileChange_load file r = Handed None mimeType.
Proof.
  intros S H. unfold handleFileChange_load. rewrite S.
  rewrite split_on_no_separator by assumption.
  eexists. reflexivity.
Qed.

Lemma other_file_payload_undefined_witness :
  exists mimeType,
    handleFileChange_load
      {| File.name := js "empty.pdf"; File.type := js "application/pdf" |}
      {| first_sheet_csv := []; data_url := js "data:" |}
    = Handed None mimeType.
Proof.
  apply (other_file_payload_is_undefined_without_a_comma
           {| File.name := js "empty.pdf"; File.type := js "application/pdf" |}
           {| first_sheet_csv := []; data_url := js "data:" |}).
  - vm_compute. reflexivity.
  - vm_compute. intuition discriminate.
Defined.
